(** * T4KA3 camera sensor driver: register programming and streaming

    A shallow embedding of the parts of
    [drivers/staging/media/atomisp/i2c/atomisp-t4ka3.c] and [t4ka3.h]
    that program the sensor: the batched register-write coalescer, the
    stream on/off sequence, exposure and gain programming, flip handling
    with its Bayer-order table, and nearest-resolution selection.

    C integers are modelled as [Z] with the casts of the source written
    out; arrays are lists with bounds-checked stores; calls into the
    kernel (I2C adapter, runtime PM, CCI register helpers, the V4L2
    control framework) are recorded in a log and answered by an oracle. *)

From Stdlib Require Import ZArith Lia List Bool.
From stdpp Require Import base list.
Import ListNotations.
Open Scope Z_scope.

(** ** Error numbers and integer casts *)

Definition EPERM : Z := 1.
Definition EIO : Z := 5.
Definition EBUSY : Z := 16.
Definition EINVAL : Z := 22.

Definition INT_MAX : Z := 2147483647.

(** [(u8) x], [(u16) x], [(u32) x] and [(int) x]. *)
Definition u8 (x : Z) : Z := Z.land x 0xff.
Definition u16 (x : Z) : Z := Z.land x 0xffff.
Definition u32 (x : Z) : Z := x mod 2 ^ 32.
Definition s32 (x : Z) : Z := (x + 2 ^ 31) mod 2 ^ 32 - 2 ^ 31.

(** [cpu_to_be16] on the little-endian CPUs the atomisp runs on: a byte
    swap of a 16-bit quantity. *)
Definition cpu_to_be16 (x : Z) : Z :=
  Z.lor (Z.shiftl (Z.land x 0x00ff) 8) (Z.shiftr (Z.land x 0xff00) 8).

(** The two bytes a little-endian CPU keeps in memory for a [u16]. *)
Definition u16_mem (x : Z) : list Z :=
  [Z.land x 0xff; Z.land (Z.shiftr x 8) 0xff].

(** A 16-bit quantity as it must appear on the wire: high byte first. *)
Definition be16 (x : Z) : list Z :=
  [Z.land (Z.shiftr x 8) 0xff; Z.land x 0xff].

(** Outcome of running code whose C behaviour may be undefined. *)
Inductive fault : Type :=
| OutOfBounds
| MissingTerminator
| DivideByZero.

Inductive exec (A : Type) : Type :=
| Done (a : A)
| Trap (f : fault).
Arguments Done {A} a.
Arguments Trap {A} f.

Definition exec_bind {A B} (m : exec A) (k : A -> exec B) : exec B :=
  match m with
  | Done a => k a
  | Trap f => Trap f
  end.

(** ** The batched register writer (t4ka3_write_reg_array) *)

Module RegArray.

(** enum t4ka3_tok_type *)
Definition T4KA3_8BIT : Z := 0x0001.
Definition T4KA3_16BIT : Z := 0x0002.
Definition T4KA3_RMW : Z := 0x0010.
Definition T4KA3_TOK_TERM : Z := 0xf000.
Definition T4KA3_TOK_DELAY : Z := 0xfe00.
Definition T4KA3_TOK_MASK : Z := 0xfff0.

Definition T4KA3_MAX_WRITE_BUF_SIZE : Z := 30.

(** struct t4ka3_reg *)
Record t4ka3_reg : Type := {
  type : Z;
  sreg : Z;
  val : Z
}.

(** struct t4ka3_write_buffer: a [u16] address followed by 30 data bytes. *)
Record t4ka3_write_buffer : Type := {
  addr : Z;
  data : list Z
}.

(** struct t4ka3_write_ctrl *)
Record t4ka3_write_ctrl : Type := {
  index : Z;
  buffer : t4ka3_write_buffer
}.

(** What the I2C adapter has seen: every message handed to
    [i2c_transfer], oldest first, and every [msleep]. *)
Record i2c_bus : Type := {
  xfers : list (list Z);
  sleeps : list Z
}.

(** The memory image of a write buffer, as [(u8 * )&ctrl->buffer] reads it. *)
Definition buffer_mem (b : t4ka3_write_buffer) : list Z :=
  u16_mem (addr b) ++ data b.

(** [data[i] = v], refusing an index outside the array. *)
Definition store8 (d : list Z) (i v : Z) : exec (list Z) :=
  if (0 <=? i) && (i <? Z.of_nat (length d))
  then Done (<[Z.to_nat i := v]> d)
  else Trap OutOfBounds.

(** [*(u16 * )&data[i] = v] on a little-endian CPU. *)
Definition store16 (d : list Z) (i v : Z) : exec (list Z) :=
  match u16_mem v with
  | [lo; hi] =>
      exec_bind (store8 d i lo) (fun d1 => store8 d1 (i + 1) hi)
  | _ => Trap OutOfBounds
  end.

Section Adapter.

(** [i2c_transfer n] is what the adapter answers to the [n]-th transfer
    (counting from 0): the number of messages it moved, or a negative
    errno. *)
Variable i2c_transfer : nat -> Z.

Definition t4ka3_i2c_write (bus : i2c_bus) (len : Z) (mem : list Z)
  : Z * i2c_bus :=
  let ret := i2c_transfer (length (xfers bus)) in
  let bus' := {| xfers := xfers bus ++ [take (Z.to_nat len) mem];
                 sleeps := sleeps bus |} in
  (if ret =? 1 then 0 else - EIO, bus').

Definition msleep (bus : i2c_bus) (ms : Z) : i2c_bus :=
  {| xfers := xfers bus; sleeps := sleeps bus ++ [ms] |}.

Definition __t4ka3_flush_reg_array (bus : i2c_bus) (ctrl : t4ka3_write_ctrl)
  : Z * t4ka3_write_ctrl * i2c_bus :=
  if index ctrl =? 0 then (0, ctrl, bus)
  else
    let size := u16 (2 + index ctrl) in
    let buffer' := {| addr := cpu_to_be16 (addr (buffer ctrl));
                      data := data (buffer ctrl) |} in
    let ctrl' := {| index := 0; buffer := buffer' |} in
    let '(ret, bus') := t4ka3_i2c_write bus size (buffer_mem buffer') in
    (ret, ctrl', bus').

(** The [switch] of __t4ka3_buf_reg_array together with the two
    statements after it: the value is stored at [data[index]], the start
    address is latched for the first item, and [index] advances.  [None]
    is the [default:] case, which returns [-EINVAL]. *)
Definition buf_store (ctrl : t4ka3_write_ctrl) (next : t4ka3_reg)
  : exec (option t4ka3_write_ctrl) :=
  let stored :=
    if type next =? T4KA3_8BIT then
      exec_bind (store8 (data (buffer ctrl)) (index ctrl) (u8 (val next)))
                (fun d => Done (Some (1, d)))
    else if type next =? T4KA3_16BIT then
      exec_bind (store16 (data (buffer ctrl)) (index ctrl)
                         (cpu_to_be16 (u16 (val next))))
                (fun d => Done (Some (2, d)))
    else Done None in
  exec_bind stored (fun o =>
    match o with
    | None => Done None
    | Some (size, d) =>
        let a := if index ctrl =? 0 then sreg next else addr (buffer ctrl) in
        Done (Some {| index := index ctrl + size;
                      buffer := {| addr := a; data := d |} |})
    end).

Definition __t4ka3_buf_reg_array (bus : i2c_bus) (ctrl : t4ka3_write_ctrl)
    (next : t4ka3_reg) : exec (Z * t4ka3_write_ctrl * i2c_bus) :=
  exec_bind (buf_store ctrl next) (fun o =>
    match o with
    | None => Done (- EINVAL, ctrl, bus)
    | Some ctrl' =>
        if T4KA3_MAX_WRITE_BUF_SIZE <=? index ctrl' + 2
        then Done (__t4ka3_flush_reg_array bus ctrl')
        else Done (0, ctrl', bus)
    end).

Definition __t4ka3_write_reg_is_consecutive (ctrl : t4ka3_write_ctrl)
    (next : t4ka3_reg) : bool :=
  if index ctrl =? 0 then true
  else addr (buffer ctrl) + index ctrl =? sreg next.

(** The [default:] case first flushes when the next address does not
    continue the buffered run. *)
Definition gap_flush (bus : i2c_bus) (ctrl : t4ka3_write_ctrl)
    (next : t4ka3_reg) : Z * t4ka3_write_ctrl * i2c_bus :=
  if __t4ka3_write_reg_is_consecutive ctrl next then (0, ctrl, bus)
  else __t4ka3_flush_reg_array bus ctrl.

(** One iteration of the [for] loop, for an entry that is not the
    terminator: either the loop goes on, or the function returns. *)
Inductive step_result : Type :=
| Continue (ctrl : t4ka3_write_ctrl) (bus : i2c_bus)
| Return (err : Z) (ctrl : t4ka3_write_ctrl) (bus : i2c_bus).

Definition reg_step (bus : i2c_bus) (ctrl : t4ka3_write_ctrl)
    (next : t4ka3_reg) : exec step_result :=
  if Z.land (type next) T4KA3_TOK_MASK =? T4KA3_TOK_DELAY then
    let '(err, ctrl1, bus1) := __t4ka3_flush_reg_array bus ctrl in
    if err =? 0 then Done (Continue ctrl1 (msleep bus1 (val next)))
    else Done (Return err ctrl1 bus1)
  else
    let '(err, ctrl1, bus1) := gap_flush bus ctrl next in
    if err =? 0 then
      exec_bind (__t4ka3_buf_reg_array bus1 ctrl1 next) (fun '(err2, ctrl2, bus2) =>
        if err2 =? 0 then Done (Continue ctrl2 bus2)
        else Done (Return err2 ctrl2 bus2))
    else Done (Return err ctrl1 bus1).

(** The [for] loop: [next] walks the array until the terminator.  An
    array without terminator makes the C code read past its end. *)
Fixpoint write_reg_loop (bus : i2c_bus) (ctrl : t4ka3_write_ctrl)
    (next : list t4ka3_reg) : exec (Z * t4ka3_write_ctrl * i2c_bus) :=
  match next with
  | [] => Trap MissingTerminator
  | r :: rest =>
      if type r =? T4KA3_TOK_TERM then Done (__t4ka3_flush_reg_array bus ctrl)
      else
        exec_bind (reg_step bus ctrl r) (fun s =>
          match s with
          | Continue ctrl' bus' => write_reg_loop bus' ctrl' rest
          | Return err ctrl' bus' => Done (err, ctrl', bus')
          end)
  end.

(** [ctrl] is a local whose [index] alone is initialised; [stack] is
    whatever the buffer holds on entry. *)
Definition t4ka3_write_reg_array (stack : t4ka3_write_buffer) (bus : i2c_bus)
    (reglist : list t4ka3_reg) : exec (Z * i2c_bus) :=
  exec_bind (write_reg_loop bus {| index := 0; buffer := stack |} reglist)
            (fun '(err, _, bus') => Done (err, bus')).

End Adapter.

End RegArray.

(** ** Media bus codes and frame formats *)

(** The four Bayer orders of <linux/media-bus-format.h> the driver uses. *)
Inductive mbus_code : Type :=
| MEDIA_BUS_FMT_SGRBG10_1X10
| MEDIA_BUS_FMT_SBGGR10_1X10
| MEDIA_BUS_FMT_SRGGB10_1X10
| MEDIA_BUS_FMT_SGBRG10_1X10.

(** struct v4l2_mbus_framefmt, the fields the driver sets. *)
Record v4l2_mbus_framefmt : Type := {
  width : Z;
  height : Z;
  code : mbus_code
}.

(** ** Streaming, controls, exposure and flip (CCI/regmap revision) *)

Module Sensor.

Definition T4KA3_HFLIP_BIT : Z := 0x1.
Definition T4KA3_VFLIP_BIT : Z := 0x2.

Definition T4KA3_COARSE_INTEGRATION_TIME_MIN : Z := 1.
Definition T4KA3_COARSE_INTEGRATION_TIME_MARGIN : Z := 6.
Definition T4KA3_MAX_EXPOSURE_SUPPORTED : Z :=
  0xffff - T4KA3_COARSE_INTEGRATION_TIME_MARGIN.
Definition T4KA3_MAX_GLOBAL_GAIN_SUPPORTED : Z := 0x07ff.
Definition T4KA3_MIN_GLOBAL_GAIN_SUPPORTED : Z := 0x0080.

(** Modelled from the spec: the macro T4KA3_LINES_PER_FRAME used by
    __t4ka3_set_exposure is not defined in the header under src/ (which
    spells it T4K3A_LINES_PER_FRAME, 2492); the spec gives the default
    frame length as 2492 lines. *)
Definition T4KA3_LINES_PER_FRAME : Z := 2492.

(** A CCI register: its address and its width. *)
Inductive cci_reg : Type :=
| CCI_REG8 (a : Z)
| CCI_REG16 (a : Z).

Definition T4KA3_REG_IMG_ORIENTATION := CCI_REG8 0x0101.
Definition T4KA3_REG_COARSE_INTEGRATION_TIME := CCI_REG16 0x0202.
Definition T4KA3_REG_DIGGAIN_GREEN_R := CCI_REG16 0x020e.
Definition T4KA3_REG_DIGGAIN_RED := CCI_REG16 0x0210.
Definition T4KA3_REG_DIGGAIN_BLUE := CCI_REG16 0x0212.
Definition T4KA3_REG_DIGGAIN_GREEN_B := CCI_REG16 0x0214.
Definition T4KA3_REG_GLOBAL_GAIN := CCI_REG16 0x0234.
Definition T4KA3_REG_FRAME_LENGTH_LINES := CCI_REG16 0x0340.
Definition T4KA3_REG_TEST_PATTERN_MODE := CCI_REG8 0x0601.

(** The register sequences t4ka3_s_stream writes. *)
Inductive reg_sequence : Type :=
| t4ka3_init_config
| t4ka3_param_hold
| res_regs (res : nat)
| t4ka3_param_update
| t4ka3_streaming
| t4ka3_suspend.

(** Control identifiers handled by t4ka3_s_ctrl. *)
Inductive ctrl_id : Type :=
| V4L2_CID_TEST_PATTERN
| V4L2_CID_VFLIP
| V4L2_CID_HFLIP
| V4L2_CID_VBLANK
| V4L2_CID_EXPOSURE
| V4L2_CID_OTHER (id : Z).

(** struct v4l2_ctrl: the two fields the driver reads. *)
Record v4l2_ctrl : Type := {
  id : ctrl_id;
  val : Z
}.

(** Calls that leave the driver. *)
Inductive kcall : Type :=
| mutex_lock
| mutex_unlock
| pm_runtime_get_sync
| pm_runtime_put
| pm_runtime_get_if_in_use
| cci_write (reg : cci_reg) (v : Z)
| cci_update_bits (reg : cci_reg) (mask v : Z)
| cci_multi_reg_write (regs : reg_sequence)
| __v4l2_ctrl_handler_setup
| __v4l2_ctrl_modify_range (c : ctrl_id) (min max step def : Z).

(** Is the call a register access on the I2C bus? *)
Definition is_reg_access (c : kcall) : bool :=
  match c with
  | cci_write _ _ | cci_update_bits _ _ _ | cci_multi_reg_write _ => true
  | _ => false
  end.

(** Does the call touch the runtime-PM usage count? *)
Definition is_power_op (c : kcall) : bool :=
  match c with
  | pm_runtime_get_sync | pm_runtime_put | pm_runtime_get_if_in_use => true
  | _ => false
  end.

(** struct t4ka3_ctrls: [vflip] and [hflip] are pointers the driver
    tests against NULL; [vblank] is dereferenced unconditionally. *)
Record t4ka3_ctrls : Type := {
  vflip : option v4l2_ctrl;
  hflip : option v4l2_ctrl;
  vblank : v4l2_ctrl
}.

(** struct t4ka3_device *)
Record t4ka3_device : Type := {
  format : v4l2_mbus_framefmt;
  ctrls : t4ka3_ctrls;
  res : nat;
  streaming : Z;
  coarse_itg : Z;
  gain : Z;
  digital_gain : Z;
  flip : Z
}.

Definition set_format (s : t4ka3_device) (f : v4l2_mbus_framefmt) :=
  {| format := f; ctrls := ctrls s; res := res s; streaming := streaming s;
     coarse_itg := coarse_itg s; gain := gain s;
     digital_gain := digital_gain s; flip := flip s |}.

Definition set_streaming (s : t4ka3_device) (v : Z) :=
  {| format := format s; ctrls := ctrls s; res := res s; streaming := v;
     coarse_itg := coarse_itg s; gain := gain s;
     digital_gain := digital_gain s; flip := flip s |}.

Definition set_flip (s : t4ka3_device) (v : Z) :=
  {| format := format s; ctrls := ctrls s; res := res s;
     streaming := streaming s; coarse_itg := coarse_itg s; gain := gain s;
     digital_gain := digital_gain s; flip := v |}.

Definition set_exposure_fields (s : t4ka3_device) (g c d : Z) :=
  {| format := format s; ctrls := ctrls s; res := res s;
     streaming := streaming s; coarse_itg := c; gain := g;
     digital_gain := d; flip := flip s |}.

(** T4KA3 default GRBG *)
Definition t4ka3_hv_flip_bayer_order : list mbus_code :=
  [ MEDIA_BUS_FMT_SGRBG10_1X10;
    MEDIA_BUS_FMT_SBGGR10_1X10;
    MEDIA_BUS_FMT_SRGGB10_1X10;
    MEDIA_BUS_FMT_SGBRG10_1X10 ].

(** [ctrl && ctrl->val] *)
Definition ctrl_set (c : option v4l2_ctrl) : bool :=
  match c with
  | Some c => negb (val c =? 0)
  | None => false
  end.

Definition t4ka3_set_bayer_order (sensor : t4ka3_device)
    (fmt : v4l2_mbus_framefmt) : exec v4l2_mbus_framefmt :=
  let hv_flip := 0%nat in
  let hv_flip := if ctrl_set (vflip (ctrls sensor))
                 then (hv_flip + 1)%nat else hv_flip in
  let hv_flip := if ctrl_set (hflip (ctrls sensor))
                 then (hv_flip + 2)%nat else hv_flip in
  match t4ka3_hv_flip_bayer_order !! hv_flip with
  | Some c => Done {| width := width fmt; height := height fmt; code := c |}
  | None => Trap OutOfBounds
  end.

(** *** Kernel calls as a state monad over the call log *)

Definition K (A : Type) : Type := list kcall -> exec (A * list kcall).

Definition kret {A} (a : A) : K A := fun log => Done (a, log).

Definition kbind {A B} (m : K A) (k : A -> K B) : K B :=
  fun log => exec_bind (m log) (fun '(a, log') => k a log').

Definition klift {A} (m : exec A) : K A :=
  fun log => exec_bind m (fun a => Done (a, log)).

Notation "x <- m ;; k" := (kbind m (fun x => k))
  (at level 100, m at next level, right associativity).
Notation "m ;;; k" := (kbind m (fun _ => k))
  (at level 100, right associativity).

Section Kernel.

(** [answer n c] is the value the kernel returns when [c] is the call
    logged at position [n]. *)
Variable answer : nat -> kcall -> Z.

Definition call (c : kcall) : K Z :=
  fun log => Done (answer (length log) c, log ++ [c]).

(** [clamp_t(u16, v, lo, hi)] *)
Definition clamp_t_u16 (v lo hi : Z) : Z :=
  Z.min (Z.max (u16 v) (u16 lo)) (u16 hi).

Definition t4ka3_update_exposure_range (sensor : t4ka3_device) : K Z :=
  let exp_max := height (format sensor) + val (vblank (ctrls sensor))
                 - T4KA3_COARSE_INTEGRATION_TIME_MARGIN in
  call (__v4l2_ctrl_modify_range V4L2_CID_EXPOSURE 0 exp_max 1 exp_max).

(** Horizontal flip the image. *)
Definition t4ka3_t_hflip (sensor : t4ka3_device) (value : Z)
  : K (Z * t4ka3_device) :=
  if negb (streaming sensor =? 0) then kret (- EBUSY, sensor)
  else
    let v := if negb (value =? 0) then T4KA3_HFLIP_BIT else 0 in
    ret <- call (cci_update_bits T4KA3_REG_IMG_ORIENTATION T4KA3_HFLIP_BIT v) ;;
    if negb (ret =? 0) then kret (ret, sensor)
    else
      let sensor := set_flip sensor v in
      fmt <- klift (t4ka3_set_bayer_order sensor (format sensor)) ;;
      kret (0, set_format sensor fmt).

(** Vertically flip the image *)
Definition t4ka3_t_vflip (sensor : t4ka3_device) (value : Z)
  : K (Z * t4ka3_device) :=
  if negb (streaming sensor =? 0) then kret (- EBUSY, sensor)
  else
    let v := if negb (value =? 0) then T4KA3_VFLIP_BIT else 0 in
    ret <- call (cci_update_bits T4KA3_REG_IMG_ORIENTATION T4KA3_VFLIP_BIT v) ;;
    if negb (ret =? 0) then kret (ret, sensor)
    else
      let sensor := set_flip sensor v in
      fmt <- klift (t4ka3_set_bayer_order sensor (format sensor)) ;;
      kret (0, set_format sensor fmt).

Definition t4ka3_test_pattern (value : Z) : K Z :=
  call (cci_write T4KA3_REG_TEST_PATTERN_MODE value).

(** The seven register writes of __t4ka3_set_exposure, in source order,
    for already clamped values. *)
Definition exposure_writes (lines_per_frame coarse_itg gain digitalgain : Z)
  : list kcall :=
  [ cci_write T4KA3_REG_FRAME_LENGTH_LINES lines_per_frame;
    cci_write T4KA3_REG_COARSE_INTEGRATION_TIME coarse_itg;
    cci_write T4KA3_REG_GLOBAL_GAIN gain;
    cci_write T4KA3_REG_DIGGAIN_GREEN_R digitalgain;
    cci_write T4KA3_REG_DIGGAIN_RED digitalgain;
    cci_write T4KA3_REG_DIGGAIN_BLUE digitalgain;
    cci_write T4KA3_REG_DIGGAIN_GREEN_B digitalgain ].

Definition __t4ka3_set_exposure (dev : t4ka3_device)
    (coarse_itg gain digitalgain : Z) : K (Z * t4ka3_device) :=
  let digitalgain := u16 digitalgain in
  let coarse_itg := clamp_t_u16 coarse_itg T4KA3_COARSE_INTEGRATION_TIME_MIN
                                T4KA3_MAX_EXPOSURE_SUPPORTED in
  let gain := clamp_t_u16 gain T4KA3_MIN_GLOBAL_GAIN_SUPPORTED
                          T4KA3_MAX_GLOBAL_GAIN_SUPPORTED in
  let lines_per_frame :=
    if T4KA3_LINES_PER_FRAME - T4KA3_COARSE_INTEGRATION_TIME_MARGIN
       <? coarse_itg
    then u16 (coarse_itg + T4KA3_COARSE_INTEGRATION_TIME_MARGIN)
    else u16 T4KA3_LINES_PER_FRAME in
  ret <- call (cci_write T4KA3_REG_FRAME_LENGTH_LINES lines_per_frame) ;;
  if negb (ret =? 0) then kret (ret, dev) else
  ret <- call (cci_write T4KA3_REG_COARSE_INTEGRATION_TIME coarse_itg) ;;
  if negb (ret =? 0) then kret (ret, dev) else
  ret <- call (cci_write T4KA3_REG_GLOBAL_GAIN gain) ;;
  if negb (ret =? 0) then kret (ret, dev) else
  ret <- call (cci_write T4KA3_REG_DIGGAIN_GREEN_R digitalgain) ;;
  if negb (ret =? 0) then kret (ret, dev) else
  ret <- call (cci_write T4KA3_REG_DIGGAIN_RED digitalgain) ;;
  if negb (ret =? 0) then kret (ret, dev) else
  ret <- call (cci_write T4KA3_REG_DIGGAIN_BLUE digitalgain) ;;
  if negb (ret =? 0) then kret (ret, dev) else
  ret <- call (cci_write T4KA3_REG_DIGGAIN_GREEN_B digitalgain) ;;
  if negb (ret =? 0) then kret (ret, dev) else
  kret (ret, set_exposure_fields dev gain coarse_itg digitalgain).

Definition t4ka3_s_ctrl (sensor : t4ka3_device) (ctrl : v4l2_ctrl)
  : K (Z * t4ka3_device) :=
  (* Update exposure range on vblank changes *)
  early <- match id ctrl with
           | V4L2_CID_VBLANK => t4ka3_update_exposure_range sensor
           | _ => kret 0
           end ;;
  if negb (early =? 0) then kret (early, sensor) else
  (* Only apply changes to the controls if the device is powered up *)
  in_use <- call pm_runtime_get_if_in_use ;;
  if in_use =? 0 then
    fmt <- klift (t4ka3_set_bayer_order sensor (format sensor)) ;;
    kret (0, set_format sensor fmt)
  else
    applied <-
      match id ctrl with
      | V4L2_CID_TEST_PATTERN =>
          ret <- t4ka3_test_pattern (val ctrl) ;; kret (ret, sensor)
      | V4L2_CID_VFLIP => t4ka3_t_vflip sensor (val ctrl)
      | V4L2_CID_HFLIP => t4ka3_t_hflip sensor (val ctrl)
      | V4L2_CID_VBLANK =>
          ret <- call (cci_write T4KA3_REG_FRAME_LENGTH_LINES
                                 (height (format sensor) + val ctrl)) ;;
          kret (ret, sensor)
      | V4L2_CID_EXPOSURE =>
          ret <- call (cci_write T4KA3_REG_COARSE_INTEGRATION_TIME
                                 (val ctrl)) ;;
          kret (ret, sensor)
      | V4L2_CID_OTHER _ => kret (- EINVAL, sensor)
      end ;;
    call pm_runtime_put ;;;
    kret applied.

(** The two exit labels of t4ka3_s_stream. *)
Definition error_unlock (ret : Z) (sensor : t4ka3_device)
  : K (Z * t4ka3_device) :=
  call mutex_unlock ;;;
  kret (ret, sensor).

Definition error_powerdown (sensor : t4ka3_device) : K (Z * t4ka3_device) :=
  ret <- call pm_runtime_put ;;
  error_unlock ret sensor.

(** [ret] is declared without initialiser; [ret_uninit] is the value the
    variable happens to hold when it is read before any assignment. *)
Definition t4ka3_s_stream (ret_uninit : Z) (sensor : t4ka3_device)
    (enable : Z) : K (Z * t4ka3_device) :=
  call mutex_lock ;;;
  if streaming sensor =? enable then error_unlock ret_uninit sensor
  else if negb (enable =? 0) then
    ret <- call pm_runtime_get_sync ;;
    if negb (ret =? 0) then error_unlock ret sensor else
    ret <- call (cci_multi_reg_write t4ka3_init_config) ;;
    if negb (ret =? 0) then error_powerdown sensor else
    (* enable group hold *)
    ret <- call (cci_multi_reg_write t4ka3_param_hold) ;;
    if negb (ret =? 0) then error_powerdown sensor else
    ret <- call (cci_multi_reg_write (res_regs (res sensor))) ;;
    if negb (ret =? 0) then error_powerdown sensor else
    (* Restore value of all ctrls *)
    ret <- call __v4l2_ctrl_handler_setup ;;
    if negb (ret =? 0) then error_powerdown sensor else
    (* disable group hold *)
    ret <- call (cci_multi_reg_write t4ka3_param_update) ;;
    if negb (ret =? 0) then error_powerdown sensor else
    ret <- call (cci_multi_reg_write t4ka3_streaming) ;;
    if negb (ret =? 0) then error_powerdown sensor else
    let sensor := set_streaming sensor 1 in
    call mutex_unlock ;;;
    kret (ret, sensor)
  else
    ret <- call (cci_multi_reg_write t4ka3_suspend) ;;
    if negb (ret =? 0) then error_powerdown sensor else
    ret <- call pm_runtime_put ;;
    if negb (ret =? 0) then error_unlock ret sensor else
    let sensor := set_streaming sensor 0 in
    call mutex_unlock ;;;
    kret (ret, sensor).

End Kernel.

End Sensor.

(** ** Resolution selection and the atomisp Bayer table (legacy revision) *)

Module Resolution.

Definition T4KA3_RES_WIDTH_MAX : Z := 3280.
Definition T4KA3_RES_HEIGHT_MAX : Z := 2464.

(** enum atomisp_bayer_order, as named in the mapping table. *)
Inductive atomisp_bayer_order : Type :=
| atomisp_bayer_order_grbg
| atomisp_bayer_order_rggb
| atomisp_bayer_order_bggr
| atomisp_bayer_order_gbrg.

(** usage: t4ka3_bayer_order_mapping[vflip][hflip] *)
Definition t4ka3_bayer_order_mapping : list (list atomisp_bayer_order) :=
  [ [ atomisp_bayer_order_grbg; atomisp_bayer_order_rggb ];
    [ atomisp_bayer_order_bggr; atomisp_bayer_order_gbrg ] ].

Definition bayer_order_lookup (vflip hflip : nat)
  : option atomisp_bayer_order :=
  match t4ka3_bayer_order_mapping !! vflip with
  | Some row => row !! hflip
  | None => None
  end.

(** The Bayer order a media bus code stands for. *)
Definition bayer_of_code (c : mbus_code) : atomisp_bayer_order :=
  match c with
  | MEDIA_BUS_FMT_SGRBG10_1X10 => atomisp_bayer_order_grbg
  | MEDIA_BUS_FMT_SBGGR10_1X10 => atomisp_bayer_order_bggr
  | MEDIA_BUS_FMT_SRGGB10_1X10 => atomisp_bayer_order_rggb
  | MEDIA_BUS_FMT_SGBRG10_1X10 => atomisp_bayer_order_gbrg
  end.

(** struct t4ka3_resolution (without [desc] and the register list). *)
Record t4ka3_resolution : Type := {
  res_width : Z;
  res_height : Z;
  skip_frames : Z;
  res_code : mbus_code
}.

Definition t4ka3_res_preview : list t4ka3_resolution :=
  [ {| res_width := 736; res_height := 496; skip_frames := 2;
       res_code := MEDIA_BUS_FMT_SGRBG10_1X10 |};
    {| res_width := 896; res_height := 736; skip_frames := 2;
       res_code := MEDIA_BUS_FMT_SGRBG10_1X10 |};
    {| res_width := 1936; res_height := 1096; skip_frames := 2;
       res_code := MEDIA_BUS_FMT_SGRBG10_1X10 |};
    {| res_width := 3280; res_height := 2464; skip_frames := 0;
       res_code := MEDIA_BUS_FMT_SGRBG10_1X10 |} ].

Definition LARGEST_ALLOWED_RATIO_MISMATCH : Z := 600.

(** The kernel's [abs] on an [unsigned int] argument: the value is
    converted to [int] first; negating INT_MIN wraps. *)
Definition abs_int (x : Z) : Z := s32 (Z.abs (s32 x)).

(** [distance]: [w] and [h] are [u32]; the first division is done before
    [h] is tested, and nothing tests [w]. *)
Definition distance (res : t4ka3_resolution) (w h : Z) : exec Z :=
  if w =? 0 then Trap DivideByZero else
  let w_ratio := u32 (s32 (Z.shiftl (res_width res) 13)) / w in
  if h =? 0 then Done (- EPERM) else
  let h_ratio := u32 (s32 (Z.shiftl (res_height res) 13)) / h in
  if h_ratio =? 0 then Done (- EPERM) else
  let match_ := abs_int (u32 (u32 (Z.shiftl w_ratio 13) / h_ratio - 8192)) in
  if (w_ratio <? 8192) || (h_ratio <? 8192)
     || (LARGEST_ALLOWED_RATIO_MISMATCH <? match_)
  then Done (- EPERM)
  else Done (s32 (w_ratio + h_ratio)).

(** The [for] loop of nearest_resolution_index over the entries from
    index [i] on. *)
Fixpoint nearest_loop (rest : list t4ka3_resolution) (i idx min_dist w h : Z)
  : exec Z :=
  match rest with
  | [] => Done idx
  | tmp_res :: rest =>
      exec_bind (distance tmp_res (u32 w) (u32 h)) (fun dist =>
        if dist =? -1 then nearest_loop rest (i + 1) idx min_dist w h
        else if dist <? min_dist then nearest_loop rest (i + 1) i dist w h
        else nearest_loop rest (i + 1) idx min_dist w h)
  end.

(** Return the nearest higher resolution index *)
Definition nearest_resolution_index (t4ka3_res : list t4ka3_resolution)
    (w h : Z) : exec Z :=
  nearest_loop t4ka3_res 0 (-1) INT_MAX w h.

Definition __t4ka3_try_mbus_fmt (t4ka3_res : list t4ka3_resolution)
    (fmt : v4l2_mbus_framefmt) : exec (Z * v4l2_mbus_framefmt) :=
  let N_RES := Z.of_nat (length t4ka3_res) in
  if (T4KA3_RES_WIDTH_MAX <? width fmt) || (T4KA3_RES_HEIGHT_MAX <? height fmt)
  then Done (0, {| width := T4KA3_RES_WIDTH_MAX;
                   height := T4KA3_RES_HEIGHT_MAX;
                   code := MEDIA_BUS_FMT_SGRBG10_1X10 |})
  else
    exec_bind (nearest_resolution_index t4ka3_res (s32 (width fmt))
                                        (s32 (height fmt)))
      (fun idx =>
         let idx := if idx =? -1 then N_RES - 1 else idx in
         if idx <? 0 then Trap OutOfBounds else
         match t4ka3_res !! Z.to_nat idx with
         | Some r => Done (0, {| width := res_width r;
                                 height := res_height r;
                                 code := res_code r |})
         | None => Trap OutOfBounds
         end).

End Resolution.

(** ** Single register access, sensor detection and read-modify-write
    flips (I2C revisions) *)

Module RegIO.
Import RegArray.

Definition ENODEV : Z := 19.

Definition T4KA3_BYTE_MAX : Z := 30.
Definition T4KA3_SHORT_MAX : Z := 16.
Definition I2C_MSG_LENGTH : Z := 0x2.

Definition T4KA3_REG_PRODUCT_ID : Z := 0x0000.
Definition T4KA3_PRODUCT_ID : Z := 0x1490.
Definition T4KA3_REG_IMG_ORIENTATION : Z := 0x0101.
Definition T4KA3_HFLIP_BIT : Z := 0x1.
Definition T4KA3_VFLIP_BIT : Z := 0x2.

(** [be16_to_cpu] on a little-endian CPU is the same byte swap. *)
Definition be16_to_cpu (x : Z) : Z := cpu_to_be16 x.

(** [((u16 * )mem)[i]] on a little-endian CPU; bytes outside the array
    read as 0. *)
Definition load16 (mem : list Z) (i : nat) : Z :=
  Z.lor (nth (2 * i) mem 0) (Z.shiftl (nth (2 * i + 1) mem 0) 8).

Section Adapter.

(** [i2c_transfer n] is the adapter's answer to the [n]-th transfer and
    [i2c_rx n] the bytes it stores into the read buffer during it. *)
Variable i2c_transfer : nat -> Z.
Variable i2c_rx : nat -> list Z.

(** The [while (retry_cnt-- > 0)] loop of t4ka3_write_reg. *)
Fixpoint write_reg_retry (retry_cnt : nat) (ret : Z) (bus : i2c_bus)
    (len : Z) (data : list Z) : Z * i2c_bus :=
  match retry_cnt with
  | O => (ret, bus)
  | S retry_cnt =>
      let '(ret, bus') := t4ka3_i2c_write i2c_transfer bus len data in
      if ret =? 0 then (ret, bus')
      else write_reg_retry retry_cnt ret bus' len data
  end.

(** [ret] has no initialiser; the loop body assigns it before it is
    read, so its starting value never shows. *)
Definition t4ka3_write_reg (bus : i2c_bus) (data_length reg val : Z)
  : Z * i2c_bus :=
  let len := u16 (data_length + 2) in
  if negb (data_length =? T4KA3_8BIT) && negb (data_length =? T4KA3_16BIT)
  then (- EINVAL, bus)
  else
    let data :=
      u16_mem (cpu_to_be16 reg) ++
      (if data_length =? T4KA3_8BIT then [u8 val; 0]
       else u16_mem (cpu_to_be16 val)) in
    write_reg_retry 5 0 bus len data.

(** One two-message transfer of t4ka3_read_reg: the first two bytes of
    [mem] go out as the register address, then the adapter stores what
    it received over the first [len] bytes of [mem]. *)
Definition read_transfer (bus : i2c_bus) (len : Z) (mem : list Z)
  : Z * list Z * i2c_bus :=
  let n := length (xfers bus) in
  let rx := take (Z.to_nat len) (map u8 (i2c_rx n)) in
  let mem' := rx ++ drop (length rx) mem in
  let bus' := {| xfers := xfers bus ++ [take (Z.to_nat I2C_MSG_LENGTH) mem];
                 sleeps := sleeps bus |} in
  (i2c_transfer n, mem', bus').

(** The retry loop of t4ka3_read_reg; [Some err] is [goto error]. *)
Fixpoint read_reg_retry (retry_cnt : nat) (bus : i2c_bus) (len : Z)
    (mem : list Z) : option Z * list Z * i2c_bus :=
  match retry_cnt with
  | O => (None, mem, bus)
  | S retry_cnt =>
      let '(err, mem', bus') := read_transfer bus len mem in
      if negb (err =? 2) then
        let err := if 0 <=? err then - EIO else err in
        match retry_cnt with
        | O => (Some err, mem', bus')
        | S _ => read_reg_retry retry_cnt bus' len mem'
        end
      else (None, mem', bus')
  end.

(** The values stored through [val]: one for an 8-bit read, [len >> 1]
    of them otherwise. *)
Definition t4ka3_read_reg (bus : i2c_bus) (len reg : Z)
  : Z * list Z * i2c_bus :=
  if T4KA3_BYTE_MAX <? len then (- EINVAL, [], bus)
  else
    let data := u16_mem (cpu_to_be16 reg) ++ repeat 0 30 in
    let '(err, data, bus') := read_reg_retry 5 bus len data in
    match err with
    | Some err => (err, [], bus')
    | None =>
        if len =? T4KA3_8BIT then (0, [u8 (load16 data 0)], bus')
        else (0, map (fun i => be16_to_cpu (load16 data i))
                     (seq 0 (Z.to_nat (Z.shiftr len 1))), bus')
    end.

(** [functionality] is the answer of i2c_check_functionality.  The
    second component is what the caller finds in [*id]. *)
Definition t4ka3_detect (functionality : bool) (id_uninit : Z)
    (bus : i2c_bus) : Z * Z * i2c_bus :=
  if negb functionality then (- ENODEV, id_uninit, bus)
  else
    let '(err, high, bus1) :=
      t4ka3_read_reg bus T4KA3_8BIT T4KA3_REG_PRODUCT_ID in
    if negb (err =? 0) then (- ENODEV, id_uninit, bus1)
    else
      let '(err, low, bus2) :=
        t4ka3_read_reg bus1 T4KA3_8BIT (T4KA3_REG_PRODUCT_ID + 1) in
      if negb (err =? 0) then (- ENODEV, id_uninit, bus2)
      else
        let id := u16 (Z.lor (Z.shiftl (u8 (hd 0 high)) 8) (u8 (hd 0 low))) in
        if negb (id =? T4KA3_PRODUCT_ID) then (- ENODEV, id, bus2)
        else (0, id, bus2).

(** Horizontal flip the image. *)
Definition t4ka3_t_hflip (sensor : Sensor.t4ka3_device) (value : Z)
    (bus : i2c_bus) : exec (Z * Sensor.t4ka3_device * i2c_bus) :=
  if negb (Sensor.streaming sensor =? 0) then Done (- EBUSY, sensor, bus)
  else
    let '(ret, vals, bus1) :=
      t4ka3_read_reg bus T4KA3_8BIT T4KA3_REG_IMG_ORIENTATION in
    if negb (ret =? 0) then Done (ret, sensor, bus1)
    else
      let val := hd 0 vals in
      let val := if negb (value =? 0) then u16 (Z.lor val T4KA3_HFLIP_BIT)
                 else u16 (Z.land val (Z.lnot T4KA3_HFLIP_BIT)) in
      let '(ret, bus2) :=
        t4ka3_write_reg bus1 T4KA3_8BIT T4KA3_REG_IMG_ORIENTATION val in
      if negb (ret =? 0) then Done (ret, sensor, bus2)
      else
        let sensor := Sensor.set_flip sensor val in
        exec_bind (Sensor.t4ka3_set_bayer_order sensor (Sensor.format sensor))
          (fun fmt => Done (0, Sensor.set_format sensor fmt, bus2)).

(** Vertically flip the image *)
Definition t4ka3_t_vflip (sensor : Sensor.t4ka3_device) (value : Z)
    (bus : i2c_bus) : exec (Z * Sensor.t4ka3_device * i2c_bus) :=
  if negb (Sensor.streaming sensor =? 0) then Done (- EBUSY, sensor, bus)
  else
    let '(ret, vals, bus1) :=
      t4ka3_read_reg bus T4KA3_8BIT T4KA3_REG_IMG_ORIENTATION in
    if negb (ret =? 0) then Done (ret, sensor, bus1)
    else
      let val := hd 0 vals in
      let val := if negb (value =? 0) then u16 (Z.lor val T4KA3_VFLIP_BIT)
                 else u16 (Z.land val (Z.lnot T4KA3_VFLIP_BIT)) in
      let '(ret, bus2) :=
        t4ka3_write_reg bus1 T4KA3_8BIT T4KA3_REG_IMG_ORIENTATION val in
      if negb (ret =? 0) then Done (ret, sensor, bus2)
      else
        let sensor := Sensor.set_flip sensor val in
        exec_bind (Sensor.t4ka3_set_bayer_order sensor (Sensor.format sensor))
          (fun fmt => Done (0, Sensor.set_format sensor fmt, bus2)).

End Adapter.

End RegIO.

(** ** The exposure ioctl (CCI/regmap revision) *)

Module SensorOps.
Import Sensor.

(** struct atomisp_exposure: the three members t4ka3_s_exposure reads,
    [integration_time[0]], [gain[0]] and [gain[1]]. *)
Record atomisp_exposure : Type := {
  integration_time_0 : Z;
  gain_0 : Z;
  gain_1 : Z
}.

(** The ioctl numbers t4ka3_ioctl tells apart. *)
Inductive ioctl_cmd : Type :=
| ATOMISP_IOC_S_EXPOSURE
| IOC_OTHER (nr : Z).

Section Kernel.

Variable answer : nat -> kcall -> Z.

Definition t4ka3_set_exposure (dev : t4ka3_device)
    (exposure gain digitalgain : Z) : K (Z * t4ka3_device) :=
  call answer mutex_lock ;;;
  ret <- __t4ka3_set_exposure answer dev exposure gain digitalgain ;;
  call answer mutex_unlock ;;;
  kret ret.

Definition t4ka3_s_exposure (dev : t4ka3_device)
    (exposure : atomisp_exposure) : K (Z * t4ka3_device) :=
  let coarse_itg := u16 (integration_time_0 exposure) in
  let analog_gain := u16 (gain_0 exposure) in
  let digital_gain := u16 (gain_1 exposure) in
  t4ka3_set_exposure dev coarse_itg analog_gain digital_gain.

Definition t4ka3_ioctl (dev : t4ka3_device) (cmd : ioctl_cmd)
    (arg : atomisp_exposure) : K (Z * t4ka3_device) :=
  match cmd with
  | ATOMISP_IOC_S_EXPOSURE => t4ka3_s_exposure dev arg
  | IOC_OTHER _ => kret (- EINVAL, dev)
  end.

End Kernel.

End SensorOps.

(** ** Frame size enumeration *)

Module FrameSizes.
Import Resolution.

(** struct v4l2_subdev_frame_size_enum *)
Record v4l2_subdev_frame_size_enum : Type := {
  fse_index : Z;
  min_width : Z;
  max_width : Z;
  min_height : Z;
  max_height : Z
}.

Definition fse_fill (fse : v4l2_subdev_frame_size_enum)
    (r : t4ka3_resolution) : v4l2_subdev_frame_size_enum :=
  {| fse_index := fse_index fse;
     min_width := res_width r; max_width := res_width r;
     min_height := res_height r; max_height := res_height r |}.

(** [(size_t) x] for an [int] x on a 64-bit kernel. *)
Definition size_t_of_int (x : Z) : Z := x mod 2 ^ 64.

(** [t4ka3_res[index]] for an [int] index. *)
Definition res_at (t4ka3_res : list t4ka3_resolution) (index : Z)
  : exec t4ka3_resolution :=
  if index <? 0 then Trap OutOfBounds
  else match t4ka3_res !! Z.to_nat index with
       | Some r => Done r
       | None => Trap OutOfBounds
       end.

(** The legacy revision compares the [int] index with the [int] N_RES. *)
Definition t4ka3_enum_frame_size (t4ka3_res : list t4ka3_resolution)
    (fse : v4l2_subdev_frame_size_enum)
  : exec (Z * v4l2_subdev_frame_size_enum) :=
  let N_RES := Z.of_nat (length t4ka3_res) in
  let index := s32 (fse_index fse) in
  if N_RES <=? index then Done (- EINVAL, fse)
  else exec_bind (res_at t4ka3_res index)
                 (fun r => Done (0, fse_fill fse r)).

(** The later revisions compare it with ARRAY_SIZE(t4ka3_res), a
    [size_t]. *)
Definition t4ka3_enum_frame_size_array_size
    (t4ka3_res : list t4ka3_resolution) (fse : v4l2_subdev_frame_size_enum)
  : exec (Z * v4l2_subdev_frame_size_enum) :=
  let index := s32 (fse_index fse) in
  if Z.of_nat (length t4ka3_res) <=? size_t_of_int index
  then Done (- EINVAL, fse)
  else exec_bind (res_at t4ka3_res index)
                 (fun r => Done (0, fse_fill fse r)).

End FrameSizes.

(** ** Flips under group hold (legacy revision) *)

Module LegacyFlip.
Import RegArray RegIO.

(** The two one-entry register lists of t4ka3.h that assert and release
    the group hold. *)
Definition t4ka3_param_hold : list t4ka3_reg :=
  [ {| type := T4KA3_8BIT; sreg := 0x0104; val := 0x1 |};
    {| type := T4KA3_TOK_TERM; sreg := 0; val := 0 |} ].

Definition t4ka3_param_update : list t4ka3_reg :=
  [ {| type := T4KA3_8BIT; sreg := 0x0104; val := 0x0 |};
    {| type := T4KA3_TOK_TERM; sreg := 0; val := 0 |} ].

Section Adapter.

Variable i2c_transfer : nat -> Z.
Variable i2c_rx : nat -> list Z.

(** [stack1] and [stack2] are what the two calls of
    t4ka3_write_reg_array find in their write buffers.  The result of
    the first call is overwritten before it is read. *)
Definition t4ka3_t_hflip (stack1 stack2 : t4ka3_write_buffer)
    (dev : Sensor.t4ka3_device) (value : Z) (bus : i2c_bus)
  : exec (Z * Sensor.t4ka3_device * i2c_bus) :=
  (* enable group hold *)
  exec_bind (t4ka3_write_reg_array i2c_transfer stack1 bus t4ka3_param_hold)
    (fun '(_, bus0) =>
  let '(ret, vals, bus1) :=
    t4ka3_read_reg i2c_transfer i2c_rx bus0 T4KA3_8BIT
      T4KA3_REG_IMG_ORIENTATION in
  if negb (ret =? 0) then Done (ret, dev, bus1)
  else
    let val := hd 0 vals in
    let val := if negb (value =? 0) then u16 (Z.lor val T4KA3_HFLIP_BIT)
               else u16 (Z.land val (Z.lnot T4KA3_HFLIP_BIT)) in
    let '(ret, bus2) :=
      t4ka3_write_reg i2c_transfer bus1 T4KA3_8BIT
        T4KA3_REG_IMG_ORIENTATION val in
    if negb (ret =? 0) then Done (ret, dev, bus2)
    else
      exec_bind
        (t4ka3_write_reg_array i2c_transfer stack2 bus2 t4ka3_param_update)
        (fun '(ret, bus3) => Done (ret, Sensor.set_flip dev val, bus3))).

(** Vertically flip the image *)
Definition t4ka3_t_vflip (stack1 stack2 : t4ka3_write_buffer)
    (dev : Sensor.t4ka3_device) (value : Z) (bus : i2c_bus)
  : exec (Z * Sensor.t4ka3_device * i2c_bus) :=
  (* enable group hold *)
  exec_bind (t4ka3_write_reg_array i2c_transfer stack1 bus t4ka3_param_hold)
    (fun '(_, bus0) =>
  let '(ret, vals, bus1) :=
    t4ka3_read_reg i2c_transfer i2c_rx bus0 T4KA3_8BIT
      T4KA3_REG_IMG_ORIENTATION in
  if negb (ret =? 0) then Done (ret, dev, bus1)
  else
    let val := hd 0 vals in
    let val := if negb (value =? 0) then u16 (Z.lor val T4KA3_VFLIP_BIT)
               else u16 (Z.land val (Z.lnot T4KA3_VFLIP_BIT)) in
    let '(ret, bus2) :=
      t4ka3_write_reg i2c_transfer bus1 T4KA3_8BIT
        T4KA3_REG_IMG_ORIENTATION val in
    if negb (ret =? 0) then Done (ret, dev, bus2)
    else
      exec_bind
        (t4ka3_write_reg_array i2c_transfer stack2 bus2 t4ka3_param_update)
        (fun '(ret, bus3) => Done (ret, Sensor.set_flip dev val, bus3))).

End Adapter.

End LegacyFlip.

(** ** Specification vocabulary *)

Module Spec.
Import RegArray.

(** A write entry is an 8-bit or a 16-bit register value. *)
Definition is_write (r : t4ka3_reg) : Prop :=
  type r = T4KA3_8BIT \/ type r = T4KA3_16BIT.

(** Number of value bytes of a write entry. *)
Definition reg_size (r : t4ka3_reg) : Z :=
  if type r =? T4KA3_8BIT then 1 else 2.

(** The value bytes of a write entry in wire order. *)
Definition value_bytes (r : t4ka3_reg) : list Z :=
  if type r =? T4KA3_8BIT then [u8 (val r)] else be16 (u16 (val r)).

Definition payload (l : list t4ka3_reg) : list Z :=
  concat (map value_bytes l).

(** The entries sit at consecutive register addresses from [a] on. *)
Fixpoint consecutive_from (a : Z) (l : list t4ka3_reg) : Prop :=
  match l with
  | [] => True
  | r :: rest => sreg r = a /\ consecutive_from (a + reg_size r) rest
  end.

(** One burst on the wire: start address, then the value bytes. *)
Definition burst (a : Z) (l : list t4ka3_reg) : list Z :=
  be16 a ++ payload l.

(** An adapter that moves every message. *)
Definition adapter_ok : nat -> Z := fun _ => 1.

(** The loop-head configurations t4ka3_write_reg_array passes through. *)
Inductive loop_head (i2c_transfer : nat -> Z) (stack : t4ka3_write_buffer)
    (bus0 : i2c_bus) (reglist : list t4ka3_reg)
  : i2c_bus -> t4ka3_write_ctrl -> list t4ka3_reg -> Prop :=
| head_entry :
    loop_head i2c_transfer stack bus0 reglist
              bus0 {| index := 0; buffer := stack |} reglist
| head_next bus ctrl r rest ctrl' bus' :
    loop_head i2c_transfer stack bus0 reglist bus ctrl (r :: rest) ->
    type r <> T4KA3_TOK_TERM ->
    reg_step i2c_transfer bus ctrl r = Done (Continue ctrl' bus') ->
    loop_head i2c_transfer stack bus0 reglist bus' ctrl' rest.

(** At the head of the loop the buffer has room for one more value. *)
Definition bounded (ctrl : t4ka3_write_ctrl) : Prop :=
  0 <= index ctrl <= 27 /\ length (data (buffer ctrl)) = 30%nat.

Definition result_ctrl (s : step_result) : t4ka3_write_ctrl :=
  match s with
  | Continue c _ | Return _ c _ => c
  end.

Definition result_bus (s : step_result) : i2c_bus :=
  match s with
  | Continue _ b | Return _ _ b => b
  end.

(** The buffer holds exactly the value bytes of [l], a run that starts
    at register address [a]. *)
Definition buffered (ctrl : t4ka3_write_ctrl) (a : Z) (l : list t4ka3_reg)
  : Prop :=
  index ctrl = Z.of_nat (length (payload l)) /\
  (l <> [] -> addr (buffer ctrl) = a) /\
  take (length (payload l)) (data (buffer ctrl)) = payload l /\
  length (data (buffer ctrl)) = 30%nat.

(** Sample inputs: a zeroed stack buffer, a bus nothing was sent on,
    and the terminator entry the register tables end with. *)
Definition zero_stack : t4ka3_write_buffer :=
  {| addr := 0; data := repeat 0 30 |}.

Definition idle_bus : i2c_bus := {| xfers := []; sleeps := [] |}.

Definition TERM : t4ka3_reg :=
  {| type := T4KA3_TOK_TERM; sreg := 0; val := 0 |}.

(** Twenty 16-bit registers in a row from 0x0200: 40 value bytes, more
    than the buffer holds. *)
Definition long_run : list t4ka3_reg :=
  map (fun i => {| type := T4KA3_16BIT;
                   sreg := 0x0200 + 2 * Z.of_nat i;
                   val := 0x0100 + Z.of_nat i |}) (seq 0 20) ++ [TERM].

(** Group hold, two frame-length bytes, group release. *)
Definition group_hold_program : list t4ka3_reg :=
  [ {| type := T4KA3_8BIT; sreg := 0x0104; val := 0x01 |};
    {| type := T4KA3_8BIT; sreg := 0x0340; val := 0x09 |};
    {| type := T4KA3_8BIT; sreg := 0x0341; val := 0xBC |};
    {| type := T4KA3_8BIT; sreg := 0x0104; val := 0x00 |};
    TERM ].

(** An adapter that refuses exactly the [k]-th transfer. *)
Definition fail_at (k : nat) : nat -> Z :=
  fun n => if Nat.eqb n k then - EIO else 1.

End Spec.

Module SensorSpec.
Import Sensor.

(** [v] forced into the range from [lo] to [hi]. *)
Definition clamp (lo hi v : Z) : Z := Z.max lo (Z.min v hi).

(** Frame length for a clamped integration time: the default 2492
    lines, raised to [coarse + 6] when that is not enough. *)
Definition frame_length_lines (coarse : Z) : Z :=
  if 2492 - 6 <? coarse then coarse + 6 else 2492.

(** The Bayer order table of the spec, indexed by (vflip, hflip). *)
Definition flip_table (v h : bool) : mbus_code :=
  match v, h with
  | false, false => MEDIA_BUS_FMT_SGRBG10_1X10
  | false, true => MEDIA_BUS_FMT_SRGGB10_1X10
  | true, false => MEDIA_BUS_FMT_SBGGR10_1X10
  | true, true => MEDIA_BUS_FMT_SGBRG10_1X10
  end.

(** Position, among the calls [ws] logged from position [from] on, of
    the first one the kernel answers with an error. *)
Fixpoint first_failure (answer : nat -> kcall -> Z) (from : nat)
    (ws : list kcall) : option nat :=
  match ws with
  | [] => None
  | w :: ws' =>
      if answer from w =? 0
      then option_map S (first_failure answer (S from) ws')
      else Some O
  end.

(** The calls of a log that reach the sensor over I2C. *)
Definition reg_accesses (log : list kcall) : list kcall :=
  filter (fun c => is_reg_access c = true) log.

(** The runtime-PM calls of a log. *)
Definition power_ops (log : list kcall) : list kcall :=
  filter (fun c => is_power_op c = true) log.

(** A kernel in which every call succeeds. *)
Definition all_succeed : nat -> kcall -> Z := fun _ _ => 0.

(** Every call succeeds except the write of the init sequence. *)
Definition init_config_fails : nat -> kcall -> Z :=
  fun _ c =>
    match c with
    | cci_multi_reg_write t4ka3_init_config => - EIO
    | _ => 0
    end.

(** Every call succeeds except power-up. *)
Definition power_up_fails : nat -> kcall -> Z :=
  fun _ c =>
    match c with
    | pm_runtime_get_sync => - EIO
    | _ => 0
    end.

(** The device is runtime-suspended and the exposure range cannot be
    updated. *)
Definition range_update_fails : nat -> kcall -> Z :=
  fun _ c =>
    match c with
    | __v4l2_ctrl_modify_range _ _ _ _ _ => - 34
    | _ => 0
    end.

(** A sensor at rest in its largest mode, and the same sensor streaming. *)
Definition idle_sensor : t4ka3_device :=
  {| format := {| width := 3280; height := 2464;
                  code := MEDIA_BUS_FMT_SGRBG10_1X10 |};
     ctrls := {| vflip := Some {| id := V4L2_CID_VFLIP; val := 0 |};
                 hflip := Some {| id := V4L2_CID_HFLIP; val := 0 |};
                 vblank := {| id := V4L2_CID_VBLANK; val := 28 |} |};
     res := 3%nat; streaming := 0; coarse_itg := 0; gain := 0;
     digital_gain := 0; flip := 0 |}.

Definition streaming_sensor : t4ka3_device := set_streaming idle_sensor 1.

(** The idle sensor with its flip controls set to [v] and [h]. *)
Definition with_flips (v h : Z) : t4ka3_device :=
  {| format := format idle_sensor;
     ctrls := {| vflip := Some {| id := V4L2_CID_VFLIP; val := v |};
                 hflip := Some {| id := V4L2_CID_HFLIP; val := h |};
                 vblank := vblank (ctrls idle_sensor) |};
     res := res idle_sensor; streaming := 0; coarse_itg := 0; gain := 0;
     digital_gain := 0; flip := 0 |}.

(** The calls of a stream-enable in which nothing fails. *)
Definition stream_on_calls (sensor : t4ka3_device) : list kcall :=
  [ mutex_lock;
    pm_runtime_get_sync;
    cci_multi_reg_write t4ka3_init_config;
    cci_multi_reg_write t4ka3_param_hold;
    cci_multi_reg_write (res_regs (res sensor));
    __v4l2_ctrl_handler_setup;
    cci_multi_reg_write t4ka3_param_update;
    cci_multi_reg_write t4ka3_streaming;
    mutex_unlock ].

End SensorSpec.

Module ResolutionSpec.
Import Resolution.

(** A catalog entry is adequate for a request when it is at least as
    large in both dimensions. *)
Definition adequate (w h : Z) (r : t4ka3_resolution) : Prop :=
  w <= res_width r /\ h <= res_height r.

(** Catalog dimensions are small enough for [x << 13] to stay an [int]. *)
Definition res_in_range (r : t4ka3_resolution) : Prop :=
  0 <= res_width r < 2 ^ 17 /\ 0 <= res_height r < 2 ^ 17.

(** The largest catalog entry, which is also the last one. *)
Definition largest_res : t4ka3_resolution :=
  {| res_width := 3280; res_height := 2464; skip_frames := 0;
     res_code := MEDIA_BUS_FMT_SGRBG10_1X10 |}.

End ResolutionSpec.

Module CoalescerSpec.
Import RegArray Spec.

(** A burst carries the two address bytes and from 1 to 29 value bytes. *)
Definition burst_sized (msg : list Z) : Prop :=
  (3 <= length msg <= 31)%nat.

(** Two buffers that agree on everything the code can still read: the
    index, the start address once something is buffered, and the bytes
    below the index. *)
Definition same_view (c1 c2 : t4ka3_write_ctrl) : Prop :=
  index c1 = index c2 /\
  length (data (buffer c1)) = 30%nat /\
  length (data (buffer c2)) = 30%nat /\
  (index c1 <> 0 -> addr (buffer c1) = addr (buffer c2)) /\
  take (Z.to_nat (index c1)) (data (buffer c1)) =
  take (Z.to_nat (index c1)) (data (buffer c2)).

(** What a loop iteration hands on, without the buffer. *)
Definition same_result (s1 s2 : step_result) : Prop :=
  match s1, s2 with
  | Continue c1 b1, Continue c2 b2 => b1 = b2 /\ same_view c1 c2
  | Return e1 _ b1, Return e2 _ b2 => e1 = e2 /\ b1 = b2
  | _, _ => False
  end.

(** The error code and the bus a run of the loop ends with. *)
Definition loop_outcome (r : exec (Z * t4ka3_write_ctrl * i2c_bus))
  : exec (Z * i2c_bus) :=
  exec_bind r (fun '(err, _, bus) => Done (err, bus)).

(** A delay entry: its type has the delay token under the mask. *)
Definition is_delay (r : t4ka3_reg) : Prop :=
  Z.land (type r) T4KA3_TOK_MASK = T4KA3_TOK_DELAY.

(** The register bytes an entry asks for: (address, byte) pairs in
    ascending address order; a delay asks for none. *)
Definition reg_writes (r : t4ka3_reg) : list (Z * Z) :=
  if type r =? T4KA3_8BIT then [(sreg r, u8 (val r))]
  else if type r =? T4KA3_16BIT then
    [(sreg r, Z.land (Z.shiftr (u16 (val r)) 8) 0xff);
     (sreg r + 1, Z.land (u16 (val r)) 0xff)]
  else [].

Definition program_writes (l : list t4ka3_reg) : list (Z * Z) :=
  concat (map reg_writes l).

(** The delays a program asks for, in order. *)
Definition program_sleeps (l : list t4ka3_reg) : list Z :=
  concat (map (fun r => if Z.land (type r) T4KA3_TOK_MASK =? T4KA3_TOK_DELAY
                        then [val r] else []) l).

(** Bytes [bs] landing at consecutive addresses from [a] on. *)
Fixpoint spread (a : Z) (bs : list Z) : list (Z * Z) :=
  match bs with
  | [] => []
  | b :: bs' => (a, b) :: spread (a + 1) bs'
  end.

(** What the sensor makes of one burst: a big-endian start address,
    then one byte per register. *)
Definition burst_writes (msg : list Z) : list (Z * Z) :=
  match msg with
  | hi :: lo :: bs => spread (hi * 256 + lo) bs
  | _ => []
  end.

Definition wire_writes (msgs : list (list Z)) : list (Z * Z) :=
  concat (map burst_writes msgs).

(** A program entry the coalescer accepts: a write to a 16-bit address
    or a delay. *)
Definition entry_ok (r : t4ka3_reg) : Prop :=
  (is_write r /\ 0 <= sreg r < 2 ^ 16) \/ is_delay r.


(** The loop iterations for a stretch [l] of the program that holds no
    terminator. *)
Fixpoint run_entries (i2c_transfer : nat -> Z) (bus : i2c_bus)
    (ctrl : t4ka3_write_ctrl) (l : list t4ka3_reg) : exec step_result :=
  match l with
  | [] => Done (Continue ctrl bus)
  | r :: rest =>
      exec_bind (reg_step i2c_transfer bus ctrl r) (fun s =>
        match s with
        | Continue ctrl' bus' => run_entries i2c_transfer bus' ctrl' rest
        | Return err ctrl' bus' => Done (Return err ctrl' bus')
        end)
  end.

(** The run buffered at the head of the loop. *)
Definition pending (ctrl : t4ka3_write_ctrl) (a : Z) (run : list t4ka3_reg)
  : Prop :=
  buffered ctrl a run /\ consecutive_from a run /\ Forall is_write run /\
  (run <> [] -> 0 <= a < 2 ^ 16) /\
  Z.of_nat (length (payload run)) <= 27.

(** A 10 ms delay entry. *)
Definition DELAY_10 : t4ka3_reg :=
  {| type := T4KA3_TOK_DELAY; sreg := 0; val := 10 |}.

End CoalescerSpec.

Module RegIOSpec.
Import RegArray RegIO.

(** The bytes of a single register write as they must go out: the
    address, high byte first, then the value, high byte first. *)
Definition reg_message (data_length reg val : Z) : list Z :=
  be16 reg ++ (if data_length =? T4KA3_8BIT then [u8 val] else be16 val).

(** The adapter gives an answer other than [ok] to each of the [k]
    transfers from the [n]-th on. *)
Definition refused (ok : Z) (i2c_transfer : nat -> Z) (n k : nat) : Prop :=
  forall j, (j < k)%nat -> i2c_transfer (n + j)%nat <> ok.

(** What the [n]-th transfer, a read of [len] bytes, leaves at the
    start of the buffer. *)
Definition stored (i2c_rx : nat -> list Z) (len : Z) (n : nat) : list Z :=
  take (Z.to_nat len) (map u8 (i2c_rx n)).

(** What t4ka3_read_reg returns when its last transfer got answer
    [err] instead of 2. *)
Definition read_failure (err : Z) : Z := if 0 <=? err then - EIO else err.

(** The value of [data_length] bytes read high byte first. *)
Definition be_value (data_length : Z) (bytes : list Z) : Z :=
  if data_length =? T4KA3_8BIT then u8 (nth 0 bytes 0)
  else u8 (nth 0 bytes 0) * 256 + u8 (nth 1 bytes 0).

(** An adapter that answers the [n]-th transfer, a read, with the bytes
    [rx], accepts the following write, and refuses everything else. *)
Definition read_then_write (n : nat) : nat -> Z :=
  fun i => if Nat.eqb i n then 2 else if Nat.eqb i (S n) then 1 else - EIO.

Definition deliver (n : nat) (rx : list Z) : nat -> list Z :=
  fun i => if Nat.eqb i n then rx else [].

(** What a flip promises whatever the adapter does: the driver state
    changes only when 0 is returned; a streaming sensor gives -EBUSY
    with no bus traffic; and on success [flip] is the byte that went
    out last, to register 0x0101, with bit [bit] as requested. *)
Definition flip_outcome (sensor : Sensor.t4ka3_device) (value : Z)
    (bus : i2c_bus) (bit : Z)
    (run : exec (Z * Sensor.t4ka3_device * i2c_bus)) : Prop :=
  exists ret sensor' bus',
    run = Done (ret, sensor', bus') /\
    (ret <> 0 -> sensor' = sensor) /\
    (Sensor.streaming sensor <> 0 -> ret = - EBUSY /\ bus' = bus) /\
    (ret = 0 ->
     Sensor.streaming sensor = 0 /\
     last (xfers bus') = Some [0x01; 0x01; Sensor.flip sensor'] /\
     0 <= Sensor.flip sensor' < 256 /\
     Z.testbit (Sensor.flip sensor') bit = negb (value =? 0)).

(** A flip that got through: it returns 0 and sensor->flip is the byte
    [b] the orientation register delivered with bit [bit] replaced by
    the requested state. *)
Definition flip_changes_one_bit (b bit value : Z)
    (run : exec (Z * Sensor.t4ka3_device * i2c_bus)) : Prop :=
  exists sensor' bus',
    run = Done (0, sensor', bus') /\
    forall i, 0 <= i ->
      Z.testbit (Sensor.flip sensor') i =
      if i =? bit then negb (value =? 0) else Z.testbit (u8 b) i.

End RegIOSpec.

Module SensorOpsSpec.
Import Sensor SensorSpec SensorOps.

Definition is_mutex_op (c : kcall) : bool :=
  match c with
  | mutex_lock | mutex_unlock => true
  | _ => false
  end.

(** The calls of a log on the input lock. *)
Definition mutex_ops (log : list kcall) : list kcall :=
  filter (fun c => is_mutex_op c = true) log.

(** The state t4ka3_s_stream leaves after a request it carried out. *)
Definition stream_target (enable : Z) : Z := if enable =? 0 then 0 else 1.

(** The device is in use whenever the driver asks. *)
Definition in_use (answer : nat -> kcall -> Z) : Prop :=
  forall n, answer n pm_runtime_get_if_in_use <> 0.

(** Every update of a control range is accepted. *)
Definition ranges_accepted (answer : nat -> kcall -> Z) : Prop :=
  forall n c lo hi step def,
    answer n (__v4l2_ctrl_modify_range c lo hi step def) = 0.

(** The device is in use and every other call succeeds. *)
Definition powered : nat -> kcall -> Z :=
  fun _ c =>
    match c with
    | pm_runtime_get_if_in_use => 1
    | _ => 0
    end.

(** The suspend sequence cannot be written; every other call succeeds. *)
Definition suspend_fails : nat -> kcall -> Z :=
  fun _ c =>
    match c with
    | cci_multi_reg_write t4ka3_suspend => - EIO
    | _ => 0
    end.

End SensorOpsSpec.

Module FormatSpec.
Import Resolution ResolutionSpec FrameSizes.

(** The format a catalog entry stands for. *)
Definition fmt_of_res (r : t4ka3_resolution) : v4l2_mbus_framefmt :=
  {| width := res_width r; height := res_height r; code := res_code r |}.

(** Entry [e] is a candidate for the request with distance [d]. *)
Definition candidate (w h : Z) (e : t4ka3_resolution) (d : Z) : Prop :=
  distance e (u32 w) (u32 h) = Done d /\ d <> -1.

(** No candidate of [l] is nearer than [d]. *)
Definition none_nearer (w h : Z) (l : list t4ka3_resolution) (d : Z) : Prop :=
  forall e d', In e l -> candidate w h e d' -> d <= d'.

(** Every candidate of [l] is farther than [d]. *)
Definition all_farther (w h : Z) (l : list t4ka3_resolution) (d : Z) : Prop :=
  forall e d', In e l -> candidate w h e d' -> d < d'.

End FormatSpec.

Module LegacyFlipSpec.
Import RegArray.

(** The messages that assert and release the group hold: register
    0x0104 written with 1 and with 0. *)
Definition hold_message : list Z := [0x01; 0x04; 0x01].
Definition release_message : list Z := [0x01; 0x04; 0x00].

(** What a legacy flip does whatever the adapter answers.  The group
    hold goes out first.  Then either the flip got as far as the
    release, which is the last message, and sensor->flip is committed
    with bit [bit] as requested, also when the release itself failed;
    or the read or the write failed, the error is returned, the
    state is untouched and no release is sent. *)
Definition legacy_flip_outcome (dev : Sensor.t4ka3_device) (value : Z)
    (bus : i2c_bus) (i2c_transfer : nat -> Z) (bit : Z)
    (run : exec (Z * Sensor.t4ka3_device * i2c_bus)) : Prop :=
  exists ret dev' new,
    run = Done (ret, dev',
                {| xfers := xfers bus ++ hold_message :: new;
                   sleeps := sleeps bus |}) /\
    ((last new = Some release_message /\
      ret = (if i2c_transfer (length (xfers bus) + length new)%nat =? 1
             then 0 else - EIO) /\
      dev' = Sensor.set_flip dev (Sensor.flip dev') /\
      Z.testbit (Sensor.flip dev') bit = negb (value =? 0)) \/
     (ret <> 0 /\ dev' = dev /\ ~ In release_message new)).

(** The hold is refused, the read and the write get through, the
    release is refused. *)
Definition hold_and_release_refused : nat -> Z :=
  fun n => match n with
           | 1%nat => 2
           | 2%nat => 1
           | _ => - EIO
           end.

End LegacyFlipSpec.

(** * Properties *)

Import RegArray Spec.

(** ** Bytes and byte order *)

Lemma testbit_0xff (n : Z) : 0 <= n -> Z.testbit 0xff n = (n <? 8).
Proof.
  intros Hn. change 0xff with (Z.ones 8).
  destruct (Z.ltb_spec n 8).
  - apply Z.ones_spec_low. lia.
  - apply Z.ones_spec_high. lia.
Qed.

Lemma testbit_0xff00 (n : Z) :
  0 <= n -> Z.testbit 0xff00 n = (8 <=? n) && (n <? 16).
Proof.
  intros Hn. change 0xff00 with (Z.shiftl (Z.ones 8) 8).
  destruct (Z.leb_spec 8 n); simpl.
  - rewrite Z.shiftl_spec by lia.
    destruct (Z.ltb_spec n 16).
    + apply Z.ones_spec_low. lia.
    + apply Z.ones_spec_high. lia.
  - apply Z.shiftl_spec_low. lia.
Qed.

Lemma swab_low_byte (x : Z) :
  Z.land (cpu_to_be16 x) 0xff = Z.land (Z.shiftr x 8) 0xff.
Proof.
  unfold cpu_to_be16. apply Z.bits_inj'. intros n Hn.
  rewrite !Z.land_spec, Z.lor_spec, !Z.shiftr_spec, Z.land_spec by lia.
  rewrite testbit_0xff by lia.
  destruct (Z.ltb_spec n 8); [| now rewrite !andb_false_r].
  rewrite Z.shiftl_spec_low by lia.
  rewrite testbit_0xff00 by lia.
  replace (8 <=? n + 8) with true by (symmetry; apply Z.leb_le; lia).
  replace (n + 8 <? 16) with true by (symmetry; apply Z.ltb_lt; lia).
  simpl. now rewrite !andb_true_r.
Qed.

Lemma swab_high_byte (x : Z) :
  Z.land (Z.shiftr (cpu_to_be16 x) 8) 0xff = Z.land x 0xff.
Proof.
  unfold cpu_to_be16. apply Z.bits_inj'. intros n Hn.
  rewrite !Z.land_spec, Z.shiftr_spec, Z.lor_spec by lia.
  rewrite Z.shiftl_spec, Z.shiftr_spec, !Z.land_spec by lia.
  replace (n + 8 - 8) with n by lia.
  rewrite (testbit_0xff n), testbit_0xff00 by lia.
  destruct (Z.ltb_spec n 8); [| now rewrite !andb_false_r].
  replace (n + 8 + 8 <? 16) with false by (symmetry; apply Z.ltb_ge; lia).
  now rewrite !andb_false_r, orb_false_r, !andb_true_r.
Qed.

Lemma u16_mem_be (x : Z) : u16_mem (cpu_to_be16 x) = be16 x.
Proof.
  unfold u16_mem, be16. now rewrite swab_low_byte, swab_high_byte.
Qed.

Lemma u16_small (x : Z) : 0 <= x < 2 ^ 16 -> u16 x = x.
Proof.
  intros H. unfold u16. change 0xffff with (Z.ones 16).
  rewrite Z.land_ones by lia. apply Z.mod_small. lia.
Qed.

(** ** The write buffer stays inside its 30 bytes *)

Lemma store8_ok (d : list Z) (i v : Z) :
  0 <= i < Z.of_nat (length d) ->
  store8 d i v = Done (<[Z.to_nat i := v]> d).
Proof.
  intros H. unfold store8.
  replace (0 <=? i) with true by (symmetry; apply Z.leb_le; lia).
  replace (i <? Z.of_nat (length d)) with true
    by (symmetry; apply Z.ltb_lt; lia).
  reflexivity.
Qed.

Lemma store16_ok (d : list Z) (i v : Z) :
  0 <= i -> i + 1 < Z.of_nat (length d) ->
  store16 d i v =
  Done (<[Z.to_nat (i + 1) := Z.land (Z.shiftr v 8) 0xff]>
          (<[Z.to_nat i := Z.land v 0xff]> d)).
Proof.
  intros H0 H1. unfold store16, u16_mem.
  rewrite store8_ok by lia. simpl.
  rewrite store8_ok by (rewrite length_insert; lia). reflexivity.
Qed.

Lemma reg_size_range (r : t4ka3_reg) : 1 <= reg_size r <= 2.
Proof. unfold reg_size. destruct (type r =? T4KA3_8BIT); lia. Qed.

Lemma flush_index i2c (bus : i2c_bus) (ctrl : t4ka3_write_ctrl) :
  forall err ctrl' bus',
    __t4ka3_flush_reg_array i2c bus ctrl = (err, ctrl', bus') ->
    index ctrl' = 0 /\
    length (data (buffer ctrl')) = length (data (buffer ctrl)).
Proof.
  intros err ctrl' bus'. unfold __t4ka3_flush_reg_array, t4ka3_i2c_write.
  destruct (Z.eqb_spec (index ctrl) 0) as [E | E]; intros H.
  - injection H as _ <- _. auto.
  - injection H as _ <- _. auto.
Qed.

Lemma buf_store_ok (ctrl : t4ka3_write_ctrl) (next : t4ka3_reg) :
  0 <= index ctrl <= 28 ->
  length (data (buffer ctrl)) = 30%nat ->
  exists o, buf_store ctrl next = Done o /\
    forall ctrl', o = Some ctrl' ->
      is_write next /\
      index ctrl' = index ctrl + reg_size next /\
      length (data (buffer ctrl')) = 30%nat.
Proof.
  intros Hi Hl. unfold buf_store, is_write, reg_size.
  destruct (Z.eqb_spec (type next) T4KA3_8BIT) as [E8 | E8].
  - rewrite store8_ok by lia. simpl. eexists. split; [reflexivity |].
    intros c [= <-]. simpl. rewrite length_insert. auto.
  - destruct (Z.eqb_spec (type next) T4KA3_16BIT) as [E16 | E16].
    + rewrite store16_ok by lia. simpl. eexists. split; [reflexivity |].
      intros c [= <-]. simpl. rewrite !length_insert. auto.
    + simpl. eexists. split; [reflexivity |]. intros c [=].
Qed.

Lemma buf_reg_array_bounded i2c bus ctrl next :
  bounded ctrl ->
  exists err ctrl' bus',
    __t4ka3_buf_reg_array i2c bus ctrl next = Done (err, ctrl', bus') /\
    bounded ctrl'.
Proof.
  intros [Hi Hl]. unfold __t4ka3_buf_reg_array.
  destruct (buf_store_ok ctrl next) as (o & -> & Ho); [lia | assumption |].
  simpl. destruct o as [c |].
  - destruct (Ho c eq_refl) as (_ & Hc & Hlc).
    pose proof (reg_size_range next).
    unfold T4KA3_MAX_WRITE_BUF_SIZE.
    destruct (Z.leb_spec 30 (index c + 2)).
    + destruct (__t4ka3_flush_reg_array i2c bus c) as [[e c'] b'] eqn:F.
      apply flush_index in F as [F1 F2].
      exists e, c', b'. split; [reflexivity |]. unfold bounded. split; [lia | congruence].
    + exists 0, c, bus. split; [reflexivity |]. unfold bounded. split; [lia | assumption].
  - exists (- EINVAL), ctrl, bus. split; [reflexivity |]. split; assumption.
Qed.

Lemma gap_flush_bounded i2c bus ctrl next err ctrl' bus' :
  bounded ctrl ->
  gap_flush i2c bus ctrl next = (err, ctrl', bus') ->
  bounded ctrl'.
Proof.
  intros [Hi Hl]. unfold gap_flush.
  destruct (__t4ka3_write_reg_is_consecutive ctrl next).
  - intros [= _ <- _]. split; assumption.
  - intros F. apply flush_index in F as [F1 F2]. split; [lia | congruence].
Qed.

Lemma reg_step_bounded i2c bus ctrl next :
  bounded ctrl ->
  exists s, reg_step i2c bus ctrl next = Done s /\ bounded (result_ctrl s).
Proof.
  intros Hb. unfold reg_step.
  destruct (Z.land (type next) T4KA3_TOK_MASK =? T4KA3_TOK_DELAY).
  - destruct (__t4ka3_flush_reg_array i2c bus ctrl) as [[e c] b] eqn:F.
    apply flush_index in F as [F1 F2].
    assert (bounded c) by (destruct Hb; split; [lia | congruence]).
    destruct (e =? 0); eexists; (split; [reflexivity | assumption]).
  - destruct (gap_flush i2c bus ctrl next) as [[e c] b] eqn:G.
    apply gap_flush_bounded in G; [| assumption].
    destruct (e =? 0).
    + destruct (buf_reg_array_bounded i2c b c next G) as (e2 & c2 & b2 & -> & B2).
      simpl. destruct (e2 =? 0); eexists; (split; [reflexivity | assumption]).
    + eexists; (split; [reflexivity | assumption]).
Qed.

Lemma write_reg_loop_no_overrun i2c (l : list t4ka3_reg) :
  forall bus ctrl, bounded ctrl ->
    write_reg_loop i2c bus ctrl l <> Trap OutOfBounds.
Proof.
  induction l as [| r rest IH]; intros bus ctrl Hb; simpl; [discriminate |].
  destruct (type r =? T4KA3_TOK_TERM); [discriminate |].
  destruct (reg_step_bounded i2c bus ctrl r Hb) as (s & -> & Hs). simpl.
  destruct s; [apply IH; assumption | discriminate].
Qed.

Lemma write_reg_loop_returns i2c (l : list t4ka3_reg) :
  forall bus ctrl, bounded ctrl ->
    Exists (fun r => type r = T4KA3_TOK_TERM) l ->
    exists res, write_reg_loop i2c bus ctrl l = Done res.
Proof.
  induction l as [| r rest IH]; intros bus ctrl Hb Hex.
  - inversion Hex.
  - simpl. destruct (Z.eqb_spec (type r) T4KA3_TOK_TERM) as [E | E].
    + eexists; reflexivity.
    + destruct (reg_step_bounded i2c bus ctrl r Hb) as (s & -> & Hs). simpl.
      destruct s.
      * apply IH; [assumption |]. inversion Hex; [contradiction | assumption].
      * eexists; reflexivity.
Qed.

Lemma loop_head_bounded i2c stack bus0 reglist bus ctrl rest :
  length (data stack) = 30%nat ->
  loop_head i2c stack bus0 reglist bus ctrl rest ->
  bounded ctrl.
Proof.
  intros Hl H. induction H as [| bus ctrl r rest ctrl' bus' _ IH _ Hstep].
  - split; simpl; [lia | assumption].
  - destruct (reg_step_bounded i2c bus ctrl r IH) as (s & Hs & Hb).
    rewrite Hs in Hstep. injection Hstep as ->. exact Hb.
Qed.

(** C9: while t4ka3_write_reg_array runs any register program, the
    buffer index is at most 27 whenever a value is about to be appended,
    at most 29 after the append, and every append stores inside the
    30-byte data array; the function never runs past the buffer. *)
Theorem coalesce_buffer_never_overrun
    (i2c_transfer : nat -> Z) (stack : t4ka3_write_buffer)
    (bus0 : i2c_bus) (reglist : list t4ka3_reg) :
  length (data stack) = 30%nat ->
  (forall bus ctrl rest,
      loop_head i2c_transfer stack bus0 reglist bus ctrl rest ->
      0 <= index ctrl <= 27) /\
  (forall bus ctrl next rest err ctrl1 bus1,
      loop_head i2c_transfer stack bus0 reglist bus ctrl (next :: rest) ->
      gap_flush i2c_transfer bus ctrl next = (err, ctrl1, bus1) ->
      0 <= index ctrl1 <= 27 /\
      exists o, buf_store ctrl1 next = Done o /\
        forall ctrl2, o = Some ctrl2 ->
          index ctrl2 = index ctrl1 + reg_size next /\
          index ctrl2 <= 29 /\
          length (data (buffer ctrl2)) = 30%nat) /\
  t4ka3_write_reg_array i2c_transfer stack bus0 reglist <> Trap OutOfBounds.
Proof.
  intros Hl. split; [| split].
  - intros bus ctrl rest H.
    apply (loop_head_bounded _ _ _ _ _ _ _ Hl H).
  - intros bus ctrl next rest err ctrl1 bus1 H G.
    pose proof (loop_head_bounded _ _ _ _ _ _ _ Hl H) as Hb.
    destruct (gap_flush_bounded _ _ _ _ _ _ _ Hb G) as [Hi Hd].
    split; [assumption |].
    destruct (buf_store_ok ctrl1 next) as (o & Ho & Hc); [lia | assumption |].
    exists o. split; [assumption |].
    intros ctrl2 E. destruct (Hc ctrl2 E) as (_ & Hidx & Hlen).
    pose proof (reg_size_range next). repeat split; [assumption | lia | assumption].
  - unfold t4ka3_write_reg_array.
    assert (Hb : bounded {| index := 0; buffer := stack |})
      by (split; simpl; [lia | assumption]).
    pose proof (write_reg_loop_no_overrun i2c_transfer reglist bus0 _ Hb) as Hn.
    destruct (write_reg_loop i2c_transfer bus0 _ reglist) as [[[e c] b] | f];
      simpl; [discriminate | congruence].
Qed.

Lemma coalesce_buffer_never_overrun_witness :
  (forall bus ctrl rest,
      loop_head adapter_ok zero_stack idle_bus long_run bus ctrl rest ->
      0 <= index ctrl <= 27) /\
  t4ka3_write_reg_array adapter_ok zero_stack idle_bus long_run
    <> Trap OutOfBounds.
Proof.
  destruct (coalesce_buffer_never_overrun adapter_ok zero_stack idle_bus
              long_run eq_refl) as (Hhead & _ & Hrun).
  split; assumption.
Defined.

Example long_run_bursts :
  t4ka3_write_reg_array adapter_ok zero_stack idle_bus long_run =
  Done (0, {| xfers :=
                [ [0x02; 0x00; 1; 0; 1; 1; 1; 2; 1; 3; 1; 4; 1; 5; 1; 6;
                   1; 7; 1; 8; 1; 9; 1; 10; 1; 11; 1; 12; 1; 13];
                  [0x02; 0x1c; 1; 14; 1; 15; 1; 16; 1; 17; 1; 18; 1; 19] ];
              sleeps := [] |}).
Proof. reflexivity. Qed.

(** ** One burst per run of consecutive addresses *)

Lemma value_bytes_length (r : t4ka3_reg) :
  Z.of_nat (length (value_bytes r)) = reg_size r.
Proof. unfold value_bytes, reg_size. destruct (type r =? T4KA3_8BIT); reflexivity. Qed.

Lemma payload_app (l1 l2 : list t4ka3_reg) :
  payload (l1 ++ l2) = payload l1 ++ payload l2.
Proof. unfold payload. now rewrite map_app, concat_app. Qed.

Lemma payload_snoc (l : list t4ka3_reg) (r : t4ka3_reg) :
  payload (l ++ [r]) = payload l ++ value_bytes r.
Proof. rewrite payload_app. unfold payload. simpl. now rewrite app_nil_r. Qed.

Lemma payload_nil_inv (l : list t4ka3_reg) : payload l = [] -> l = [].
Proof.
  destruct l as [| r l]; [reflexivity |]. unfold payload. simpl.
  pose proof (value_bytes_length r). pose proof (reg_size_range r).
  destruct (value_bytes r); simpl in *; [lia | discriminate].
Qed.

Lemma take_store1 (d : list Z) (n : nat) (v : Z) :
  (n < length d)%nat -> take (S n) (<[n := v]> d) = take n d ++ [v].
Proof.
  intros H. rewrite (take_S_r _ _ v) by (apply list_lookup_insert_eq; lia).
  now rewrite take_insert_ge by lia.
Qed.

Lemma take_store2 (d : list Z) (n : nat) (v w : Z) :
  (S n < length d)%nat ->
  take (S (S n)) (<[S n := w]> (<[n := v]> d)) = take n d ++ [v; w].
Proof.
  intros H. rewrite take_store1 by (rewrite length_insert; lia).
  rewrite take_store1 by lia. now rewrite <- app_assoc.
Qed.

Lemma buf_store_buffered (ctrl : t4ka3_write_ctrl) (a : Z)
    (l : list t4ka3_reg) (r : t4ka3_reg) :
  buffered ctrl a l ->
  is_write r ->
  sreg r = a + Z.of_nat (length (payload l)) ->
  Z.of_nat (length (payload (l ++ [r]))) <= 30 ->
  exists ctrl', buf_store ctrl r = Done (Some ctrl') /\
                buffered ctrl' a (l ++ [r]).
Proof.
  intros (Hi & Ha & Ht & Hl) Hw Hs Hn.
  rewrite payload_snoc, length_app, Nat2Z.inj_add, value_bytes_length in Hn.
  assert (Haddr : (if index ctrl =? 0 then sreg r else addr (buffer ctrl)) = a).
  { destruct (Z.eqb_spec (index ctrl) 0) as [E | E].
    - rewrite Hs. rewrite Hi in E. lia.
    - apply Ha. intros ->. apply E. rewrite Hi. reflexivity. }
  unfold buf_store. unfold reg_size in Hn.
  destruct (Z.eqb_spec (type r) T4KA3_8BIT) as [E8 | E8].
  - rewrite store8_ok by lia. simpl. eexists. split; [reflexivity |].
    unfold buffered. simpl. rewrite payload_snoc, length_app.
    unfold value_bytes. apply Z.eqb_eq in E8 as E8'. rewrite E8'. simpl.
    rewrite Hi in Haddr |- *. rewrite Nat2Z.id, length_insert.
    repeat split; [lia | intros _; exact Haddr | | assumption].
    replace (length (payload l) + 1)%nat with (S (length (payload l))) by lia.
    rewrite take_store1 by lia. now rewrite Ht.
  - destruct Hw as [Hw | Hw]; [contradiction |].
    apply Z.eqb_eq in Hw as E16. rewrite E16.
    rewrite store16_ok by lia. simpl. eexists. split; [reflexivity |].
    unfold buffered. simpl. rewrite payload_snoc, length_app.
    unfold value_bytes. apply Z.eqb_neq in E8 as E8'. rewrite E8'.
    rewrite <- u16_mem_be. unfold u16_mem. simpl.
    rewrite Hi in Haddr |- *. rewrite !length_insert.
    replace (Z.to_nat (Z.of_nat (length (payload l)) + 1))
      with (S (length (payload l))) by lia.
    rewrite Nat2Z.id.
    repeat split; [lia | intros _; exact Haddr | | assumption].
    replace (length (payload l) + 2)%nat with (S (S (length (payload l)))) by lia.
    rewrite take_store2 by lia. now rewrite Ht.
Qed.

Lemma flush_burst i2c bus ctrl (a : Z) (l : list t4ka3_reg) :
  buffered ctrl a l -> l <> [] ->
  Z.of_nat (length (payload l)) <= 30 ->
  exists ctrl',
    __t4ka3_flush_reg_array i2c bus ctrl =
      (if i2c (length (xfers bus)) =? 1 then 0 else - EIO, ctrl',
       {| xfers := xfers bus ++ [burst a l]; sleeps := sleeps bus |}) /\
    index ctrl' = 0 /\ length (data (buffer ctrl')) = 30%nat.
Proof.
  intros (Hi & Ha & Ht & Hl) Hne Hn.
  unfold __t4ka3_flush_reg_array, t4ka3_i2c_write.
  assert (Hpos : 0 < index ctrl).
  { rewrite Hi. destruct (payload l) eqn:E; [| simpl; lia].
    apply payload_nil_inv in E. contradiction. }
  replace (index ctrl =? 0) with false by (symmetry; apply Z.eqb_neq; lia).
  eexists. split; [| split].
  - f_equal. do 3 f_equal. unfold buffer_mem, burst. cbn [addr data].
    rewrite u16_mem_be, (Ha Hne), u16_small by lia.
    replace (Z.to_nat (2 + index ctrl)) with (2 + length (payload l))%nat by lia.
    unfold be16. simpl. now rewrite Ht.
  - reflexivity.
  - simpl. assumption.
Qed.

Lemma is_write_not_token (r : t4ka3_reg) :
  is_write r ->
  (type r =? T4KA3_TOK_TERM) = false /\
  (Z.land (type r) T4KA3_TOK_MASK =? T4KA3_TOK_DELAY) = false.
Proof. intros [-> | ->]; split; reflexivity. Qed.

Lemma consecutive_from_app (a : Z) (l1 l2 : list t4ka3_reg) :
  consecutive_from a (l1 ++ l2) <->
  consecutive_from a l1 /\
  consecutive_from (a + Z.of_nat (length (payload l1))) l2.
Proof.
  revert a. induction l1 as [| r l1 IH]; intros a; simpl.
  - replace (a + Z.of_nat 0) with a by lia. tauto.
  - unfold payload in *. simpl. rewrite length_app, Nat2Z.inj_add, value_bytes_length.
    rewrite IH. replace (a + reg_size r + Z.of_nat (length (concat (map value_bytes l1))))
      with (a + (reg_size r + Z.of_nat (length (concat (map value_bytes l1))))) by lia.
    tauto.
Qed.

(** Buffering one more consecutive entry while the buffer stays below
    28 bytes leaves the bus untouched. *)
Lemma reg_step_accumulate i2c bus ctrl (a : Z) (l : list t4ka3_reg)
    (r : t4ka3_reg) :
  buffered ctrl a l ->
  is_write r ->
  sreg r = a + Z.of_nat (length (payload l)) ->
  Z.of_nat (length (payload (l ++ [r]))) < 28 ->
  exists ctrl', reg_step i2c bus ctrl r = Done (Continue ctrl' bus) /\
                buffered ctrl' a (l ++ [r]).
Proof.
  intros Hb Hw Hs Hn.
  destruct (buf_store_buffered ctrl a l r Hb Hw Hs) as (c & Hc & Hbc); [lia |].
  destruct (is_write_not_token r Hw) as [_ Hd].
  unfold reg_step. rewrite Hd. unfold gap_flush, __t4ka3_write_reg_is_consecutive.
  assert (Hcons : (if index ctrl =? 0 then true
                   else addr (buffer ctrl) + index ctrl =? sreg r) = true).
  { destruct Hb as (Hi & Ha & _). destruct (Z.eqb_spec (index ctrl) 0) as [E | E];
      [reflexivity |].
    apply Z.eqb_eq. rewrite Ha, Hi; [lia |]. intros ->. apply E. now rewrite Hi. }
  rewrite Hcons. simpl. unfold __t4ka3_buf_reg_array. rewrite Hc. simpl.
  destruct Hbc as (Hi' & Hrest). unfold T4KA3_MAX_WRITE_BUF_SIZE.
  replace (30 <=? index c + 2) with false by (symmetry; apply Z.leb_gt; lia).
  simpl. exists c. split; [reflexivity |]. split; assumption.
Qed.

Lemma write_reg_loop_accumulate i2c bus (a : Z) (l : list t4ka3_reg) :
  forall (l0 : list t4ka3_reg) ctrl (tail : list t4ka3_reg),
    buffered ctrl a l0 ->
    Forall is_write l ->
    consecutive_from (a + Z.of_nat (length (payload l0))) l ->
    Z.of_nat (length (payload (l0 ++ l))) < 28 ->
    exists ctrl', buffered ctrl' a (l0 ++ l) /\
      write_reg_loop i2c bus ctrl (l ++ tail) =
      write_reg_loop i2c bus ctrl' tail.
Proof.
  induction l as [| r l IH]; intros l0 ctrl tail Hb Hw Hc Hn.
  - exists ctrl. rewrite app_nil_r. split; [assumption | reflexivity].
  - inversion Hw as [| ? ? Hwr Hwl]; subst. destruct Hc as [Hs Hc].
    assert (Hn1 : Z.of_nat (length (payload (l0 ++ [r]))) < 28).
    { rewrite payload_snoc, length_app. rewrite payload_app, length_app in Hn.
      change (payload (r :: l)) with (value_bytes r ++ payload l) in Hn.
      rewrite length_app in Hn. lia. }
    destruct (reg_step_accumulate i2c bus ctrl a l0 r Hb Hwr Hs Hn1)
      as (c & Hstep & Hbc).
    destruct (IH (l0 ++ [r]) c tail Hbc Hwl) as (c' & Hbc' & Hloop).
    + rewrite payload_snoc, length_app, Nat2Z.inj_add, value_bytes_length.
      now rewrite Z.add_assoc.
    + now rewrite <- app_assoc.
    + exists c'. rewrite <- app_assoc in Hbc'. split; [exact Hbc' |].
      simpl. destruct (is_write_not_token r Hwr) as [-> _].
      rewrite Hstep. simpl. exact Hloop.
Qed.

(** A non-empty consecutive run of at most 28 bytes, started on an
    empty buffer and followed by the terminator, goes out as one burst. *)
Lemma write_reg_loop_single_burst i2c bus ctrl (a : Z)
    (entries : list t4ka3_reg) (term : t4ka3_reg) (junk : list t4ka3_reg) :
  index ctrl = 0 -> length (data (buffer ctrl)) = 30%nat ->
  entries <> [] ->
  Forall is_write entries ->
  consecutive_from a entries ->
  Z.of_nat (length (payload entries)) <= 28 ->
  type term = T4KA3_TOK_TERM ->
  exists ctrl',
    write_reg_loop i2c bus ctrl (entries ++ term :: junk) =
    Done (if i2c (length (xfers bus)) =? 1 then 0 else - EIO, ctrl',
          {| xfers := xfers bus ++ [burst a entries]; sleeps := sleeps bus |}).
Proof.
  intros Hi Hl Hne Hw Hc Hn Ht.
  destruct (exists_last Hne) as (init & last & ->).
  apply Forall_app in Hw as [Hwi Hwl]. inversion Hwl as [| ? ? Hlast _]; subst.
  apply consecutive_from_app in Hc as [Hci [Hcl _]].
  assert (Hb0 : buffered ctrl a []).
  { unfold buffered. simpl. rewrite take_0.
    repeat split; try assumption; congruence. }
  pose proof (value_bytes_length last) as Hvl. pose proof (reg_size_range last) as Hrs.
  assert (Hni : Z.of_nat (length (payload init)) < 28).
  { rewrite payload_snoc, length_app in Hn. lia. }
  destruct (write_reg_loop_accumulate i2c bus a init [] ctrl
              ([last] ++ term :: junk) Hb0 Hwi)
    as (c1 & Hb1 & Hloop); [simpl; now rewrite Z.add_0_r | simpl; assumption |].
  simpl in Hb1. rewrite <- app_assoc, Hloop. clear Hloop.
  destruct (buf_store_buffered c1 a init last Hb1 Hlast) as (c2 & Hc2 & Hb2);
    [exact Hcl | lia |].
  simpl. destruct (is_write_not_token last Hlast) as [-> Hd].
  unfold reg_step. rewrite Hd. unfold gap_flush, __t4ka3_write_reg_is_consecutive.
  assert (Hcons : (if index c1 =? 0 then true
                   else addr (buffer c1) + index c1 =? sreg last) = true).
  { destruct Hb1 as (Hi1 & Ha1 & _).
    destruct (Z.eqb_spec (index c1) 0) as [E | E]; [reflexivity |].
    apply Z.eqb_eq. rewrite Ha1, Hi1; [lia |]. intros ->. apply E. now rewrite Hi1. }
  rewrite Hcons. simpl. unfold __t4ka3_buf_reg_array. rewrite Hc2. simpl.
  assert (Hne2 : init ++ [last] <> []) by (intros E; now apply app_eq_nil in E as [_ E]).
  destruct (flush_burst i2c bus c2 a (init ++ [last]) Hb2 Hne2) as (c3 & Hf & Hi3 & Hl3);
    [lia |].
  unfold T4KA3_MAX_WRITE_BUF_SIZE.
  destruct (Z.leb_spec 30 (index c2 + 2)).
  - rewrite Hf. simpl.
    destruct (Z.eqb_spec (i2c (length (xfers bus))) 1) as [E | E]; simpl.
    + apply Z.eqb_eq in Ht. rewrite Ht.
      unfold __t4ka3_flush_reg_array. rewrite Hi3. simpl. eexists. reflexivity.
    + eexists. reflexivity.
  - simpl. apply Z.eqb_eq in Ht. rewrite Ht. rewrite Hf. eexists. reflexivity.
Qed.

(** C1: a non-empty program of write entries at consecutive addresses
    whose value bytes number at most 28 goes to the adapter as exactly
    one burst, the first address followed by all value bytes in order;
    with one address gap between two adjacent entries it goes out as
    exactly two bursts, split at the gap (the adapter accepting the
    first of them). *)
Theorem contiguous_run_one_burst_gap_two
    (i2c_transfer : nat -> Z) (stack : t4ka3_write_buffer) (bus : i2c_bus)
    (term : t4ka3_reg) (junk : list t4ka3_reg) :
  length (data stack) = 30%nat ->
  type term = T4KA3_TOK_TERM ->
  (forall a entries,
      entries <> [] ->
      Forall is_write entries ->
      consecutive_from a entries ->
      Z.of_nat (length (payload entries)) <= 28 ->
      t4ka3_write_reg_array i2c_transfer stack bus (entries ++ term :: junk) =
      Done (if i2c_transfer (length (xfers bus)) =? 1 then 0 else - EIO,
            {| xfers := xfers bus ++ [burst a entries];
               sleeps := sleeps bus |})) /\
  (forall a b l1 l2,
      l1 <> [] -> l2 <> [] ->
      Forall is_write l1 -> Forall is_write l2 ->
      consecutive_from a l1 ->
      consecutive_from b l2 ->
      b <> a + Z.of_nat (length (payload l1)) ->
      Z.of_nat (length (payload (l1 ++ l2))) <= 28 ->
      i2c_transfer (length (xfers bus)) = 1 ->
      t4ka3_write_reg_array i2c_transfer stack bus
                            (l1 ++ l2 ++ term :: junk) =
      Done (if i2c_transfer (S (length (xfers bus))) =? 1 then 0 else - EIO,
            {| xfers := xfers bus ++ [burst a l1; burst b l2];
               sleeps := sleeps bus |})).
Proof.
  intros Hl Ht. split.
  - intros a entries Hne Hw Hc Hn. unfold t4ka3_write_reg_array.
    destruct (write_reg_loop_single_burst i2c_transfer bus
                {| index := 0; buffer := stack |} a entries term junk)
      as (c & ->); auto.
  - intros a b l1 l2 Hne1 Hne2 Hw1 Hw2 Hc1 Hc2 Hgap Hn Hok.
    unfold t4ka3_write_reg_array.
    rewrite payload_app, length_app, Nat2Z.inj_add in Hn.
    assert (Hp2 : 0 < Z.of_nat (length (payload l2))).
    { destruct (payload l2) eqn:E; [| simpl; lia].
      apply payload_nil_inv in E. contradiction. }
    assert (Hp1 : 0 < Z.of_nat (length (payload l1))).
    { destruct (payload l1) eqn:E; [| simpl; lia].
      apply payload_nil_inv in E. contradiction. }
    assert (Hb0 : buffered {| index := 0; buffer := stack |} a []).
    { unfold buffered. simpl. rewrite take_0.
      repeat split; try assumption; congruence. }
    destruct (write_reg_loop_accumulate i2c_transfer bus a l1 []
                {| index := 0; buffer := stack |} (l2 ++ term :: junk) Hb0 Hw1)
      as (c1 & Hb1 & ->); [simpl; now rewrite Z.add_0_r | simpl; lia |].
    simpl in Hb1.
    destruct l2 as [| r l2]; [contradiction |].
    destruct Hc2 as [Hr Hc2]. inversion Hw2 as [| ? ? Hwr Hwl2]; subst.
    destruct (flush_burst i2c_transfer bus c1 a l1 Hb1 Hne1)
      as (c2 & Hf & Hi2 & Hl2); [lia |].
    (* the first entry after the gap: flush, then start a new run *)
    change ((r :: l2) ++ term :: junk) with (r :: (l2 ++ term :: junk)).
    pose proof (write_reg_loop_single_burst i2c_transfer
                  {| xfers := xfers bus ++ [burst a l1]; sleeps := sleeps bus |}
                  c2 (sreg r) (r :: l2) term junk Hi2 Hl2) as Hsingle.
    destruct Hsingle as (c3 & Hrun);
      [discriminate | assumption | split; [reflexivity | assumption] | | assumption |].
    { change (payload (r :: l2)) with (value_bytes r ++ payload l2) in *. lia. }
    simpl in Hrun. simpl.
    destruct (is_write_not_token r Hwr) as [Hnt Hnd]. rewrite Hnt in *.
    unfold reg_step in *. rewrite Hnd in *.
    unfold gap_flush at 1. unfold __t4ka3_write_reg_is_consecutive.
    destruct Hb1 as (Hi1 & Ha1 & _).
    replace (index c1 =? 0) with false by (symmetry; apply Z.eqb_neq; lia).
    replace (addr (buffer c1) + index c1 =? sreg r) with false
      by (symmetry; apply Z.eqb_neq; rewrite Ha1 by assumption; lia).
    rewrite Hf, Hok. simpl.
    unfold gap_flush, __t4ka3_write_reg_is_consecutive in Hrun.
    rewrite Hi2 in Hrun. simpl in Hrun.
    rewrite Hrun. simpl. rewrite length_app. simpl.
    replace (length (xfers bus) + 1)%nat with (S (length (xfers bus))) by lia.
    now rewrite <- app_assoc.
Qed.

Lemma contiguous_run_one_burst_gap_two_witness :
  t4ka3_write_reg_array adapter_ok zero_stack idle_bus
    [ {| type := T4KA3_8BIT; sreg := 0x0340; val := 0x09 |};
      {| type := T4KA3_8BIT; sreg := 0x0341; val := 0xBC |};
      {| type := T4KA3_16BIT; sreg := 0x0342; val := 0x0D70 |};
      TERM ] =
  Done (0, {| xfers := [[0x03; 0x40; 0x09; 0xBC; 0x0D; 0x70]]; sleeps := [] |})
  /\
  t4ka3_write_reg_array adapter_ok zero_stack idle_bus
    [ {| type := T4KA3_8BIT; sreg := 0x0340; val := 0x09 |};
      {| type := T4KA3_8BIT; sreg := 0x0341; val := 0xBC |};
      {| type := T4KA3_16BIT; sreg := 0x0344; val := 0x0D70 |};
      TERM ] =
  Done (0, {| xfers := [[0x03; 0x40; 0x09; 0xBC]; [0x03; 0x44; 0x0D; 0x70]];
              sleeps := [] |}).
Proof.
  destruct (contiguous_run_one_burst_gap_two adapter_ok zero_stack idle_bus
              TERM [] eq_refl eq_refl) as [One Two].
  split.
  - apply (One 0x0340
             [ {| type := T4KA3_8BIT; sreg := 0x0340; val := 0x09 |};
               {| type := T4KA3_8BIT; sreg := 0x0341; val := 0xBC |};
               {| type := T4KA3_16BIT; sreg := 0x0342; val := 0x0D70 |} ]).
    + discriminate.
    + repeat constructor; (left; reflexivity) || (right; reflexivity).
    + simpl. repeat split; reflexivity.
    + simpl. lia.
  - apply (Two 0x0340 0x0344
             [ {| type := T4KA3_8BIT; sreg := 0x0340; val := 0x09 |};
               {| type := T4KA3_8BIT; sreg := 0x0341; val := 0xBC |} ]
             [ {| type := T4KA3_16BIT; sreg := 0x0344; val := 0x0D70 |} ]).
    + discriminate.
    + discriminate.
    + repeat constructor; (left; reflexivity) || (right; reflexivity).
    + repeat constructor; (left; reflexivity) || (right; reflexivity).
    + simpl. repeat split; reflexivity.
    + simpl. repeat split; reflexivity.
    + simpl. lia.
    + simpl. lia.
    + reflexivity.
Defined.

(** ** Transfers are only ever appended *)

Lemma flush_grows i2c bus ctrl e c b :
  __t4ka3_flush_reg_array i2c bus ctrl = (e, c, b) ->
  xfers bus `prefix_of` xfers b.
Proof.
  unfold __t4ka3_flush_reg_array, t4ka3_i2c_write.
  destruct (index ctrl =? 0); intros [= <- <- <-]; simpl.
  - reflexivity.
  - now apply prefix_app_r.
Qed.

Lemma gap_flush_grows i2c bus ctrl next e c b :
  gap_flush i2c bus ctrl next = (e, c, b) ->
  xfers bus `prefix_of` xfers b.
Proof.
  unfold gap_flush. destruct (__t4ka3_write_reg_is_consecutive ctrl next).
  - intros [= <- <- <-]. reflexivity.
  - apply flush_grows.
Qed.

Lemma buf_reg_array_grows i2c bus ctrl next e c b :
  __t4ka3_buf_reg_array i2c bus ctrl next = Done (e, c, b) ->
  xfers bus `prefix_of` xfers b.
Proof.
  unfold __t4ka3_buf_reg_array.
  destruct (buf_store ctrl next) as [[c' |] | f]; simpl; [| | discriminate].
  - destruct (T4KA3_MAX_WRITE_BUF_SIZE <=? index c' + 2).
    + intros [= F]. now apply flush_grows in F.
    + intros [= <- <- <-]. reflexivity.
  - intros [= <- <- <-]. reflexivity.
Qed.

Lemma reg_step_grows i2c bus ctrl next s :
  reg_step i2c bus ctrl next = Done s ->
  xfers bus `prefix_of` xfers (result_bus s).
Proof.
  unfold reg_step.
  destruct (Z.land (type next) T4KA3_TOK_MASK =? T4KA3_TOK_DELAY).
  - destruct (__t4ka3_flush_reg_array i2c bus ctrl) as [[e c] b] eqn:F.
    apply flush_grows in F.
    destruct (e =? 0); intros [= <-]; simpl; assumption.
  - destruct (gap_flush i2c bus ctrl next) as [[e c] b] eqn:G.
    apply gap_flush_grows in G.
    destruct (e =? 0); [| intros [= <-]; simpl; assumption].
    destruct (__t4ka3_buf_reg_array i2c b c next) as [[[e2 c2] b2] | f] eqn:B;
      simpl; [| discriminate].
    apply buf_reg_array_grows in B.
    destruct (e2 =? 0); intros [= <-]; simpl; now transitivity (xfers b).
Qed.

Lemma write_reg_loop_grows i2c (l : list t4ka3_reg) :
  forall bus ctrl e c b,
    write_reg_loop i2c bus ctrl l = Done (e, c, b) ->
    xfers bus `prefix_of` xfers b.
Proof.
  induction l as [| r rest IH]; intros bus ctrl e c b; simpl; [discriminate |].
  destruct (type r =? T4KA3_TOK_TERM).
  - intros [= F]. now apply flush_grows in F.
  - destruct (reg_step i2c bus ctrl r) as [s | f] eqn:S; simpl; [| discriminate].
    apply reg_step_grows in S.
    destruct s as [c1 b1 | e1 c1 b1]; simpl in *.
    + intros L. apply IH in L. now transitivity (xfers b1).
    + intros [= <- <- <-]. assumption.
Qed.

Lemma take_of_prefix {A} (l1 l2 : list A) (n : nat) :
  l1 `prefix_of` l2 -> length l1 = n -> take n l2 = l1.
Proof. intros [m ->] <-. apply take_app_length. Qed.

(** ** A failing transfer stops the program where it is *)

Section Fault.

(** The adapter accepts every transfer before the [k]-th and refuses
    that one. *)
Variable i2c_transfer : nat -> Z.
Variable k : nat.
Hypothesis earlier_ok : forall j, (j < k)%nat -> i2c_transfer j = 1.
Hypothesis kth_fails : i2c_transfer k <> 1.

Lemma flush_fault bus ctrl e c b :
  (length (xfers bus) <= k)%nat ->
  __t4ka3_flush_reg_array adapter_ok bus ctrl = (e, c, b) ->
  e = 0 /\
  (((length (xfers b) <= k)%nat /\
    __t4ka3_flush_reg_array i2c_transfer bus ctrl = (0, c, b)) \/
   (length (xfers b) = S k /\
    __t4ka3_flush_reg_array i2c_transfer bus ctrl = (- EIO, c, b))).
Proof.
  intros Hn. unfold __t4ka3_flush_reg_array, t4ka3_i2c_write, adapter_ok.
  destruct (index ctrl =? 0).
  - intros [= <- <- <-]. split; [reflexivity |].
    left. split; [assumption | reflexivity].
  - simpl. intros [= <- <- <-]. split; [reflexivity |].
    simpl. rewrite length_app. simpl.
    destruct (Nat.eq_dec (length (xfers bus)) k) as [E | E].
    + right. split; [lia |]. rewrite E.
      apply Z.eqb_neq in kth_fails. now rewrite kth_fails.
    + left. split; [lia |]. rewrite earlier_ok by lia. reflexivity.
Qed.

Lemma gap_flush_fault bus ctrl next e c b :
  (length (xfers bus) <= k)%nat ->
  gap_flush adapter_ok bus ctrl next = (e, c, b) ->
  e = 0 /\
  (((length (xfers b) <= k)%nat /\
    gap_flush i2c_transfer bus ctrl next = (0, c, b)) \/
   (length (xfers b) = S k /\
    gap_flush i2c_transfer bus ctrl next = (- EIO, c, b))).
Proof.
  intros Hn. unfold gap_flush.
  destruct (__t4ka3_write_reg_is_consecutive ctrl next).
  - intros [= <- <- <-]. split; [reflexivity |].
    left. split; [assumption | reflexivity].
  - now apply flush_fault.
Qed.

Lemma buf_reg_array_fault bus ctrl next e c b :
  (length (xfers bus) <= k)%nat ->
  __t4ka3_buf_reg_array adapter_ok bus ctrl next = Done (e, c, b) ->
  ((length (xfers b) <= k)%nat /\
   __t4ka3_buf_reg_array i2c_transfer bus ctrl next = Done (e, c, b)) \/
  (length (xfers b) = S k /\
   __t4ka3_buf_reg_array i2c_transfer bus ctrl next = Done (- EIO, c, b)).
Proof.
  intros Hn. unfold __t4ka3_buf_reg_array.
  destruct (buf_store ctrl next) as [[c' |] | f]; simpl; [| | discriminate].
  - destruct (T4KA3_MAX_WRITE_BUF_SIZE <=? index c' + 2).
    + intros [= F].
      destruct (flush_fault _ _ _ _ _ Hn F) as (-> & [[Hk H] | [Hk H]]).
      * left. now rewrite H.
      * right. now rewrite H.
    + intros [= <- <- <-]. left. split; [assumption | reflexivity].
  - intros [= <- <- <-]. left. split; [assumption | reflexivity].
Qed.

(** One loop iteration: either the fault is not reached and the step
    is the fault-free one, or the step returns -EIO right after the
    refused transfer. *)
Lemma reg_step_fault bus ctrl next s :
  (length (xfers bus) <= k)%nat ->
  reg_step adapter_ok bus ctrl next = Done s ->
  ((length (xfers (result_bus s)) <= k)%nat /\
   reg_step i2c_transfer bus ctrl next = Done s) \/
  ((k < length (xfers (result_bus s)))%nat /\
   exists c b, reg_step i2c_transfer bus ctrl next = Done (Return (- EIO) c b) /\
               xfers b = take (S k) (xfers (result_bus s))).
Proof.
  intros Hn Hs. pose proof (reg_step_grows _ _ _ _ _ Hs) as Hgrow.
  revert Hs Hgrow. unfold reg_step.
  destruct (Z.land (type next) T4KA3_TOK_MASK =? T4KA3_TOK_DELAY).
  - destruct (__t4ka3_flush_reg_array adapter_ok bus ctrl) as [[e c] b] eqn:F.
    destruct (flush_fault _ _ _ _ _ Hn F) as (-> & [[Hk H] | [Hk H]]);
      simpl; intros [= <-] _; simpl; rewrite H; simpl.
    + left. split; [assumption | reflexivity].
    + right. split; [lia |]. exists c, b.
      split; [reflexivity |]. rewrite <- Hk. now rewrite firstn_all.
  - destruct (gap_flush adapter_ok bus ctrl next) as [[e c] b] eqn:G.
    pose proof (gap_flush_grows _ _ _ _ _ _ _ G) as Gg.
    destruct (gap_flush_fault _ _ _ _ _ _ Hn G) as (-> & [[Hk H] | [Hk H]]);
      simpl; rewrite H; simpl;
      (destruct (__t4ka3_buf_reg_array adapter_ok b c next)
         as [[[e2 c2] b2] | f] eqn:B; simpl; [| discriminate]).
    + destruct (buf_reg_array_fault _ _ _ _ _ _ Hk B) as [[Hk2 H2] | [Hk2 H2]];
        rewrite H2; simpl.
      * intros Hs _. left.
        destruct (e2 =? 0); injection Hs as <-; simpl; split; auto.
      * intros Hs _. right.
        assert (Hb2 : xfers (result_bus s) = xfers b2)
          by (destruct (e2 =? 0); injection Hs as <-; reflexivity).
        rewrite Hb2. split; [lia |]. exists c2, b2. split; [reflexivity |].
        rewrite <- Hk2. now rewrite firstn_all.
    + intros Hs _. right.
      assert (Hb2 : xfers (result_bus s) = xfers b2)
        by (destruct (e2 =? 0); injection Hs as <-; reflexivity).
      apply buf_reg_array_grows in B. rewrite Hb2.
      split; [apply prefix_length in B; lia |].
      exists c, b. split; [reflexivity |]. symmetry. now apply take_of_prefix.
Qed.

Lemma write_reg_loop_fault (l : list t4ka3_reg) :
  forall bus ctrl e c b,
    (length (xfers bus) <= k)%nat ->
    write_reg_loop adapter_ok bus ctrl l = Done (e, c, b) ->
    ((length (xfers b) <= k)%nat /\
     write_reg_loop i2c_transfer bus ctrl l = Done (e, c, b)) \/
    ((k < length (xfers b))%nat /\
     exists c' b',
       write_reg_loop i2c_transfer bus ctrl l = Done (- EIO, c', b') /\
       xfers b' = take (S k) (xfers b)).
Proof.
  induction l as [| r rest IH]; intros bus ctrl e c b Hn; simpl; [discriminate |].
  destruct (type r =? T4KA3_TOK_TERM).
  - intros [= F]. destruct (flush_fault _ _ _ _ _ Hn F) as (-> & [[Hk H] | [Hk H]]).
    + left. split; [assumption | now rewrite H].
    + right. split; [lia |]. exists c, b.
      split; [now rewrite H |]. rewrite <- Hk. now rewrite firstn_all.
  - destruct (reg_step adapter_ok bus ctrl r) as [s | f] eqn:S; simpl; [| discriminate].
    destruct (reg_step_fault _ _ _ _ Hn S) as [[Hk H] | (Hk & c' & b' & H & Hb')];
      rewrite H; simpl.
    + destruct s as [c1 b1 | e1 c1 b1]; simpl in *.
      * intros L. exact (IH _ _ _ _ _ Hk L).
      * intros [= <- <- <-]. left. split; [assumption | reflexivity].
    + destruct s as [c1 b1 | e1 c1 b1]; simpl in *.
      * intros L. apply write_reg_loop_grows in L as Lg. destruct Lg as [m2 Hm2].
        right. split; [rewrite Hm2, length_app; lia |].
        exists c', b'. split; [reflexivity |]. rewrite Hb', Hm2.
        rewrite take_app_le by lia. reflexivity.
      * intros [= <- <- <-]. right. split; [assumption |].
        exists c', b'. split; [reflexivity | assumption].
Qed.

End Fault.

(** A program that contains its terminator always runs to a return. *)
Lemma write_reg_array_returns i2c (stack : t4ka3_write_buffer)
    (bus : i2c_bus) (reglist : list t4ka3_reg) :
  length (data stack) = 30%nat ->
  Exists (fun r => type r = T4KA3_TOK_TERM) reglist ->
  exists err bus', t4ka3_write_reg_array i2c stack bus reglist = Done (err, bus').
Proof.
  intros Hl Ht. unfold t4ka3_write_reg_array.
  assert (Hb : bounded {| index := 0; buffer := stack |})
    by (split; simpl; [lia | assumption]).
  destruct (write_reg_loop_returns i2c reglist bus _ Hb Ht) as ([[e c] b] & ->).
  simpl. eauto.
Qed.

(** C2: for every terminated register program, when the [k]-th
    transfer (counting from 0) is the first one the adapter refuses,
    t4ka3_write_reg_array returns -EIO right after it: the adapter has
    been handed exactly the first [k + 1] transfers of the fault-free
    run, the refused one included, nothing after it, and nothing of what
    was sent before is taken back.  A fault the fault-free run never
    reaches changes nothing. *)
Theorem fault_stops_after_kth_transfer
    (i2c_transfer : nat -> Z) (k : nat) (stack : t4ka3_write_buffer)
    (bus : i2c_bus) (reglist : list t4ka3_reg) :
  length (data stack) = 30%nat ->
  Exists (fun r => type r = T4KA3_TOK_TERM) reglist ->
  (forall j, (j < k)%nat -> i2c_transfer j = 1) ->
  i2c_transfer k <> 1 ->
  (length (xfers bus) <= k)%nat ->
  exists err bus_ok,
    t4ka3_write_reg_array adapter_ok stack bus reglist = Done (err, bus_ok) /\
    xfers bus `prefix_of` xfers bus_ok /\
    ((k < length (xfers bus_ok))%nat ->
     exists bus_f,
       t4ka3_write_reg_array i2c_transfer stack bus reglist =
         Done (- EIO, bus_f) /\
       xfers bus_f = take (S k) (xfers bus_ok) /\
       xfers bus `prefix_of` xfers bus_f) /\
    ((length (xfers bus_ok) <= k)%nat ->
     t4ka3_write_reg_array i2c_transfer stack bus reglist =
       Done (err, bus_ok)).
Proof.
  intros Hl Ht Hearly Hk Hn.
  destruct (write_reg_array_returns adapter_ok stack bus reglist Hl Ht)
    as (err & bus_ok & Hok).
  exists err, bus_ok. split; [exact Hok |].
  revert Hok. unfold t4ka3_write_reg_array.
  destruct (write_reg_loop adapter_ok bus {| index := 0; buffer := stack |} reglist)
    as [[[e c] b] | f] eqn:L; simpl; [| discriminate].
  intros [= <- <-].
  pose proof (write_reg_loop_grows _ _ _ _ _ _ _ L) as Hgrow.
  split; [assumption |].
  destruct (write_reg_loop_fault i2c_transfer k Hearly Hk reglist _ _ _ _ _ Hn L)
    as [[Hle H] | (Hlt & c' & b' & H & Hb')]; rewrite H; simpl.
  - split; [intros; lia | reflexivity].
  - split; [| intros; lia]. intros _. exists b'.
    split; [reflexivity |]. split; [assumption |].
    apply write_reg_loop_grows in H. assumption.
Qed.

Lemma fault_stops_after_kth_transfer_witness :
  exists bus_f,
    t4ka3_write_reg_array (fail_at 1) zero_stack idle_bus group_hold_program =
      Done (- EIO, bus_f) /\
    xfers bus_f = [[0x01; 0x04; 0x01]; [0x03; 0x40; 0x09; 0xBC]].
Proof.
  destruct (fault_stops_after_kth_transfer (fail_at 1) 1 zero_stack idle_bus
              group_hold_program)
    as (err & bus_ok & Hok & _ & Hfault & _).
  - reflexivity.
  - unfold group_hold_program. do 4 apply Exists_cons_tl.
    apply Exists_cons_hd. reflexivity.
  - intros j Hj. destruct j as [| j]; [reflexivity | lia].
  - vm_compute. discriminate.
  - simpl. lia.
  - vm_compute in Hok. injection Hok as <- <-.
    destruct Hfault as (bus_f & Hrun & Hsent & _); [simpl; lia |].
    exists bus_f. split; [exact Hrun | exact Hsent].
Defined.

(** ** Streaming, exposure, flip and controls *)

Import Sensor SensorSpec.

Lemma set_bayer_order_table (sensor : t4ka3_device)
    (fmt : v4l2_mbus_framefmt) :
  t4ka3_set_bayer_order sensor fmt =
  Done {| width := width fmt; height := height fmt;
          code := flip_table (ctrl_set (vflip (ctrls sensor)))
                             (ctrl_set (hflip (ctrls sensor))) |}.
Proof.
  unfold t4ka3_set_bayer_order.
  destruct (ctrl_set (vflip (ctrls sensor)));
    destruct (ctrl_set (hflip (ctrls sensor))); reflexivity.
Qed.

(** C6: the Bayer order t4ka3_set_bayer_order reports is the fixed
    table (vflip=0,hflip=0) -> GRBG, (0,1) -> RGGB, (1,0) -> BGGR,
    (1,1) -> GBRG applied to the current flip control values; it is
    recomputed on each call and does not depend on the code stored
    before.  The atomisp mapping table of the legacy revision is the
    same table. *)
Theorem bayer_order_is_flip_table :
  (forall sensor fmt,
      t4ka3_set_bayer_order sensor fmt =
      Done {| width := width fmt; height := height fmt;
              code := flip_table (ctrl_set (vflip (ctrls sensor)))
                                 (ctrl_set (hflip (ctrls sensor))) |}) /\
  (forall sensor fmt stored,
      t4ka3_set_bayer_order sensor
        {| width := width fmt; height := height fmt; code := stored |} =
      t4ka3_set_bayer_order sensor fmt) /\
  (forall fmt,
      t4ka3_set_bayer_order (with_flips 0 0) fmt =
        Done {| width := width fmt; height := height fmt;
                code := MEDIA_BUS_FMT_SGRBG10_1X10 |} /\
      t4ka3_set_bayer_order (with_flips 0 1) fmt =
        Done {| width := width fmt; height := height fmt;
                code := MEDIA_BUS_FMT_SRGGB10_1X10 |} /\
      t4ka3_set_bayer_order (with_flips 1 0) fmt =
        Done {| width := width fmt; height := height fmt;
                code := MEDIA_BUS_FMT_SBGGR10_1X10 |} /\
      t4ka3_set_bayer_order (with_flips 1 1) fmt =
        Done {| width := width fmt; height := height fmt;
                code := MEDIA_BUS_FMT_SGBRG10_1X10 |}) /\
  (forall v h : bool,
      Resolution.bayer_order_lookup (Nat.b2n v) (Nat.b2n h) =
      Some (Resolution.bayer_of_code (flip_table v h))).
Proof.
  split; [exact set_bayer_order_table |]. split; [| split].
  - intros sensor fmt stored. now rewrite !set_bayer_order_table.
  - intros fmt. repeat split.
  - intros [|] [|]; reflexivity.
Qed.

(** C7: a horizontal or vertical flip request made while the sensor is
    streaming returns -EBUSY, makes no kernel call at all (so no
    register read or write), and leaves the device state, stored flip
    and reported Bayer order included, as it was. *)
Theorem flip_while_streaming_is_busy
    (answer : nat -> kcall -> Z) (sensor : t4ka3_device) (value : Z)
    (log : list kcall) :
  streaming sensor <> 0 ->
  t4ka3_t_hflip answer sensor value log = Done ((- EBUSY, sensor), log) /\
  t4ka3_t_vflip answer sensor value log = Done ((- EBUSY, sensor), log).
Proof.
  intros Hs. apply Z.eqb_neq in Hs.
  unfold t4ka3_t_hflip, t4ka3_t_vflip. rewrite Hs. simpl. split; reflexivity.
Qed.

Lemma flip_while_streaming_is_busy_witness :
  t4ka3_t_hflip all_succeed streaming_sensor 1 [] =
    Done ((- EBUSY, streaming_sensor), []) /\
  t4ka3_t_vflip all_succeed streaming_sensor 0 [] =
    Done ((- EBUSY, streaming_sensor), []).
Proof.
  split.
  - apply (flip_while_streaming_is_busy all_succeed streaming_sensor 1 []).
    simpl. lia.
  - apply (flip_while_streaming_is_busy all_succeed streaming_sensor 0 []).
    simpl. lia.
Defined.

(** *** Exposure and gain *)

Lemma clamp_t_u16_spec (v lo hi : Z) :
  0 <= v < 2 ^ 16 -> 0 <= lo <= hi -> hi < 2 ^ 16 ->
  clamp_t_u16 v lo hi = clamp lo hi v /\ lo <= clamp lo hi v <= hi.
Proof.
  intros Hv Hlo Hhi. unfold clamp_t_u16, clamp.
  rewrite !u16_small by lia. lia.
Qed.

Lemma call_run (answer : nat -> kcall -> Z) (c : kcall) (log : list kcall) :
  call answer c log = Done (answer (length log) c, log ++ [c]).
Proof. reflexivity. Qed.

(** C5: __t4ka3_set_exposure never rejects its inputs: it clamps the
    integration time into [1, 0xFFFF - 6] and the gain into
    [0x0080, 0x07FF], then writes frame-length-lines (coarse + 6 when the
    clamped coarse exceeds 2492 - 6, else 2492), coarse integration
    time, global gain and the four digital-gain registers (green-R, red,
    blue, green-B, all with the same value) in that order; the first
    write that fails ends the sequence, its error is returned, and
    nothing already written is undone. *)
Theorem set_exposure_clamps_then_writes_in_order
    (answer : nat -> kcall -> Z) (dev : t4ka3_device)
    (coarse_itg gain digitalgain : Z) (log : list kcall) :
  0 <= coarse_itg < 2 ^ 16 ->
  0 <= gain < 2 ^ 16 ->
  0 <= digitalgain < 2 ^ 16 ->
  let c := clamp 1 (0xFFFF - 6) coarse_itg in
  let g := clamp 0x0080 0x07FF gain in
  let writes := exposure_writes (frame_length_lines c) c g digitalgain in
  1 <= c <= 0xFFFF - 6 /\
  0x0080 <= g <= 0x07FF /\
  __t4ka3_set_exposure answer dev coarse_itg gain digitalgain log =
  Done (match first_failure answer (length log) writes with
        | None => ((0, set_exposure_fields dev g c digitalgain),
                   log ++ writes)
        | Some i => ((answer (length log + i)%nat (nth i writes mutex_lock), dev),
                     log ++ take (S i) writes)
        end).
Proof.
  intros Hc Hg Hd c g writes.
  destruct (clamp_t_u16_spec coarse_itg 1 (0xFFFF - 6)) as [Ec Rc]; [lia | lia | lia |].
  destruct (clamp_t_u16_spec gain 0x0080 0x07FF) as [Eg Rg]; [lia | lia | lia |].
  fold c in Ec, Rc. fold g in Eg, Rg.
  split; [exact Rc |]. split; [exact Rg |].
  unfold __t4ka3_set_exposure.
  unfold T4KA3_COARSE_INTEGRATION_TIME_MIN, T4KA3_MAX_EXPOSURE_SUPPORTED,
    T4KA3_MIN_GLOBAL_GAIN_SUPPORTED, T4KA3_MAX_GLOBAL_GAIN_SUPPORTED,
    T4KA3_COARSE_INTEGRATION_TIME_MARGIN, T4KA3_LINES_PER_FRAME.
  rewrite Ec, Eg, (u16_small digitalgain) by lia.
  assert (Efl : (if 2492 - 6 <? c then u16 (c + 6) else u16 2492)
                = frame_length_lines c).
  { unfold frame_length_lines. destruct (2492 - 6 <? c); apply u16_small; lia. }
  rewrite Efl. subst writes. unfold exposure_writes.
  set (fl := frame_length_lines c).
  unfold kbind. rewrite call_run. cbn [exec_bind first_failure].
  destruct (answer (length log) (cci_write T4KA3_REG_FRAME_LENGTH_LINES fl) =? 0) eqn:A1;
    cbn [negb]; [| unfold kret; cbn [option_map nth take]; now rewrite Nat.add_0_r].
  repeat (rewrite call_run; cbn [exec_bind];
          rewrite ?length_app; cbn [length];
          rewrite ?Nat.add_1_r, <- ?Nat.add_succ_r;
          match goal with
          | |- context [negb (?a =? 0)] =>
              let A := fresh "A" in
              replace (length log + 1)%nat with (S (length log)) in * by lia;
              destruct (a =? 0) eqn:A; cbn [negb option_map];
              [| unfold kret; cbn [nth take];
                 rewrite <- ?app_assoc; cbn [app];
                 try (repeat f_equal; lia)]
          end).
  all: try reflexivity.
  match goal with
  | H : (?a =? 0) = true |- kret (?a, _) _ = _ =>
      apply Z.eqb_eq in H; rewrite H
  end.
  unfold kret. rewrite <- !app_assoc. reflexivity.
Qed.

Lemma set_exposure_clamps_then_writes_in_order_witness :
  __t4ka3_set_exposure all_succeed idle_sensor 2490 0x0100 0x0100 [] =
  Done ((0, set_exposure_fields idle_sensor 0x0100 2490 0x0100),
        [ cci_write T4KA3_REG_FRAME_LENGTH_LINES 2496;
          cci_write T4KA3_REG_COARSE_INTEGRATION_TIME 2490;
          cci_write T4KA3_REG_GLOBAL_GAIN 0x0100;
          cci_write T4KA3_REG_DIGGAIN_GREEN_R 0x0100;
          cci_write T4KA3_REG_DIGGAIN_RED 0x0100;
          cci_write T4KA3_REG_DIGGAIN_BLUE 0x0100;
          cci_write T4KA3_REG_DIGGAIN_GREEN_B 0x0100 ]).
Proof.
  apply (set_exposure_clamps_then_writes_in_order
           all_succeed idle_sensor 2490 0x0100 0x0100 []); lia.
Defined.


(** *** Stream on and off *)

(** A request for the state the sensor already holds touches neither
    the registers nor runtime PM, and returns whatever [ret] held. *)
Lemma stream_same_state_no_hardware
    (answer : nat -> kcall -> Z) (ret_uninit : Z) (sensor : t4ka3_device)
    (enable : Z) (log : list kcall) :
  streaming sensor = enable ->
  t4ka3_s_stream answer ret_uninit sensor enable log =
  Done ((ret_uninit, sensor), log ++ [mutex_lock; mutex_unlock]).
Proof.
  intros E. apply Z.eqb_eq in E. unfold t4ka3_s_stream, error_unlock, kbind.
  rewrite call_run. cbn [exec_bind]. rewrite E, call_run. cbn [exec_bind].
  unfold kret. now rewrite <- app_assoc.
Qed.

(** A stream-enable in which every call succeeds. *)
Lemma stream_enable_success
    (answer : nat -> kcall -> Z) (ret_uninit : Z) (sensor : t4ka3_device)
    (log : list kcall) :
  streaming sensor = 0 ->
  (forall n c, answer n c = 0) ->
  t4ka3_s_stream answer ret_uninit sensor 1 log =
  Done ((0, set_streaming sensor 1), log ++ stream_on_calls sensor).
Proof.
  intros E Hok. unfold t4ka3_s_stream, kbind.
  rewrite E. cbn [Z.eqb negb].
  repeat (rewrite call_run, ?Hok; cbn [exec_bind Z.eqb negb]).
  unfold kret. rewrite <- !app_assoc. reflexivity.
Qed.

(** Once power-up has succeeded, a failing step of stream-enable ends
    in [pm_runtime_put] and [mutex_unlock], leaves the device state
    alone, and returns the value of [pm_runtime_put]. *)
Lemma stream_enable_outcome
    (answer : nat -> kcall -> Z) (ret_uninit : Z) (sensor : t4ka3_device)
    (log : list kcall) :
  streaming sensor = 0 ->
  exists r s' log',
    t4ka3_s_stream answer ret_uninit sensor 1 log = Done ((r, s'), log') /\
    ((r = 0 /\ s' = set_streaming sensor 1 /\
      log' = log ++ stream_on_calls sensor) \/
     (r <> 0 /\ s' = sensor /\
      log' = log ++ [mutex_lock; pm_runtime_get_sync; mutex_unlock]) \/
     (s' = sensor /\
      exists mid,
        log' = (log ++ mutex_lock :: pm_runtime_get_sync :: mid)
               ++ [pm_runtime_put; mutex_unlock] /\
        r = answer (length (log ++ mutex_lock :: pm_runtime_get_sync :: mid))
                   pm_runtime_put)).
Proof.
  intros E. unfold t4ka3_s_stream, error_powerdown, error_unlock, kbind.
  rewrite E. cbn [Z.eqb negb].
  rewrite call_run; cbn [exec_bind]. rewrite call_run; cbn [exec_bind].
  destruct (Z.eqb_spec (answer (length (log ++ [mutex_lock])) pm_runtime_get_sync) 0)
    as [A0 | A0]; cbn [negb].
  2: { rewrite call_run; cbn [exec_bind]. unfold kret.
       do 3 eexists. split; [reflexivity |]. right. left.
       split; [assumption |]. split; [reflexivity |].
       now rewrite <- !app_assoc. }
  assert (Hfail : forall mid,
             exists r s' log',
               exec_bind (call answer pm_runtime_put
                            (log ++ mutex_lock :: pm_runtime_get_sync :: mid))
                 (fun '(a, log'0) =>
                    exec_bind (call answer mutex_unlock log'0)
                      (fun '(_, log'1) => kret (a, sensor) log'1)) =
               Done ((r, s'), log') /\
               ((r = 0 /\ s' = set_streaming sensor 1 /\
                 log' = log ++ stream_on_calls sensor) \/
                (r <> 0 /\ s' = sensor /\
                 log' = log ++ [mutex_lock; pm_runtime_get_sync; mutex_unlock]) \/
                (s' = sensor /\
                 exists mid0,
                   log' = (log ++ mutex_lock :: pm_runtime_get_sync :: mid0)
                          ++ [pm_runtime_put; mutex_unlock] /\
                   r = answer (length (log ++ mutex_lock :: pm_runtime_get_sync :: mid0))
                              pm_runtime_put))).
  { intros mid. rewrite call_run; cbn [exec_bind]. rewrite call_run; cbn [exec_bind].
    unfold kret. do 3 eexists. split; [reflexivity |]. right. right.
    split; [reflexivity |]. exists mid. split; [| reflexivity].
    now rewrite <- !app_assoc. }
  repeat (rewrite call_run; cbn [exec_bind];
          match goal with
          | |- context [negb (?a =? 0)] =>
              let A := fresh "A" in
              destruct (Z.eqb_spec a 0) as [A | A]; cbn [negb];
              [| rewrite <- ?app_assoc; cbn [app]; apply Hfail]
          end).
  rewrite call_run; cbn [exec_bind]. unfold kret.
  do 3 eexists. split; [reflexivity |]. left.
  split; [assumption |]. split; [reflexivity |].
  now rewrite <- !app_assoc.
Qed.

(** C3: stream-enable on an idle sensor whose init-config write fails
    with -EIO: the power resource is released and the streaming flag
    stays 0, but the value returned is that of [pm_runtime_put], 0,
    because the error exit assigns it to [ret]; and when power-up
    itself fails, the function returns the error without any
    [pm_runtime_put]. *)
Theorem stream_enable_failure_returns_put_result :
  t4ka3_s_stream init_config_fails 0 idle_sensor 1 [] =
    Done ((0, idle_sensor),
          [ mutex_lock; pm_runtime_get_sync;
            cci_multi_reg_write t4ka3_init_config;
            pm_runtime_put; mutex_unlock ]) /\
  t4ka3_s_stream power_up_fails 0 idle_sensor 1 [] =
    Done ((- EIO, idle_sensor),
          [ mutex_lock; pm_runtime_get_sync; mutex_unlock ]).
Proof. split; reflexivity. Qed.

(** C4: stream-enable requested while the sensor streams (and
    stream-disable while it is stopped) makes no register write and no
    runtime-PM call, but returns the never-assigned [ret], here -EIO
    rather than 0; likewise the second of two stream-enables in a row
    adds no hardware access and returns that value. *)
Theorem stream_same_state_returns_unset_ret :
  t4ka3_s_stream all_succeed (- EIO) streaming_sensor 1 [] =
    Done ((- EIO, streaming_sensor), [mutex_lock; mutex_unlock]) /\
  t4ka3_s_stream all_succeed (- EIO) idle_sensor 0 [] =
    Done ((- EIO, idle_sensor), [mutex_lock; mutex_unlock]) /\
  t4ka3_s_stream all_succeed (- EIO) idle_sensor 1 [] =
    Done ((0, streaming_sensor), stream_on_calls idle_sensor) /\
  t4ka3_s_stream all_succeed (- EIO) streaming_sensor 1
                 (stream_on_calls idle_sensor) =
    Done ((- EIO, streaming_sensor),
          stream_on_calls idle_sensor ++ [mutex_lock; mutex_unlock]) /\
  reg_accesses [mutex_lock; mutex_unlock] = [] /\
  power_ops [mutex_lock; mutex_unlock] = [].
Proof. repeat split; reflexivity. Qed.

(** *** Controls set while the sensor is not powered *)

Lemma reg_accesses_app (l1 l2 : list kcall) :
  reg_accesses (l1 ++ l2) = reg_accesses l1 ++ reg_accesses l2.
Proof. unfold reg_accesses. apply filter_app. Qed.

(** The claim of C10 fails for a vblank update: with the device not in
    use, a failing exposure-range update makes t4ka3_s_ctrl return that
    error (here -ERANGE), before the power check is even made. *)
Lemma s_ctrl_unpowered_vblank_range_error :
  (forall n, range_update_fails n pm_runtime_get_if_in_use = 0) /\
  t4ka3_s_ctrl range_update_fails idle_sensor
               {| id := V4L2_CID_VBLANK; val := 28 |} [] =
    Done ((- 34, idle_sensor),
          [__v4l2_ctrl_modify_range V4L2_CID_EXPOSURE 0 2486 1 2486]) /\
  - 34 <> 0.
Proof. split; [reflexivity |]. split; [reflexivity | lia]. Qed.

(** C10 (amended): while the device is not in use
    (pm_runtime_get_if_in_use returns 0), t4ka3_s_ctrl makes no register
    access.  A vblank update whose exposure-range update fails returns
    that error at once and changes nothing; every other call returns 0
    and only recomputes the cached Bayer order from the flip controls.
    The hardware sees the controls later: a successful stream-enable
    calls __v4l2_ctrl_handler_setup between the mode registers and the
    release of group hold. *)
Theorem s_ctrl_unpowered_touches_no_register
    (answer : nat -> kcall -> Z) (sensor : t4ka3_device) (ctrl : v4l2_ctrl)
    (log : list kcall) :
  (forall n, answer n pm_runtime_get_if_in_use = 0) ->
  let exp_max := height (format sensor) + val (vblank (ctrls sensor)) - 6 in
  let range_call :=
    __v4l2_ctrl_modify_range V4L2_CID_EXPOSURE 0 exp_max 1 exp_max in
  let range_err := answer (length log) range_call in
  let cached :=
    set_format sensor
      {| width := width (format sensor); height := height (format sensor);
         code := flip_table (ctrl_set (vflip (ctrls sensor)))
                            (ctrl_set (hflip (ctrls sensor))) |} in
  (exists r s' log',
      t4ka3_s_ctrl answer sensor ctrl log = Done ((r, s'), log') /\
      reg_accesses log' = reg_accesses log /\
      match id ctrl with
      | V4L2_CID_VBLANK =>
          if range_err =? 0
          then r = 0 /\ s' = cached /\
               log' = log ++ [range_call; pm_runtime_get_if_in_use]
          else r = range_err /\ s' = sensor /\ log' = log ++ [range_call]
      | _ => r = 0 /\ s' = cached /\ log' = log ++ [pm_runtime_get_if_in_use]
      end) /\
  (forall ret_uninit s l,
      streaming s = 0 ->
      t4ka3_s_stream all_succeed ret_uninit s 1 l =
      Done ((0, set_streaming s 1),
            l ++ [ mutex_lock; pm_runtime_get_sync;
                   cci_multi_reg_write t4ka3_init_config;
                   cci_multi_reg_write t4ka3_param_hold;
                   cci_multi_reg_write (res_regs (res s));
                   __v4l2_ctrl_handler_setup;
                   cci_multi_reg_write t4ka3_param_update;
                   cci_multi_reg_write t4ka3_streaming;
                   mutex_unlock ])).
Proof.
  intros Hoff exp_max range_call range_err cached. split.
  - pose proof (set_bayer_order_table sensor (format sensor)) as Hb.
    unfold t4ka3_s_ctrl, t4ka3_update_exposure_range, kbind, klift.
    unfold T4KA3_COARSE_INTEGRATION_TIME_MARGIN.
    fold exp_max. fold range_call.
    destruct (id ctrl) eqn:Eid;
      try (unfold kret at 1; cbn [exec_bind Z.eqb negb];
           rewrite call_run, Hoff; cbn [exec_bind Z.eqb];
           rewrite Hb; cbn [exec_bind]; unfold kret;
           do 3 eexists; split; [reflexivity |];
           split; [now rewrite reg_accesses_app, app_nil_r | auto]).
    rewrite call_run. cbn [exec_bind]. fold range_err.
    destruct (range_err =? 0) eqn:Er; cbn [negb].
    + rewrite call_run, Hoff; cbn [exec_bind Z.eqb].
      rewrite Hb; cbn [exec_bind]; unfold kret.
      do 3 eexists. split; [reflexivity |].
      split; [now rewrite !reg_accesses_app, !app_nil_r |].
      split; [reflexivity |]. split; [reflexivity |]. now rewrite <- app_assoc.
    + unfold kret. do 3 eexists. split; [reflexivity |].
      split; [now rewrite reg_accesses_app, app_nil_r | auto].
  - intros ret_uninit s l Hs.
    apply (stream_enable_success all_succeed ret_uninit s l Hs).
    reflexivity.
Qed.

Lemma s_ctrl_unpowered_touches_no_register_witness :
  exists r s' log',
    t4ka3_s_ctrl all_succeed idle_sensor {| id := V4L2_CID_HFLIP; val := 0 |}
                 [] = Done ((r, s'), log') /\
    reg_accesses log' = [] /\
    r = 0 /\ log' = [pm_runtime_get_if_in_use].
Proof.
  destruct (s_ctrl_unpowered_touches_no_register
              all_succeed idle_sensor {| id := V4L2_CID_HFLIP; val := 0 |} [])
    as [(r & s' & log' & Hrun & Hreg & Hr & _ & Hlog) _].
  - reflexivity.
  - exists r, s', log'. repeat split; assumption.
Defined.

(** ** Nearest resolution *)

Import Resolution ResolutionSpec.

Lemma shl13_in_range (x : Z) :
  0 <= x < 2 ^ 17 -> u32 (s32 (Z.shiftl x 13)) = x * 8192.
Proof.
  intros H. rewrite Z.shiftl_mul_pow2 by lia. change (2 ^ 13) with 8192.
  unfold s32, u32.
  rewrite (Z.mod_small (x * 8192 + 2 ^ 31)) by lia.
  replace (x * 8192 + 2 ^ 31 - 2 ^ 31) with (x * 8192) by lia.
  apply Z.mod_small. lia.
Qed.

Lemma ratio_at_least_one (x d : Z) :
  0 < d -> 0 <= x -> 8192 <= x * 8192 / d -> d <= x.
Proof.
  intros Hd Hx H.
  pose proof (Z.mul_div_le (x * 8192) d Hd). nia.
Qed.

(** distance accepts only entries that are adequate for the request. *)
Lemma distance_accepts_adequate (res : t4ka3_resolution) (w h d : Z) :
  res_in_range res -> 0 <= w -> 0 <= h ->
  distance res w h = Done d -> d <> -1 ->
  adequate w h res.
Proof.
  intros [Hw Hh] H0w H0h. unfold distance, EPERM.
  destruct (Z.eqb_spec w 0); [discriminate |].
  destruct (Z.eqb_spec h 0); [intros [= <-] Hd; now exfalso |].
  rewrite !shl13_in_range by assumption.
  destruct (res_height res * 8192 / h =? 0); [intros [= <-] Hd; now exfalso |].
  destruct (Z.ltb_spec (res_width res * 8192 / w) 8192); simpl;
    [intros [= <-] Hd; now exfalso |].
  destruct (Z.ltb_spec (res_height res * 8192 / h) 8192); simpl;
    [intros [= <-] Hd; now exfalso |].
  destruct (LARGEST_ALLOWED_RATIO_MISMATCH <? _); [intros [= <-] Hd; now exfalso |].
  intros _ _. split; apply ratio_at_least_one; lia.
Qed.

Lemma distance_returns (res : t4ka3_resolution) (w h : Z) :
  w <> 0 -> exists d, distance res w h = Done d.
Proof.
  intros Hw. unfold distance.
  destruct (Z.eqb_spec w 0); [contradiction |].
  repeat match goal with
         | |- context [if ?c then _ else _] => destruct c
         end; eexists; reflexivity.
Qed.

(** The loop returns the index it started with or the index of an
    adequate entry. *)
Lemma nearest_loop_result (rest : list t4ka3_resolution) :
  forall i idx min_dist w h r,
    Forall res_in_range rest ->
    nearest_loop rest i idx min_dist w h = Done r ->
    r = idx \/
    exists j entry, rest !! j = Some entry /\ r = i + Z.of_nat j /\
                    adequate (u32 w) (u32 h) entry.
Proof.
  induction rest as [| e rest IH]; intros i idx min_dist w h r Hr; simpl.
  - intros [= <-]. now left.
  - inversion Hr as [| ? ? He Hrest]; subst.
    destruct (distance e (u32 w) (u32 h)) as [d | f] eqn:D; simpl; [| discriminate].
    assert (Hlater : forall idx' md',
               nearest_loop rest (i + 1) idx' md' w h = Done r ->
               r = idx' \/
               exists j entry, (e :: rest) !! j = Some entry /\
                               r = i + Z.of_nat j /\
                               adequate (u32 w) (u32 h) entry).
    { intros idx' md' L. destruct (IH _ _ _ _ _ _ Hrest L) as [-> | (j & en & Hj & -> & Ha)].
      - now left.
      - right. exists (S j), en. split; [exact Hj |]. split; [lia | exact Ha]. }
    destruct (Z.eqb_spec d (-1)) as [E | E]; [apply Hlater |].
    destruct (d <? min_dist); [| apply Hlater].
    intros L. destruct (Hlater _ _ L) as [-> | Hex]; [| now right].
    right. exists 0%nat, e. split; [reflexivity |]. split; [lia |].
    apply (distance_accepts_adequate e (u32 w) (u32 h) d); try assumption;
      unfold u32; apply Z.mod_pos_bound; lia.
Qed.

Lemma nearest_loop_returns (rest : list t4ka3_resolution) :
  forall i idx min_dist w h,
    u32 w <> 0 -> exists r, nearest_loop rest i idx min_dist w h = Done r.
Proof.
  induction rest as [| e rest IH]; intros i idx min_dist w h Hw; simpl.
  - eexists; reflexivity.
  - destruct (distance_returns e (u32 w) (u32 h) Hw) as [d ->]. simpl.
    destruct (d =? -1); [apply IH; assumption |].
    destruct (d <? min_dist); apply IH; assumption.
Qed.

Lemma preview_in_range : Forall res_in_range t4ka3_res_preview.
Proof. repeat constructor; simpl; lia. Qed.

Lemma largest_dominates (r : t4ka3_resolution) :
  In r t4ka3_res_preview ->
  res_width r <= res_width largest_res /\
  res_height r <= res_height largest_res.
Proof.
  simpl. intros [<- | [<- | [<- | [<- | []]]]]; simpl; lia.
Qed.

(** C8: for every requested size, the size __t4ka3_try_mbus_fmt
    settles on is that of a catalog entry and is not smaller than the
    request in either dimension, unless no catalog entry is at least as
    large as the request in both dimensions, in which case it is the
    largest catalog entry (3280x2464).  A result is returned for every
    request of non-zero width. *)
Theorem nearest_mode_never_smaller (fmt : v4l2_mbus_framefmt) :
  0 <= width fmt < 2 ^ 32 ->
  0 <= height fmt < 2 ^ 32 ->
  (width fmt <> 0 ->
   exists fmt', __t4ka3_try_mbus_fmt t4ka3_res_preview fmt = Done (0, fmt')) /\
  (forall ret fmt',
      __t4ka3_try_mbus_fmt t4ka3_res_preview fmt = Done (ret, fmt') ->
      (exists r, In r t4ka3_res_preview /\
                 width fmt' = res_width r /\ height fmt' = res_height r) /\
      ((exists r, In r t4ka3_res_preview /\
                  adequate (width fmt) (height fmt) r) ->
       width fmt <= width fmt' /\ height fmt <= height fmt') /\
      (~ (exists r, In r t4ka3_res_preview /\
                    adequate (width fmt) (height fmt) r) ->
       width fmt' = res_width largest_res /\
       height fmt' = res_height largest_res /\
       forall r, In r t4ka3_res_preview ->
                 res_width r <= width fmt' /\ res_height r <= height fmt')).
Proof.
  intros Hw Hh.
  assert (Hlast : In largest_res t4ka3_res_preview) by (simpl; tauto).
  unfold __t4ka3_try_mbus_fmt, T4KA3_RES_WIDTH_MAX, T4KA3_RES_HEIGHT_MAX.
  destruct (Z.ltb_spec 3280 (width fmt)) as [Bw | Bw]; simpl.
  { split; [intros _; eexists; reflexivity |].
    intros ret fmt' [= <- <-]. simpl. split; [exists largest_res; auto |].
    split.
    - intros (r & Hin & Ha1 & _). apply largest_dominates in Hin. simpl in Hin. lia.
    - intros _. repeat split; try reflexivity; apply largest_dominates; assumption. }
  destruct (Z.ltb_spec 2464 (height fmt)) as [Bh | Bh]; simpl.
  { split; [intros _; eexists; reflexivity |].
    intros ret fmt' [= <- <-]. simpl. split; [exists largest_res; auto |].
    split.
    - intros (r & Hin & _ & Ha2). apply largest_dominates in Hin. simpl in Hin. lia.
    - intros _. repeat split; try reflexivity; apply largest_dominates; assumption. }
  assert (Es : s32 (width fmt) = width fmt /\ s32 (height fmt) = height fmt).
  { unfold s32. split; rewrite Z.mod_small; lia. }
  destruct Es as [-> ->].
  assert (Eu : u32 (width fmt) = width fmt /\ u32 (height fmt) = height fmt).
  { unfold u32. split; apply Z.mod_small; lia. }
  destruct Eu as [Euw Euh].
  assert (Hsel : forall idx,
             nearest_resolution_index t4ka3_res_preview (width fmt) (height fmt)
             = Done idx ->
             exists r,
               t4ka3_res_preview
                 !! Z.to_nat (if idx =? -1 then 4 - 1 else idx) = Some r /\
               ((if idx =? -1 then 4 - 1 else idx) <? 0) = false /\
               In r t4ka3_res_preview /\
               adequate (width fmt) (height fmt) r).
  { intros idx Hidx. unfold nearest_resolution_index in Hidx.
    destruct (nearest_loop_result _ _ _ _ _ _ _ preview_in_range Hidx)
      as [-> | (j & e & Hj & -> & Ha)].
    - exists largest_res. simpl. repeat split; simpl; auto; lia.
    - rewrite Euw, Euh in Ha. exists e.
      assert (Hlt : (j < 4)%nat) by (apply lookup_lt_Some in Hj; exact Hj).
      replace (0 + Z.of_nat j =? -1) with false by (symmetry; apply Z.eqb_neq; lia).
      replace (0 + Z.of_nat j <? 0) with false by (symmetry; apply Z.ltb_ge; lia).
      replace (Z.to_nat (0 + Z.of_nat j)) with j by lia.
      split; [exact Hj |]. split; [reflexivity |].
      split; [| exact Ha]. apply list_elem_of_In. now apply list_elem_of_lookup_2 in Hj. }
  split.
  - intros Hnz. unfold nearest_resolution_index.
    destruct (nearest_loop_returns t4ka3_res_preview 0 (-1) INT_MAX
                (width fmt) (height fmt)) as [idx Hidx]; [rewrite Euw; exact Hnz |].
    destruct (Hsel idx Hidx) as (r & Hr & Hneg & _).
    rewrite Hidx. simpl exec_bind. simpl length. change (Z.of_nat 4) with 4.
    rewrite Hneg, Hr. eexists; reflexivity.
  - intros ret fmt'.
    destruct (nearest_resolution_index t4ka3_res_preview (width fmt) (height fmt))
      as [idx | f] eqn:Hidx; simpl exec_bind; [| discriminate].
    destruct (Hsel idx eq_refl) as (r & Hr & Hneg & Hin & Ha1 & Ha2).
    simpl length. change (Z.of_nat 4) with 4.
    rewrite Hneg, Hr. intros [= <- <-]. simpl.
    split; [exists r; auto |]. split.
    + intros _. split; assumption.
    + intros Hno. exfalso. apply Hno. exists r. split; [assumption | split; assumption].
Qed.

Lemma nearest_mode_never_smaller_witness :
  __t4ka3_try_mbus_fmt t4ka3_res_preview
    {| width := 1280; height := 720; code := MEDIA_BUS_FMT_SGRBG10_1X10 |} =
  Done (0, {| width := 1936; height := 1096;
              code := MEDIA_BUS_FMT_SGRBG10_1X10 |}) /\
  1280 <= 1936 /\ 720 <= 1096.
Proof.
  destruct (nearest_mode_never_smaller
              {| width := 1280; height := 720;
                 code := MEDIA_BUS_FMT_SGRBG10_1X10 |})
    as [_ Hres]; [simpl; lia | simpl; lia |].
  destruct (Hres 0 {| width := 1936; height := 1096;
                      code := MEDIA_BUS_FMT_SGRBG10_1X10 |} eq_refl)
    as (_ & Hge & _).
  split; [reflexivity |].
  apply Hge. exists largest_res. split; [simpl; tauto |].
  split; simpl; lia.
Defined.

(** * Further properties of the register writer *)

Import RegArray Spec CoalescerSpec.

(** ** Burst sizes *)

Lemma flush_sized i2c bus ctrl e c b :
  0 <= index ctrl <= 29 ->
  length (data (buffer ctrl)) = 30%nat ->
  __t4ka3_flush_reg_array i2c bus ctrl = (e, c, b) ->
  exists new, xfers b = xfers bus ++ new /\ Forall burst_sized new.
Proof.
  intros Hi Hl. unfold __t4ka3_flush_reg_array, t4ka3_i2c_write.
  destruct (Z.eqb_spec (index ctrl) 0) as [E | E]; intros [= <- <- <-].
  - exists []. rewrite app_nil_r. split; [reflexivity | constructor].
  - eexists. split; [reflexivity |]. constructor; [| constructor].
    unfold burst_sized, buffer_mem, u16_mem. simpl.
    rewrite u16_small by lia.
    destruct (Z.to_nat (2 + index ctrl)) as [| [| n]] eqn:En; [lia | lia |].
    simpl. rewrite length_take. lia.
Qed.

Lemma buf_reg_array_sized i2c bus ctrl next e c b :
  bounded ctrl ->
  __t4ka3_buf_reg_array i2c bus ctrl next = Done (e, c, b) ->
  exists new, xfers b = xfers bus ++ new /\ Forall burst_sized new.
Proof.
  intros [Hi Hl]. unfold __t4ka3_buf_reg_array.
  destruct (buf_store_ok ctrl next) as (o & -> & Ho); [lia | assumption |].
  simpl. destruct o as [c' |].
  - destruct (Ho c' eq_refl) as (_ & Hc & Hlc).
    pose proof (reg_size_range next).
    destruct (T4KA3_MAX_WRITE_BUF_SIZE <=? index c' + 2).
    + intros [= F]. apply flush_sized in F; [assumption | lia | assumption].
    + intros [= <- <- <-]. exists []. rewrite app_nil_r. split; [reflexivity | constructor].
  - intros [= <- <- <-]. exists []. rewrite app_nil_r. split; [reflexivity | constructor].
Qed.

Lemma reg_step_sized i2c bus ctrl next s :
  bounded ctrl ->
  reg_step i2c bus ctrl next = Done s ->
  exists new, xfers (result_bus s) = xfers bus ++ new /\ Forall burst_sized new.
Proof.
  intros Hb. pose proof Hb as [Hi Hl]. unfold reg_step.
  destruct (Z.land (type next) T4KA3_TOK_MASK =? T4KA3_TOK_DELAY).
  - destruct (__t4ka3_flush_reg_array i2c bus ctrl) as [[e c] b] eqn:F.
    apply flush_sized in F; [| lia | assumption].
    destruct (e =? 0); intros [= <-]; simpl; assumption.
  - destruct (gap_flush i2c bus ctrl next) as [[e c] b] eqn:G.
    pose proof (gap_flush_bounded _ _ _ _ _ _ _ Hb G) as Hbc.
    assert (Hg : exists new, xfers b = xfers bus ++ new /\ Forall burst_sized new).
    { revert G. unfold gap_flush.
      destruct (__t4ka3_write_reg_is_consecutive ctrl next).
      - intros [= <- <- <-]. exists []. rewrite app_nil_r.
        split; [reflexivity | constructor].
      - intros F. apply flush_sized in F; [assumption | lia | assumption]. }
    destruct (e =? 0); [| intros [= <-]; simpl; assumption].
    destruct (__t4ka3_buf_reg_array i2c b c next) as [[[e2 c2] b2] | f] eqn:B;
      simpl; [| discriminate].
    apply buf_reg_array_sized in B; [| assumption].
    destruct Hg as (n1 & Hn1 & Hs1). destruct B as (n2 & Hn2 & Hs2).
    assert (exists new, xfers b2 = xfers bus ++ new /\ Forall burst_sized new).
    { exists (n1 ++ n2). rewrite Hn2, Hn1, app_assoc. split; [reflexivity |].
      apply Forall_app; split; assumption. }
    destruct (e2 =? 0); intros [= <-]; simpl; assumption.
Qed.

Lemma write_reg_loop_sized i2c (l : list t4ka3_reg) :
  forall bus ctrl e c b,
    bounded ctrl ->
    write_reg_loop i2c bus ctrl l = Done (e, c, b) ->
    exists new, xfers b = xfers bus ++ new /\ Forall burst_sized new.
Proof.
  induction l as [| r rest IH]; intros bus ctrl e c b Hb; simpl; [discriminate |].
  destruct (type r =? T4KA3_TOK_TERM).
  - intros [= F]. destruct Hb. apply flush_sized in F; [assumption | lia | assumption].
  - destruct (reg_step i2c bus ctrl r) as [s | f] eqn:S; simpl; [| discriminate].
    destruct (reg_step_bounded i2c bus ctrl r Hb) as (s' & Hs' & Hbs).
    rewrite S in Hs'. injection Hs' as <-.
    apply reg_step_sized in S; [| assumption].
    destruct S as (n1 & Hn1 & Hs1).
    destruct s as [c1 b1 | e1 c1 b1]; simpl in *.
    + intros L. destruct (IH _ _ _ _ _ Hbs L) as (n2 & Hn2 & Hs2).
      exists (n1 ++ n2). rewrite Hn2, Hn1, app_assoc. split; [reflexivity |].
      apply Forall_app; split; assumption.
    + intros [= <- <- <-]. exists n1. split; assumption.
Qed.

(** X1: whatever the program and however the adapter answers, every
    transfer t4ka3_write_reg_array hands to the adapter is between 3
    and 31 bytes long: two address bytes and 1 to 29 value bytes. *)
Theorem every_burst_fits_the_buffer
    (i2c_transfer : nat -> Z) (stack : t4ka3_write_buffer) (bus : i2c_bus)
    (reglist : list t4ka3_reg) (err : Z) (bus' : i2c_bus) :
  length (data stack) = 30%nat ->
  t4ka3_write_reg_array i2c_transfer stack bus reglist = Done (err, bus') ->
  exists new, xfers bus' = xfers bus ++ new /\ Forall burst_sized new.
Proof.
  intros Hl. unfold t4ka3_write_reg_array.
  destruct (write_reg_loop i2c_transfer bus {| index := 0; buffer := stack |} reglist)
    as [[[e c] b] | f] eqn:L; simpl; [| discriminate].
  intros [= <- <-].
  apply (write_reg_loop_sized i2c_transfer reglist bus
           {| index := 0; buffer := stack |} e c b); [| exact L].
  split; simpl; [lia | assumption].
Qed.

Lemma every_burst_fits_the_buffer_witness :
  exists new,
    [ [0x02; 0x00; 1; 0; 1; 1; 1; 2; 1; 3; 1; 4; 1; 5; 1; 6;
       1; 7; 1; 8; 1; 9; 1; 10; 1; 11; 1; 12; 1; 13];
      [0x02; 0x1c; 1; 14; 1; 15; 1; 16; 1; 17; 1; 18; 1; 19] ] = [] ++ new /\
    Forall burst_sized new.
Proof.
  apply (every_burst_fits_the_buffer adapter_ok zero_stack idle_bus long_run 0
           {| xfers :=
                [ [0x02; 0x00; 1; 0; 1; 1; 1; 2; 1; 3; 1; 4; 1; 5; 1; 6;
                   1; 7; 1; 8; 1; 9; 1; 10; 1; 11; 1; 12; 1; 13];
                  [0x02; 0x1c; 1; 14; 1; 15; 1; 16; 1; 17; 1; 18; 1; 19] ];
              sleeps := [] |}); reflexivity.
Defined.

(** ** The stale contents of the stack buffer never matter *)

Lemma same_view_flush i2c bus c1 c2 :
  same_view c1 c2 -> 0 <= index c1 <= 29 ->
  exists e c1' c2' b,
    __t4ka3_flush_reg_array i2c bus c1 = (e, c1', b) /\
    __t4ka3_flush_reg_array i2c bus c2 = (e, c2', b) /\
    same_view c1' c2' /\ index c1' = 0.
Proof.
  intros (Hi & Hl1 & Hl2 & Ha & Ht) Hr.
  unfold __t4ka3_flush_reg_array, t4ka3_i2c_write. rewrite <- Hi.
  destruct (Z.eqb_spec (index c1) 0) as [E | E].
  - exists 0, c1, c2, bus. repeat split; auto.
  - assert (Hmsg : forall a,
               take (Z.to_nat (u16 (2 + index c1)))
                    (buffer_mem {| addr := a; data := data (buffer c2) |}) =
               take (Z.to_nat (u16 (2 + index c1)))
                    (buffer_mem {| addr := a; data := data (buffer c1) |})).
    { intros a. unfold buffer_mem, u16_mem. cbn [addr data].
      rewrite u16_small by lia.
      replace (Z.to_nat (2 + index c1)) with (S (S (Z.to_nat (index c1)))) by lia.
      cbn [app take]. now rewrite Ht. }
    rewrite <- (Ha E), Hmsg.
    do 4 eexists. split; [reflexivity |]. split; [reflexivity |]. split.
    + unfold same_view. cbn [index buffer data addr].
      repeat split; auto; congruence.
    + reflexivity.
Qed.

Lemma same_view_buf_store c1 c2 next :
  same_view c1 c2 -> 0 <= index c1 <= 28 ->
  (buf_store c1 next = Done None /\ buf_store c2 next = Done None) \/
  exists c1' c2',
    buf_store c1 next = Done (Some c1') /\
    buf_store c2 next = Done (Some c2') /\
    same_view c1' c2' /\ index c1' = index c1 + reg_size next.
Proof.
  intros (Hi & Hl1 & Hl2 & Ha & Ht) Hr.
  assert (Haddr : (if index c1 =? 0 then sreg next else addr (buffer c1)) =
                  (if index c2 =? 0 then sreg next else addr (buffer c2))).
  { rewrite <- Hi. destruct (Z.eqb_spec (index c1) 0); auto. }
  unfold buf_store, reg_size. rewrite <- Hi.
  destruct (Z.eqb_spec (type next) T4KA3_8BIT) as [E8 | E8].
  - rewrite !store8_ok by lia. cbn [exec_bind]. right. do 2 eexists.
    split; [reflexivity |]. split; [reflexivity |]. split; [| reflexivity].
    unfold same_view. cbn [index buffer data addr]. rewrite !length_insert.
    repeat split; auto.
    + intros _. rewrite Hi at 2. exact Haddr.
    + replace (Z.to_nat (index c1 + 1)) with (S (Z.to_nat (index c1))) by lia.
      rewrite !take_store1 by lia. now rewrite Ht.
  - destruct (Z.eqb_spec (type next) T4KA3_16BIT) as [E16 | E16].
    + rewrite !store16_ok by lia. cbn [exec_bind]. right. do 2 eexists.
      split; [reflexivity |]. split; [reflexivity |]. split; [| reflexivity].
      unfold same_view. cbn [index buffer data addr]. rewrite !length_insert.
      repeat split; auto.
      * intros _. rewrite Hi at 2. exact Haddr.
      * replace (Z.to_nat (index c1 + 2)) with (S (S (Z.to_nat (index c1)))) by lia.
        replace (Z.to_nat (index c1 + 1)) with (S (Z.to_nat (index c1))) by lia.
        rewrite !take_store2 by lia. now rewrite Ht.
    + left. split; reflexivity.
Qed.

Lemma same_view_consecutive c1 c2 next :
  same_view c1 c2 ->
  __t4ka3_write_reg_is_consecutive c1 next =
  __t4ka3_write_reg_is_consecutive c2 next.
Proof.
  intros (Hi & _ & _ & Ha & _). unfold __t4ka3_write_reg_is_consecutive.
  rewrite <- Hi. destruct (Z.eqb_spec (index c1) 0); [reflexivity |].
  now rewrite Ha.
Qed.

Lemma same_view_reg_step i2c bus c1 c2 next :
  same_view c1 c2 -> 0 <= index c1 <= 27 ->
  exists s1 s2,
    reg_step i2c bus c1 next = Done s1 /\
    reg_step i2c bus c2 next = Done s2 /\
    same_result s1 s2 /\ 0 <= index (result_ctrl s1) <= 27.
Proof.
  intros Hv Hr. unfold reg_step.
  destruct (Z.land (type next) T4KA3_TOK_MASK =? T4KA3_TOK_DELAY).
  - destruct (same_view_flush i2c bus c1 c2 Hv) as (e & c1' & c2' & b & -> & -> & Hv' & Hi');
      [lia |].
    destruct (e =? 0); do 2 eexists; (split; [reflexivity |]);
      (split; [reflexivity |]); simpl; (split; [auto | lia]).
  - unfold gap_flush. rewrite <- (same_view_consecutive c1 c2 next Hv).
    assert (Hgap : exists e c1' c2' b,
               (if __t4ka3_write_reg_is_consecutive c1 next then (0, c1, bus)
                else __t4ka3_flush_reg_array i2c bus c1) = (e, c1', b) /\
               (if __t4ka3_write_reg_is_consecutive c1 next then (0, c2, bus)
                else __t4ka3_flush_reg_array i2c bus c2) = (e, c2', b) /\
               same_view c1' c2' /\ 0 <= index c1' <= 27).
    { destruct (__t4ka3_write_reg_is_consecutive c1 next).
      - exists 0, c1, c2, bus. split; [reflexivity |]. split; [reflexivity |].
        split; [exact Hv | lia].
      - destruct (same_view_flush i2c bus c1 c2 Hv) as (e & c1' & c2' & b & F1 & F2 & Hv' & Hi');
          [lia |]. exists e, c1', c2', b.
        split; [exact F1 |]. split; [exact F2 |]. split; [exact Hv' | lia]. }
    destruct Hgap as (e & c1' & c2' & b & -> & -> & Hv' & Hr').
    destruct (e =? 0).
    2: { do 2 eexists. split; [reflexivity |]. split; [reflexivity |].
         simpl. split; [auto | lia]. }
    unfold __t4ka3_buf_reg_array.
    destruct (same_view_buf_store c1' c2' next Hv') as [[-> ->] | (d1 & d2 & -> & -> & Hvd & Hid)];
      [lia | | ]; cbn [exec_bind].
    + do 2 eexists. split; [reflexivity |]. split; [reflexivity |].
      simpl. split; [auto | lia].
    + pose proof (reg_size_range next) as Hsz.
      destruct Hvd as (Hdi & Hrest). rewrite <- Hdi.
      unfold T4KA3_MAX_WRITE_BUF_SIZE.
      destruct (Z.leb_spec 30 (index d1 + 2)).
      * destruct (same_view_flush i2c b d1 d2) as (e2 & g1 & g2 & b2 & -> & -> & Hvg & Hig);
          [split; assumption | lia |].
        cbn [exec_bind]. destruct (e2 =? 0); do 2 eexists;
          (split; [reflexivity |]); (split; [reflexivity |]); simpl; (split; [auto | lia]).
      * cbn [exec_bind Z.eqb]. do 2 eexists. split; [reflexivity |].
        split; [reflexivity |]. simpl. split; [| lia].
        split; [reflexivity | split; assumption].
Qed.

Lemma same_view_loop i2c (l : list t4ka3_reg) :
  forall bus c1 c2,
    same_view c1 c2 -> 0 <= index c1 <= 27 ->
    loop_outcome (write_reg_loop i2c bus c1 l) =
    loop_outcome (write_reg_loop i2c bus c2 l).
Proof.
  induction l as [| r rest IH]; intros bus c1 c2 Hv Hr; simpl; [reflexivity |].
  destruct (type r =? T4KA3_TOK_TERM).
  - destruct (same_view_flush i2c bus c1 c2 Hv) as (e & c1' & c2' & b & -> & -> & _);
      [lia |]. reflexivity.
  - destruct (same_view_reg_step i2c bus c1 c2 r Hv Hr)
      as (s1 & s2 & -> & -> & Hs & Hi).
    cbn [exec_bind].
    destruct s1 as [d1 b1 | e1 d1 b1], s2 as [d2 b2 | e2 d2 b2];
      simpl in Hs; try contradiction.
    + destruct Hs as [<- Hv']. apply IH; assumption.
    + destruct Hs as [<- <-]. reflexivity.
Qed.

(** X2: the local write buffer is used without being cleared, yet
    nothing of its stale contents reaches the adapter or the result:
    any two 30-byte buffers give the same error code and the same bus
    traffic, for every program and every adapter. *)
Theorem stack_garbage_never_leaks
    (i2c_transfer : nat -> Z) (stack1 stack2 : t4ka3_write_buffer)
    (bus : i2c_bus) (reglist : list t4ka3_reg) :
  length (data stack1) = 30%nat ->
  length (data stack2) = 30%nat ->
  t4ka3_write_reg_array i2c_transfer stack1 bus reglist =
  t4ka3_write_reg_array i2c_transfer stack2 bus reglist.
Proof.
  intros H1 H2.
  apply (same_view_loop i2c_transfer reglist bus
           {| index := 0; buffer := stack1 |} {| index := 0; buffer := stack2 |}).
  - unfold same_view. simpl. repeat split; auto. congruence.
  - simpl. lia.
Qed.

Lemma stack_garbage_never_leaks_witness :
  t4ka3_write_reg_array (fail_at 1) zero_stack idle_bus long_run =
  t4ka3_write_reg_array (fail_at 1)
    {| addr := 0xBEEF; data := repeat 0xA5 30 |} idle_bus long_run.
Proof.
  apply (stack_garbage_never_leaks (fail_at 1) zero_stack
           {| addr := 0xBEEF; data := repeat 0xA5 30 |} idle_bus long_run);
    reflexivity.
Defined.

(** ** Delays and unsupported entries *)

Lemma write_reg_loop_app i2c (l1 : list t4ka3_reg) :
  forall bus ctrl rest,
    Forall (fun r => type r <> T4KA3_TOK_TERM) l1 ->
    write_reg_loop i2c bus ctrl (l1 ++ rest) =
    exec_bind (run_entries i2c bus ctrl l1) (fun s =>
      match s with
      | Continue ctrl' bus' => write_reg_loop i2c bus' ctrl' rest
      | Return err ctrl' bus' => Done (err, ctrl', bus')
      end).
Proof.
  induction l1 as [| r l1 IH]; intros bus ctrl rest Hnt; [reflexivity |].
  inversion Hnt as [| ? ? Hr Hl1]; subst. simpl.
  apply Z.eqb_neq in Hr. rewrite Hr.
  destruct (reg_step i2c bus ctrl r) as [[c b | e c b] | f]; simpl;
    [apply IH; assumption | reflexivity | reflexivity].
Qed.

Lemma reg_step_return_nonzero i2c bus ctrl next e c b :
  reg_step i2c bus ctrl next = Done (Return e c b) -> e <> 0.
Proof.
  unfold reg_step.
  destruct (Z.land (type next) T4KA3_TOK_MASK =? T4KA3_TOK_DELAY).
  - destruct (__t4ka3_flush_reg_array i2c bus ctrl) as [[e0 c0] b0].
    destruct (Z.eqb_spec e0 0); intros [= <- <- <-]; assumption.
  - destruct (gap_flush i2c bus ctrl next) as [[e0 c0] b0].
    destruct (Z.eqb_spec e0 0); [| intros [= <- <- <-]; assumption].
    destruct (__t4ka3_buf_reg_array i2c b0 c0 next) as [[[e2 c2] b2] | f];
      simpl; [| discriminate].
    destruct (Z.eqb_spec e2 0); intros [= <- <- <-]; assumption.
Qed.

Lemma run_entries_bounded i2c (l : list t4ka3_reg) :
  forall bus ctrl,
    bounded ctrl ->
    exists s, run_entries i2c bus ctrl l = Done s /\
              bounded (result_ctrl s) /\
              match s with Return e _ _ => e <> 0 | Continue _ _ => True end.
Proof.
  induction l as [| r l IH]; intros bus ctrl Hb; simpl.
  - eexists. split; [reflexivity |]. split; [exact Hb | exact I].
  - destruct (reg_step_bounded i2c bus ctrl r Hb) as (s & Hs & Hbs).
    rewrite Hs. simpl. destruct s as [c b | e c b].
    + apply IH. exact Hbs.
    + eexists. split; [reflexivity |]. split; [exact Hbs |].
      eapply reg_step_return_nonzero; exact Hs.
Qed.



Lemma delay_not_term (d : t4ka3_reg) :
  is_delay d -> (type d =? T4KA3_TOK_TERM) = false.
Proof.
  unfold is_delay. intros H. apply Z.eqb_neq. intros E. rewrite E in H.
  discriminate H.
Qed.

(** X4: a delay entry cuts the program in two.  Running P1, a delay of
    d ms, then P2 is running P1 as a program of its own and, if that
    returned 0, sleeping d ms and running P2; an error of P1 is returned
    as it is, without the sleep and without P2. *)
Theorem delay_splits_program
    (i2c_transfer : nat -> Z) (stack : t4ka3_write_buffer) (bus : i2c_bus)
    (l1 l2 : list t4ka3_reg) (d term : t4ka3_reg) :
  length (data stack) = 30%nat ->
  Forall (fun r => type r <> T4KA3_TOK_TERM) l1 ->
  is_delay d ->
  type term = T4KA3_TOK_TERM ->
  t4ka3_write_reg_array i2c_transfer stack bus (l1 ++ d :: l2) =
  exec_bind (t4ka3_write_reg_array i2c_transfer stack bus (l1 ++ [term]))
    (fun '(err, bus1) =>
       if err =? 0
       then t4ka3_write_reg_array i2c_transfer stack
              (msleep bus1 (val d)) l2
       else Done (err, bus1)).
Proof.
  intros Hl Hnt Hd Ht. unfold t4ka3_write_reg_array.
  rewrite !write_reg_loop_app by assumption.
  assert (Hb : bounded {| index := 0; buffer := stack |})
    by (split; simpl; [lia | assumption]).
  destruct (run_entries_bounded i2c_transfer l1 bus _ Hb) as (s & -> & Hbs & Hret).
  cbn [exec_bind]. destruct s as [c b | e c b].
  - simpl write_reg_loop. rewrite (delay_not_term d Hd).
    apply Z.eqb_eq in Ht. rewrite Ht.
    unfold reg_step. unfold is_delay in Hd. apply Z.eqb_eq in Hd. rewrite Hd.
    destruct (__t4ka3_flush_reg_array i2c_transfer b c) as [[e0 c0] b0] eqn:F.
    cbn [exec_bind]. apply flush_index in F as [Fi Fl].
    destruct (e0 =? 0); cbn [exec_bind]; [| reflexivity].
    destruct Hbs as [_ Hbl]. simpl in Hbl.
    apply (same_view_loop i2c_transfer l2 (msleep b0 (val d)) c0
             {| index := 0; buffer := stack |}).
    + unfold same_view. simpl. rewrite Fi. simpl.
      repeat split; auto; congruence.
    + lia.
  - cbn [exec_bind]. apply Z.eqb_neq in Hret. rewrite Hret. reflexivity.
Qed.

Lemma delay_splits_program_witness :
  t4ka3_write_reg_array adapter_ok zero_stack idle_bus
    ([ {| type := T4KA3_8BIT; sreg := 0x0100; val := 0x00 |} ] ++
     DELAY_10 ::
     [ {| type := T4KA3_8BIT; sreg := 0x0101; val := 0x03 |}; TERM ]) =
  Done (0, {| xfers := [[0x01; 0x00; 0x00]; [0x01; 0x01; 0x03]];
              sleeps := [10] |}).
Proof.
  etransitivity.
  - apply (delay_splits_program adapter_ok zero_stack idle_bus
             [ {| type := T4KA3_8BIT; sreg := 0x0100; val := 0x00 |} ]
             [ {| type := T4KA3_8BIT; sreg := 0x0101; val := 0x03 |}; TERM ]
             DELAY_10 TERM).
    + reflexivity.
    + repeat constructor. discriminate.
    + reflexivity.
    + reflexivity.
  - reflexivity.
Defined.




Example unsupported_entry_drops_pending_run :
  t4ka3_write_reg_array adapter_ok zero_stack idle_bus
    [ {| type := T4KA3_8BIT; sreg := 0x0340; val := 0x09 |};
      {| type := T4KA3_RMW; sreg := 0x0341; val := 0xBC |}; TERM ] =
  Done (- EINVAL, idle_bus).
Proof. reflexivity. Qed.

(** ** Coalescing keeps the register writes *)

Lemma be16_value (a : Z) :
  0 <= a < 2 ^ 16 ->
  Z.land (Z.shiftr a 8) 0xff * 256 + Z.land a 0xff = a.
Proof.
  intros H. change 0xff with (Z.ones 8).
  rewrite !Z.land_ones, Z.shiftr_div_pow2 by lia.
  change (2 ^ 8) with 256.
  rewrite (Z.mod_small (a / 256)).
  - pose proof (Z.div_mod a 256 ltac:(lia)). lia.
  - split; [apply Z.div_pos; lia | apply Z.div_lt_upper_bound; lia].
Qed.

Lemma spread_app (a : Z) (x y : list Z) :
  spread a (x ++ y) = spread a x ++ spread (a + Z.of_nat (length x)) y.
Proof.
  revert a. induction x as [| b x IH]; intros a; cbn [app spread length].
  - now replace (a + Z.of_nat 0) with a by lia.
  - rewrite IH. f_equal. f_equal. f_equal. lia.
Qed.

Lemma spread_payload (a : Z) (l : list t4ka3_reg) :
  consecutive_from a l -> Forall is_write l ->
  spread a (payload l) = program_writes l.
Proof.
  revert a. induction l as [| r l IH]; intros a Hc Hw; [reflexivity |].
  destruct Hc as [Hs Hc]. inversion Hw as [| ? ? Hr Hl]; subst.
  change (payload (r :: l)) with (value_bytes r ++ payload l).
  change (program_writes (r :: l)) with (reg_writes r ++ program_writes l).
  rewrite spread_app, value_bytes_length, (IH _ Hc Hl). f_equal.
  unfold value_bytes, reg_writes, be16.
  destruct Hr as [E | E]; rewrite E; reflexivity.
Qed.

Lemma burst_decodes (a : Z) (l : list t4ka3_reg) :
  0 <= a < 2 ^ 16 -> consecutive_from a l -> Forall is_write l ->
  burst_writes (burst a l) = program_writes l.
Proof.
  intros Ha Hc Hw. unfold burst, be16. simpl.
  rewrite be16_value by assumption. now apply spread_payload.
Qed.

Lemma program_writes_app (l1 l2 : list t4ka3_reg) :
  program_writes (l1 ++ l2) = program_writes l1 ++ program_writes l2.
Proof. unfold program_writes. now rewrite map_app, concat_app. Qed.

Lemma wire_writes_app (m1 m2 : list (list Z)) :
  wire_writes (m1 ++ m2) = wire_writes m1 ++ wire_writes m2.
Proof. unfold wire_writes. now rewrite map_app, concat_app. Qed.

Lemma pending_flush (bus : i2c_bus) ctrl (a : Z) (run : list t4ka3_reg) :
  buffered ctrl a run -> consecutive_from a run -> Forall is_write run ->
  (run <> [] -> 0 <= a < 2 ^ 16) ->
  Z.of_nat (length (payload run)) <= 30 ->
  exists ctrl' new,
    __t4ka3_flush_reg_array adapter_ok bus ctrl =
      (0, ctrl', {| xfers := xfers bus ++ new; sleeps := sleeps bus |}) /\
    wire_writes new = program_writes run /\
    (forall a', pending ctrl' a' []).
Proof.
  intros Hb Hc Hw Ha Hn.
  destruct run as [| r run].
  - destruct Hb as (Hi & _ & _ & Hl). simpl in Hi.
    unfold __t4ka3_flush_reg_array. rewrite Hi. simpl.
    exists ctrl, []. rewrite app_nil_r. destruct bus. split; [reflexivity |].
    split; [reflexivity |]. intros a'. unfold pending, buffered. simpl.
    rewrite take_0. repeat split; auto; try lia; congruence.
  - assert (Hne : r :: run <> []) by discriminate.
    destruct (flush_burst adapter_ok bus ctrl a (r :: run) Hb Hne Hn)
      as (c' & Hf & Hi' & Hl').
    exists c', [burst a (r :: run)]. split; [exact Hf |]. split.
    + unfold wire_writes. simpl. rewrite app_nil_r.
      apply burst_decodes; auto.
    + intros a'. unfold pending, buffered. simpl. rewrite take_0.
      repeat split; auto; try lia; congruence.
Qed.

Lemma payload_length_pos (l : list t4ka3_reg) :
  l <> [] -> 0 < Z.of_nat (length (payload l)).
Proof.
  intros Hne. destruct (payload l) eqn:E; [| simpl; lia].
  apply payload_nil_inv in E. contradiction.
Qed.

Lemma program_writes_single (r : t4ka3_reg) : program_writes [r] = reg_writes r.
Proof. unfold program_writes. simpl. apply app_nil_r. Qed.

(** The flush on an address gap followed by the store of the entry. *)
Lemma gap_then_store (bus : i2c_bus) ctrl (a : Z) (run : list t4ka3_reg)
    (r : t4ka3_reg) :
  pending ctrl a run -> is_write r -> 0 <= sreg r < 2 ^ 16 ->
  exists new1 c1 c2 a2 run2,
    gap_flush adapter_ok bus ctrl r =
      (0, c1, {| xfers := xfers bus ++ new1; sleeps := sleeps bus |}) /\
    buf_store c1 r = Done (Some c2) /\
    buffered c2 a2 run2 /\ consecutive_from a2 run2 /\ Forall is_write run2 /\
    0 <= a2 < 2 ^ 16 /\ run2 <> [] /\
    Z.of_nat (length (payload run2)) <= 29 /\
    wire_writes new1 ++ program_writes run2 = program_writes run ++ reg_writes r.
Proof.
  intros (Hb & Hc & Hw & Ha & Hn) Hr Hs.
  pose proof (value_bytes_length r) as Hvl. pose proof (reg_size_range r) as Hsz.
  assert (Hfresh : forall c, buffered c (sreg r) [] ->
             exists c2, buf_store c r = Done (Some c2) /\
                        buffered c2 (sreg r) [r] /\
                        consecutive_from (sreg r) [r] /\
                        Z.of_nat (length (payload [r])) <= 29).
  { intros c Hbc.
    destruct (buf_store_buffered c (sreg r) [] r Hbc Hr) as (c2 & Hst & Hb2).
    - simpl. lia.
    - change (payload ([] ++ [r])) with (value_bytes r ++ []).
      rewrite app_nil_r. lia.
    - exists c2. split; [exact Hst |]. split; [exact Hb2 |].
      split; [simpl; auto |].
      change (payload [r]) with (value_bytes r ++ []). rewrite app_nil_r. lia. }
  unfold gap_flush, __t4ka3_write_reg_is_consecutive.
  destruct run as [| r0 run].
  - (* nothing buffered *)
    destruct Hb as (Hi & Hrest). simpl in Hi. rewrite Hi. simpl.
    destruct (Hfresh ctrl) as (c2 & Hst & Hb2 & Hc2 & Hn2).
    { destruct Hrest as (_ & Ht & Hl). unfold buffered. simpl.
      repeat split; auto; congruence. }
    exists [], ctrl, c2, (sreg r), [r]. rewrite app_nil_r. destruct bus.
    split; [reflexivity |]. split; [exact Hst |]. split; [exact Hb2 |].
    split; [exact Hc2 |]. split; [constructor; [exact Hr | constructor] |].
    split; [exact Hs |]. split; [discriminate |]. split; [exact Hn2 |].
    simpl. now rewrite program_writes_single.
  - assert (Hne : r0 :: run <> []) by discriminate.
    pose proof (payload_length_pos _ Hne) as Hpos.
    pose proof Hb as (Hi & Haddr & _).
    replace (index ctrl =? 0) with false by (symmetry; apply Z.eqb_neq; lia).
    rewrite (Haddr Hne), Hi.
    destruct (Z.eqb_spec (a + Z.of_nat (length (payload (r0 :: run)))) (sreg r))
      as [E | E].
    + (* the entry continues the run *)
      destruct (buf_store_buffered ctrl a (r0 :: run) r Hb Hr) as (c2 & Hst & Hb2).
      * lia.
      * rewrite payload_snoc, length_app. lia.
      * exists [], ctrl, c2, a, ((r0 :: run) ++ [r]). rewrite app_nil_r. destruct bus.
        split; [reflexivity |]. split; [exact Hst |]. split; [exact Hb2 |].
        split.
        { apply consecutive_from_app. split; [assumption |].
          simpl. split; [lia | exact I]. }
        split.
        { apply Forall_app. split; [assumption | constructor; [exact Hr | constructor]]. }
        split; [apply Ha; assumption |]. split; [discriminate |].
        split; [rewrite payload_snoc, length_app; lia |].
        change (wire_writes []) with (@nil (Z * Z)).
        now rewrite program_writes_app, program_writes_single.
    + (* address gap: the run goes out first *)
      destruct (pending_flush bus ctrl a (r0 :: run) Hb Hc Hw Ha)
        as (c1 & new1 & Hf & Hww & Hp1); [lia |].
      rewrite Hf.
      destruct (Hp1 (sreg r)) as (Hb1 & _).
      destruct (Hfresh c1 Hb1) as (c2 & Hst & Hb2 & Hc2 & Hn2).
      exists new1, c1, c2, (sreg r), [r].
      split; [reflexivity |]. split; [exact Hst |]. split; [exact Hb2 |].
      split; [exact Hc2 |]. split; [constructor; [exact Hr | constructor] |].
      split; [exact Hs |]. split; [discriminate |]. split; [exact Hn2 |].
      rewrite Hww. now rewrite program_writes_single.
Qed.

Lemma reg_step_write_keeps (bus : i2c_bus) ctrl (a : Z)
    (run : list t4ka3_reg) (r : t4ka3_reg) :
  pending ctrl a run -> is_write r -> 0 <= sreg r < 2 ^ 16 ->
  exists ctrl' a' run' new,
    reg_step adapter_ok bus ctrl r =
      Done (Continue ctrl'
              {| xfers := xfers bus ++ new; sleeps := sleeps bus |}) /\
    pending ctrl' a' run' /\
    wire_writes new ++ program_writes run' = program_writes run ++ reg_writes r.
Proof.
  intros Hp Hr Hs.
  destruct (gap_then_store bus ctrl a run r Hp Hr Hs)
    as (new1 & c1 & c2 & a2 & run2 & Hg & Hst & Hb2 & Hc2 & Hw2 & Ha2 & Hne2 & Hn2 & Hww).
  destruct (is_write_not_token r Hr) as [_ Hd].
  unfold reg_step. rewrite Hd, Hg. cbn [Z.eqb].
  unfold __t4ka3_buf_reg_array. rewrite Hst. cbn [exec_bind].
  pose proof Hb2 as (Hi2 & _). unfold T4KA3_MAX_WRITE_BUF_SIZE.
  destruct (Z.leb_spec 30 (index c2 + 2)).
  - destruct (pending_flush {| xfers := xfers bus ++ new1; sleeps := sleeps bus |}
                c2 a2 run2 Hb2 Hc2 Hw2) as (c3 & new2 & Hf & Hww2 & Hp3);
      [auto | lia |].
    rewrite Hf. cbn [exec_bind Z.eqb xfers sleeps].
    exists c3, a2, [], (new1 ++ new2). rewrite app_assoc.
    split; [reflexivity |]. split; [apply Hp3 |].
    rewrite wire_writes_app, <- Hww, Hww2.
    change (program_writes []) with (@nil (Z * Z)). now rewrite app_nil_r.
  - cbn [exec_bind Z.eqb].
    exists c2, a2, run2, new1. split; [reflexivity |].
    split; [| exact Hww].
    split; [exact Hb2 |]. split; [exact Hc2 |]. split; [exact Hw2 |].
    split; [intros _; exact Ha2 | lia].
Qed.

Lemma reg_step_delay_keeps (bus : i2c_bus) ctrl (a : Z)
    (run : list t4ka3_reg) (r : t4ka3_reg) :
  pending ctrl a run -> is_delay r ->
  exists ctrl' new,
    reg_step adapter_ok bus ctrl r =
      Done (Continue ctrl'
              {| xfers := xfers bus ++ new;
                 sleeps := sleeps bus ++ [val r] |}) /\
    (forall a', pending ctrl' a' []) /\
    wire_writes new = program_writes run /\
    reg_writes r = [].
Proof.
  intros (Hb & Hc & Hw & Ha & Hn) Hd.
  destruct (pending_flush bus ctrl a run Hb Hc Hw Ha) as (c1 & new & Hf & Hww & Hp1);
    [lia |].
  unfold reg_step. unfold is_delay in Hd. apply Z.eqb_eq in Hd as Hd'. rewrite Hd', Hf.
  cbn [Z.eqb]. exists c1, new. split; [reflexivity |]. split; [exact Hp1 |].
  split; [exact Hww |].
  unfold reg_writes.
  destruct (Z.eqb_spec (type r) T4KA3_8BIT) as [E | E];
    [rewrite E in Hd; discriminate Hd |].
  destruct (Z.eqb_spec (type r) T4KA3_16BIT) as [E' | E'];
    [rewrite E' in Hd; discriminate Hd | reflexivity].
Qed.

Lemma program_sleeps_cons (r : t4ka3_reg) (l : list t4ka3_reg) :
  program_sleeps (r :: l) =
  (if Z.land (type r) T4KA3_TOK_MASK =? T4KA3_TOK_DELAY then [val r] else [])
  ++ program_sleeps l.
Proof. reflexivity. Qed.

Lemma write_reg_loop_keeps_writes (entries : list t4ka3_reg) :
  forall (bus : i2c_bus) ctrl a run (term : t4ka3_reg) (junk : list t4ka3_reg),
    pending ctrl a run ->
    Forall entry_ok entries ->
    type term = T4KA3_TOK_TERM ->
    exists c new,
      write_reg_loop adapter_ok bus ctrl (entries ++ term :: junk) =
        Done (0, c, {| xfers := xfers bus ++ new;
                       sleeps := sleeps bus ++ program_sleeps entries |}) /\
      wire_writes new = program_writes run ++ program_writes entries.
Proof.
  induction entries as [| r entries IH]; intros bus ctrl a run term junk Hp Hok Ht.
  - destruct Hp as (Hb & Hc & Hw & Ha & Hn).
    destruct (pending_flush bus ctrl a run Hb Hc Hw Ha) as (c1 & new & Hf & Hww & _);
      [lia |].
    simpl. apply Z.eqb_eq in Ht. rewrite Ht, Hf.
    exists c1, new. rewrite !app_nil_r. split; [reflexivity | exact Hww].
  - inversion Hok as [| ? ? Hr Hrest]; subst.
    change ((r :: entries) ++ term :: junk) with (r :: (entries ++ term :: junk)).
    cbn [write_reg_loop]. rewrite program_sleeps_cons.
    change (program_writes (r :: entries))
      with (reg_writes r ++ program_writes entries).
    destruct Hr as [[Hw Hs] | Hd].
    + destruct (is_write_not_token r Hw) as [Hnt Hnd]. rewrite Hnt, Hnd.
      destruct (reg_step_write_keeps bus ctrl a run r Hp Hw Hs)
        as (c1 & a1 & run1 & new1 & -> & Hp1 & Hww).
      cbn [exec_bind].
      destruct (IH {| xfers := xfers bus ++ new1; sleeps := sleeps bus |}
                   c1 a1 run1 term junk Hp1 Hrest Ht) as (c & new & -> & Hww2).
      cbn [xfers sleeps]. exists c, (new1 ++ new). rewrite app_assoc.
      split; [reflexivity |].
      rewrite wire_writes_app, Hww2, app_assoc, Hww. now rewrite <- app_assoc.
    + rewrite (delay_not_term r Hd).
      destruct (reg_step_delay_keeps bus ctrl a run r Hp Hd)
        as (c1 & new1 & -> & Hp1 & Hww & Hnone).
      cbn [exec_bind].
      destruct (IH {| xfers := xfers bus ++ new1; sleeps := sleeps bus ++ [val r] |}
                   c1 0 [] term junk (Hp1 0) Hrest Ht) as (c & new & -> & Hww2).
      cbn [xfers sleeps]. exists c, (new1 ++ new).
      unfold is_delay in Hd. apply Z.eqb_eq in Hd. rewrite Hd, Hnone.
      rewrite !app_assoc. split; [reflexivity |].
      rewrite wire_writes_app, Hww2, Hww.
      change (program_writes []) with (@nil (Z * Z)). now rewrite app_nil_r.
Qed.

(** X3: coalescing changes the framing, not the writes.  For every
    terminated program of 8-bit and 16-bit writes to 16-bit addresses
    and of delays, run on an adapter that accepts every transfer,
    t4ka3_write_reg_array returns 0; reading each burst as a big-endian start
    address followed by one byte per register gives exactly the bytes
    the entries ask for, register by register and in program order; and
    the sleeps are the delay values in program order. *)
Theorem coalescing_keeps_register_writes
    (stack : t4ka3_write_buffer) (bus : i2c_bus)
    (entries : list t4ka3_reg) (term : t4ka3_reg) (junk : list t4ka3_reg) :
  length (data stack) = 30%nat ->
  Forall entry_ok entries ->
  type term = T4KA3_TOK_TERM ->
  exists new,
    t4ka3_write_reg_array adapter_ok stack bus (entries ++ term :: junk) =
      Done (0, {| xfers := xfers bus ++ new;
                  sleeps := sleeps bus ++ program_sleeps entries |}) /\
    wire_writes new = program_writes entries.
Proof.
  intros Hl Hok Ht. unfold t4ka3_write_reg_array.
  destruct (write_reg_loop_keeps_writes entries bus
              {| index := 0; buffer := stack |} 0 [] term junk)
    as (c & new & -> & Hww); auto.
  - unfold pending, buffered. simpl. rewrite take_0.
    repeat split; auto; try lia; congruence.
  - exists new. split; [reflexivity | exact Hww].
Qed.

Lemma coalescing_keeps_register_writes_witness :
  exists new,
    t4ka3_write_reg_array adapter_ok zero_stack idle_bus
      ([ {| type := T4KA3_8BIT; sreg := 0x0340; val := 0x09 |};
         {| type := T4KA3_8BIT; sreg := 0x0341; val := 0xBC |};
         DELAY_10;
         {| type := T4KA3_16BIT; sreg := 0x0202; val := 0x0123 |} ] ++
       TERM :: []) =
      Done (0, {| xfers := new; sleeps := [10] |}) /\
    wire_writes new =
      [(0x0340, 0x09); (0x0341, 0xBC); (0x0202, 0x01); (0x0203, 0x23)].
Proof.
  destruct (coalescing_keeps_register_writes zero_stack idle_bus
              [ {| type := T4KA3_8BIT; sreg := 0x0340; val := 0x09 |};
                {| type := T4KA3_8BIT; sreg := 0x0341; val := 0xBC |};
                DELAY_10;
                {| type := T4KA3_16BIT; sreg := 0x0202; val := 0x0123 |} ]
              TERM []) as (new & Hrun & Hwire).
  - reflexivity.
  - constructor; [left; split; [left; reflexivity | simpl; lia] |].
    constructor; [left; split; [left; reflexivity | simpl; lia] |].
    constructor; [right; reflexivity |].
    constructor; [left; split; [right; reflexivity | simpl; lia] |].
    constructor.
  - reflexivity.
  - exists new. split; [exact Hrun | rewrite Hwire; vm_compute; reflexivity].
Defined.

(** * Single register access *)

Import RegArray Spec RegIO RegIOSpec.

(** ** t4ka3_write_reg *)

Section WriteReg.

Variable i2c_transfer : nat -> Z.

Lemma write_reg_retry_S (n : nat) (ret : Z) (bus : i2c_bus) (len : Z)
    (data : list Z) :
  write_reg_retry i2c_transfer (S n) ret bus len data =
  (if i2c_transfer (length (xfers bus)) =? 1
   then (0, {| xfers := xfers bus ++ [take (Z.to_nat len) data];
               sleeps := sleeps bus |})
   else write_reg_retry i2c_transfer n (- EIO)
          {| xfers := xfers bus ++ [take (Z.to_nat len) data];
             sleeps := sleeps bus |} len data).
Proof.
  cbn [write_reg_retry]. unfold t4ka3_i2c_write.
  destruct (i2c_transfer (length (xfers bus)) =? 1); reflexivity.
Qed.

Lemma write_reg_retry_counts (len : Z) (data : list Z) (limit : nat) :
  forall (ret : Z) (bus : i2c_bus),
  exists k,
    (k <= limit)%nat /\
    refused 1 i2c_transfer (length (xfers bus)) k /\
    write_reg_retry i2c_transfer (S limit) ret bus len data =
      (if i2c_transfer (length (xfers bus) + k)%nat =? 1 then 0 else - EIO,
       {| xfers := xfers bus ++ repeat (take (Z.to_nat len) data) (S k);
          sleeps := sleeps bus |}) /\
    (i2c_transfer (length (xfers bus) + k)%nat <> 1 -> k = limit).
Proof.
  induction limit as [| limit IH]; intros ret bus; rewrite write_reg_retry_S.
  - exists 0%nat. rewrite Nat.add_0_r.
    split; [lia |]. split; [intros j Hj; lia |].
    split; [| reflexivity].
    destruct (Z.eqb_spec (i2c_transfer (length (xfers bus))) 1); reflexivity.
  - destruct (Z.eqb_spec (i2c_transfer (length (xfers bus))) 1) as [E | E].
    + exists 0%nat. rewrite Nat.add_0_r.
      split; [lia |]. split; [intros j Hj; lia |].
      apply Z.eqb_eq in E as E'. rewrite E'.
      split; [reflexivity | congruence].
    + destruct (IH (- EIO)
                  {| xfers := xfers bus ++ [take (Z.to_nat len) data];
                     sleeps := sleeps bus |}) as (k & Hk & Hr & Hrun & Hlast).
      cbn [xfers sleeps] in Hr, Hrun, Hlast.
      rewrite length_app in Hr, Hrun, Hlast. cbn [length] in Hr, Hrun, Hlast.
      replace (length (xfers bus) + 1 + k)%nat
        with (length (xfers bus) + S k)%nat in Hrun, Hlast by lia.
      exists (S k). split; [lia |]. split.
      * intros [| j] Hj.
        -- now rewrite Nat.add_0_r.
        -- replace (length (xfers bus) + S j)%nat
             with (length (xfers bus) + 1 + j)%nat by lia.
           apply Hr. lia.
      * split; [| intros H; f_equal; auto].
        rewrite Hrun. f_equal. f_equal.
        rewrite <- app_assoc. reflexivity.
Qed.

Lemma write_reg_wire (data_length reg val : Z) :
  data_length = T4KA3_8BIT \/ data_length = T4KA3_16BIT ->
  take (Z.to_nat (u16 (data_length + 2)))
       (u16_mem (cpu_to_be16 reg) ++
        (if data_length =? T4KA3_8BIT then [u8 val; 0]
         else u16_mem (cpu_to_be16 val))) =
  reg_message data_length reg val.
Proof.
  intros [-> | ->]; unfold reg_message; rewrite !u16_mem_be; reflexivity.
Qed.

(** X6: a single register write of 1 or 2 bytes puts the same message on
    the bus at every attempt, the register address high byte first and
    then the value high byte first; it stops at the first transfer the
    adapter accepts and gives up after the fifth.  It returns 0 when
    the last attempt was accepted and -EIO otherwise. *)
Theorem write_reg_retries_same_message
    (bus : i2c_bus) (data_length reg val : Z) :
  data_length = T4KA3_8BIT \/ data_length = T4KA3_16BIT ->
  exists k,
    (k < 5)%nat /\
    refused 1 i2c_transfer (length (xfers bus)) k /\
    t4ka3_write_reg i2c_transfer bus data_length reg val =
      (if i2c_transfer (length (xfers bus) + k)%nat =? 1 then 0 else - EIO,
       {| xfers := xfers bus ++
                   repeat (reg_message data_length reg val) (S k);
          sleeps := sleeps bus |}) /\
    (i2c_transfer (length (xfers bus) + k)%nat <> 1 -> k = 4%nat).
Proof.
  intros Hlen. unfold t4ka3_write_reg.
  replace (negb (data_length =? T4KA3_8BIT) &&
           negb (data_length =? T4KA3_16BIT)) with false
    by (destruct Hlen as [-> | ->]; reflexivity).
  destruct (write_reg_retry_counts (u16 (data_length + 2))
              (u16_mem (cpu_to_be16 reg) ++
               (if data_length =? T4KA3_8BIT then [u8 val; 0]
                else u16_mem (cpu_to_be16 val))) 4 0 bus)
    as (k & Hk & Hr & Hrun & Hlast).
  rewrite (write_reg_wire data_length reg val Hlen) in Hrun.
  exists k. split; [lia |]. split; [exact Hr |]. split; [exact Hrun | exact Hlast].
Qed.

End WriteReg.

Lemma write_reg_retries_same_message_witness :
  exists k,
    (k < 5)%nat /\
    refused 1 (fail_at 0) (length (xfers idle_bus)) k /\
    t4ka3_write_reg (fail_at 0) idle_bus T4KA3_8BIT 0x0101 0x03 =
      (if fail_at 0 (length (xfers idle_bus) + k)%nat =? 1 then 0 else - EIO,
       {| xfers := xfers idle_bus ++
                   repeat (reg_message T4KA3_8BIT 0x0101 0x03) (S k);
          sleeps := sleeps idle_bus |}) /\
    (fail_at 0 (length (xfers idle_bus) + k)%nat <> 1 -> k = 4%nat).
Proof.
  apply (write_reg_retries_same_message (fail_at 0) idle_bus T4KA3_8BIT
           0x0101 0x03).
  left. reflexivity.
Defined.

(** ** t4ka3_read_reg *)

Section ReadReg.

Variable i2c_transfer : nat -> Z.
Variable i2c_rx : nat -> list Z.

Lemma read_reg_retry_S (n : nat) (bus : i2c_bus) (len : Z) (mem : list Z) :
  read_reg_retry i2c_transfer i2c_rx (S n) bus len mem =
  let k := length (xfers bus) in
  let mem' := stored i2c_rx len k ++ drop (length (stored i2c_rx len k)) mem in
  let bus' := {| xfers := xfers bus ++ [take 2 mem]; sleeps := sleeps bus |} in
  if i2c_transfer k =? 2 then (None, mem', bus')
  else match n with
       | O => (Some (read_failure (i2c_transfer k)), mem', bus')
       | S _ => read_reg_retry i2c_transfer i2c_rx n bus' len mem'
       end.
Proof.
  cbn [read_reg_retry]. unfold read_transfer, stored. cbv zeta.
  destruct (i2c_transfer (length (xfers bus)) =? 2); reflexivity.
Qed.

Lemma stored_length (len : Z) (n : nat) :
  0 <= len <= 30 -> (length (stored i2c_rx len n) <= 30)%nat.
Proof. intros H. unfold stored. rewrite length_take. lia. Qed.

Lemma stored_keeps_size (len : Z) (n : nat) (mem : list Z) :
  0 <= len <= 30 -> length mem = 32%nat ->
  length (stored i2c_rx len n ++ drop (length (stored i2c_rx len n)) mem) = 32%nat.
Proof.
  intros H Hm. pose proof (stored_length len n H).
  rewrite length_app, length_drop. lia.
Qed.

Lemma read_reg_retry_counts (len : Z) (limit : nat) :
  0 <= len <= 30 ->
  forall (bus : i2c_bus) (mem : list Z),
  length mem = 32%nat ->
  exists k mem' new,
    (k <= limit)%nat /\
    refused 2 i2c_transfer (length (xfers bus)) k /\
    read_reg_retry i2c_transfer i2c_rx (S limit) bus len mem =
      (if i2c_transfer (length (xfers bus) + k)%nat =? 2 then None
       else Some (read_failure (i2c_transfer (length (xfers bus) + k)%nat)),
       mem',
       {| xfers := xfers bus ++ take 2 mem :: new; sleeps := sleeps bus |}) /\
    length new = k /\
    Forall (fun m => length m = 2%nat) new /\
    (i2c_transfer (length (xfers bus) + k)%nat <> 2 -> k = limit) /\
    length mem' = 32%nat /\
    take (length (stored i2c_rx len (length (xfers bus) + k))) mem' =
      stored i2c_rx len (length (xfers bus) + k).
Proof.
  intros Hlen. induction limit as [| limit IH]; intros bus mem Hmem;
    rewrite read_reg_retry_S; cbv zeta.
  - exists 0%nat, (stored i2c_rx len (length (xfers bus)) ++
                   drop (length (stored i2c_rx len (length (xfers bus)))) mem), [].
    rewrite Nat.add_0_r.
    split; [lia |]. split; [intros j Hj; lia |].
    split; [destruct (i2c_transfer (length (xfers bus)) =? 2); reflexivity |].
    split; [reflexivity |]. split; [constructor |]. split; [reflexivity |].
    split; [now apply stored_keeps_size |].
    apply take_app_length.
  - destruct (Z.eqb_spec (i2c_transfer (length (xfers bus))) 2) as [E | E].
    + exists 0%nat, (stored i2c_rx len (length (xfers bus)) ++
                     drop (length (stored i2c_rx len (length (xfers bus)))) mem), [].
      rewrite Nat.add_0_r. apply Z.eqb_eq in E as E'. rewrite E'.
      split; [lia |]. split; [intros j Hj; lia |].
      split; [reflexivity |].
      split; [reflexivity |]. split; [constructor |]. split; [congruence |].
      split; [now apply stored_keeps_size |].
      apply take_app_length.
    + destruct (IH {| xfers := xfers bus ++ [take 2 mem]; sleeps := sleeps bus |}
                  (stored i2c_rx len (length (xfers bus)) ++
                   drop (length (stored i2c_rx len (length (xfers bus)))) mem))
        as (k & mem' & new & Hk & Hr & Hrun & Hn & Hall & Hlast & Hsz & Hst);
        [now apply stored_keeps_size |].
      cbn [xfers sleeps] in Hr, Hrun, Hlast, Hst.
      rewrite length_app in Hr, Hrun, Hlast, Hst.
      cbn [length] in Hr, Hrun, Hlast, Hst.
      replace (length (xfers bus) + 1 + k)%nat
        with (length (xfers bus) + S k)%nat in Hrun, Hlast, Hst by lia.
      exists (S k), mem',
        (take 2 (stored i2c_rx len (length (xfers bus)) ++
                 drop (length (stored i2c_rx len (length (xfers bus)))) mem) :: new).
      split; [lia |]. split.
      { intros [| j] Hj.
        - now rewrite Nat.add_0_r.
        - replace (length (xfers bus) + S j)%nat
            with (length (xfers bus) + 1 + j)%nat by lia.
          apply Hr. lia. }
      split.
      { rewrite Hrun. f_equal. f_equal. rewrite <- app_assoc. reflexivity. }
      split; [simpl; lia |]. split.
      { constructor; [| exact Hall].
        rewrite length_take, stored_keeps_size by assumption. reflexivity. }
      split; [intros H; f_equal; auto |].
      split; [exact Hsz | exact Hst].
Qed.

(** X7: a register read of up to 30 bytes makes between one and five
    transfers and stops at the first one the adapter answers with 2.
    The first transfer carries the register address high byte first and
    every transfer carries two address bytes.  When the last transfer
    was answered with 2 the result is 0 and one value is returned for
    an 8-bit read, len / 2 values otherwise; when all five were refused
    no value is returned and the result is the adapter's own negative
    answer, or -EIO if that answer was not negative. *)
Theorem read_reg_retries_then_maps_error (bus : i2c_bus) (len reg : Z) :
  0 <= len <= 30 ->
  exists k vals new,
    (k < 5)%nat /\
    refused 2 i2c_transfer (length (xfers bus)) k /\
    t4ka3_read_reg i2c_transfer i2c_rx bus len reg =
      (if i2c_transfer (length (xfers bus) + k)%nat =? 2 then 0
       else read_failure (i2c_transfer (length (xfers bus) + k)%nat),
       vals,
       {| xfers := xfers bus ++ be16 reg :: new; sleeps := sleeps bus |}) /\
    length new = k /\
    Forall (fun m => length m = 2%nat) new /\
    (i2c_transfer (length (xfers bus) + k)%nat = 2 ->
     length vals = if len =? T4KA3_8BIT then 1%nat
                   else Z.to_nat (Z.shiftr len 1)) /\
    (i2c_transfer (length (xfers bus) + k)%nat <> 2 ->
     k = 4%nat /\ vals = []).
Proof.
  intros Hlen. unfold t4ka3_read_reg, T4KA3_BYTE_MAX.
  replace (30 <? len) with false by (symmetry; apply Z.ltb_ge; lia).
  destruct (read_reg_retry_counts len 4 Hlen bus
              (u16_mem (cpu_to_be16 reg) ++ repeat 0 30))
    as (k & mem' & new & Hk & Hr & Hrun & Hn & Hall & Hlast & Hsz & Hst);
    [reflexivity |].
  rewrite Hrun. rewrite u16_mem_be.
  change (take 2 (be16 reg ++ repeat 0 30)) with (be16 reg).
  destruct (Z.eqb_spec (i2c_transfer (length (xfers bus) + k)%nat) 2) as [E | E].
  - destruct (Z.eqb_spec len T4KA3_8BIT) as [E8 | E8].
    + exists k, [u8 (load16 mem' 0)], new.
      rewrite (proj2 (Z.eqb_eq _ _) E).
      split; [lia |]. split; [exact Hr |]. split; [reflexivity |].
      split; [exact Hn |]. split; [exact Hall |].
      split; [reflexivity | contradiction].
    + exists k, (map (fun i => be16_to_cpu (load16 mem' i))
                     (seq 0 (Z.to_nat (Z.shiftr len 1)))), new.
      rewrite (proj2 (Z.eqb_eq _ _) E).
      split; [lia |]. split; [exact Hr |]. split; [reflexivity |].
      split; [exact Hn |]. split; [exact Hall |].
      split; [intros _; now rewrite length_map, length_seq | contradiction].
  - exists k, [], new.
    rewrite (proj2 (Z.eqb_neq _ _) E).
    split; [lia |]. split; [exact Hr |]. split; [reflexivity |].
    split; [exact Hn |]. split; [exact Hall |].
    split; [contradiction |]. intros _. split; [auto | reflexivity].
Qed.

End ReadReg.

Lemma read_reg_retries_then_maps_error_witness :
  exists k vals new,
    (k < 5)%nat /\
    refused 2 (fun _ => - EBUSY) (length (xfers idle_bus)) k /\
    t4ka3_read_reg (fun _ => - EBUSY) (fun _ => []) idle_bus T4KA3_8BIT 0x0101 =
      (if (- EBUSY) =? 2 then 0 else read_failure (- EBUSY),
       vals,
       {| xfers := xfers idle_bus ++ be16 0x0101 :: new;
          sleeps := sleeps idle_bus |}) /\
    length new = k /\
    Forall (fun m => length m = 2%nat) new /\
    (- EBUSY = 2 ->
     length vals = if T4KA3_8BIT =? T4KA3_8BIT then 1%nat
                   else Z.to_nat (Z.shiftr T4KA3_8BIT 1)) /\
    (- EBUSY <> 2 -> k = 4%nat /\ vals = []).
Proof.
  apply (read_reg_retries_then_maps_error (fun _ => - EBUSY) (fun _ => [])
           idle_bus T4KA3_8BIT 0x0101).
  unfold T4KA3_8BIT. lia.
Defined.

(** ** The value a read returns *)

Lemma u8_range (x : Z) : 0 <= u8 x < 256.
Proof.
  unfold u8. change 0xff with (Z.ones 8). rewrite Z.land_ones by lia.
  change (2 ^ 8) with 256. apply Z.mod_pos_bound. lia.
Qed.

Lemma u8_small (x : Z) : 0 <= x < 256 -> u8 x = x.
Proof.
  intros H. unfold u8. change 0xff with (Z.ones 8).
  rewrite Z.land_ones by lia. apply Z.mod_small. exact H.
Qed.

Lemma lor_shift_add (a b : Z) :
  0 <= a < 256 -> Z.lor a (Z.shiftl b 8) = a + b * 256.
Proof.
  intros Ha. rewrite Z.shiftl_mul_pow2 by lia. change (2 ^ 8) with 256.
  assert (Hd : Z.land a (b * 256) = 0).
  { apply Z.bits_inj'. intros n Hn. rewrite Z.land_spec, Z.bits_0.
    destruct (Z.ltb_spec n 8).
    - change 256 with (2 ^ 8). rewrite Z.mul_pow2_bits_low by lia.
      apply andb_false_r.
    - rewrite <- (u8_small a Ha). unfold u8.
      rewrite Z.land_spec, testbit_0xff by lia.
      replace (n <? 8) with false by (symmetry; apply Z.ltb_ge; lia).
      now rewrite andb_false_r. }
  rewrite <- Z.lxor_lor by exact Hd. symmetry. now apply Z.add_nocarry_lxor.
Qed.

Lemma u8_load (a m : Z) : 0 <= a < 256 -> u8 (Z.lor a (Z.shiftl m 8)) = a.
Proof.
  intros Ha. rewrite lor_shift_add by exact Ha.
  unfold u8. change 0xff with (Z.ones 8). rewrite Z.land_ones by lia.
  change (2 ^ 8) with 256. rewrite Z.mod_add by lia. now apply Z.mod_small.
Qed.

Lemma be16_to_cpu_load (a b : Z) :
  0 <= a < 256 -> 0 <= b < 256 ->
  be16_to_cpu (Z.lor a (Z.shiftl b 8)) = a * 256 + b.
Proof.
  intros Ha Hb. unfold be16_to_cpu, cpu_to_be16.
  rewrite lor_shift_add by exact Ha.
  assert (Hlo : Z.land (a + b * 256) 0xff = a).
  { change 0xff with (Z.ones 8). rewrite Z.land_ones by lia.
    change (2 ^ 8) with 256. rewrite Z.mod_add by lia. now apply Z.mod_small. }
  assert (Hhi : Z.shiftr (Z.land (a + b * 256) 0xff00) 8 = b).
  { rewrite Z.shiftr_land. change (Z.shiftr 0xff00 8) with (Z.ones 8).
    rewrite Z.land_ones, Z.shiftr_div_pow2 by lia. change (2 ^ 8) with 256.
    rewrite Z.div_add by lia. rewrite (Z.div_small a) by lia.
    now apply Z.mod_small. }
  rewrite Hlo, Hhi, Z.lor_comm. rewrite lor_shift_add by exact Hb. lia.
Qed.

Section ReadValue.

Variable i2c_transfer : nat -> Z.
Variable i2c_rx : nat -> list Z.

(** The attempt that ends the retry loop is the first one that is not
    refused. *)
Lemma first_answer_unique (ok : Z) (n k k' : nat) :
  refused ok i2c_transfer n k -> i2c_transfer (n + k)%nat = ok ->
  refused ok i2c_transfer n k' ->
  (i2c_transfer (n + k')%nat <> ok -> (k <= k')%nat) ->
  k' = k.
Proof.
  intros Hr Hok Hr' Hlast.
  destruct (Nat.lt_trichotomy k' k) as [Hlt | [Heq | Hgt]].
  - destruct (Z.eq_dec (i2c_transfer (n + k')%nat) ok) as [E | E].
    + exfalso. exact (Hr k' Hlt E).
    + specialize (Hlast E). lia.
  - exact Heq.
  - exfalso. exact (Hr' k Hgt Hok).
Qed.

Lemma read_reg_value (bus : i2c_bus) (len reg : Z) (k : nat) :
  len = T4KA3_8BIT \/ len = T4KA3_16BIT ->
  (k < 5)%nat ->
  refused 2 i2c_transfer (length (xfers bus)) k ->
  i2c_transfer (length (xfers bus) + k)%nat = 2 ->
  (Z.to_nat len <= length (i2c_rx (length (xfers bus) + k)%nat))%nat ->
  exists new,
    t4ka3_read_reg i2c_transfer i2c_rx bus len reg =
      (0, [be_value len (i2c_rx (length (xfers bus) + k)%nat)],
       {| xfers := xfers bus ++ be16 reg :: new; sleeps := sleeps bus |}) /\
    length new = k /\
    Forall (fun m => length m = 2%nat) new.
Proof.
  intros Hlen Hk Hr Hok Hrx.
  assert (Hl : 0 <= len <= 30) by (destruct Hlen as [-> | ->]; cbv; split; congruence).
  unfold t4ka3_read_reg, T4KA3_BYTE_MAX.
  replace (30 <? len) with false by (symmetry; apply Z.ltb_ge; lia).
  destruct (read_reg_retry_counts i2c_transfer i2c_rx len 4 Hl bus
              (u16_mem (cpu_to_be16 reg) ++ repeat 0 30))
    as (k' & mem' & new & Hk' & Hr' & Hrun & Hn & Hall & Hlast & Hsz & Hst);
    [reflexivity |].
  assert (k' = k) as ->.
  { apply (first_answer_unique 2 (length (xfers bus))); auto.
    intros H. specialize (Hlast H). lia. }
  rewrite Hrun, (proj2 (Z.eqb_eq _ _) Hok), u16_mem_be.
  change (take 2 (be16 reg ++ repeat 0 30)) with (be16 reg).
  exists new. split; [| split; assumption].
  unfold stored in Hst.
  destruct (i2c_rx (length (xfers bus) + k)%nat) as [| b0 rest] eqn:Erx.
  { destruct Hlen as [-> | ->]; cbv in Hrx; lia. }
  destruct Hlen as [-> | ->].
  - (* 8-bit read: the low byte of data[0] *)
    change (take (Z.to_nat T4KA3_8BIT) (map u8 (b0 :: rest))) with [u8 b0] in Hst.
    destruct mem' as [| m0 mem']; [discriminate Hst |].
    injection Hst as ->.
    change (T4KA3_8BIT =? T4KA3_8BIT) with true. cbv iota.
    unfold load16, be_value. cbn [nth Nat.mul Nat.add].
    change (T4KA3_8BIT =? T4KA3_8BIT) with true. cbv iota.
    rewrite u8_load by apply u8_range. reflexivity.
  - (* 16-bit read: data[0] is swapped back *)
    destruct rest as [| b1 rest]; [cbv in Hrx; lia |].
    change (take (Z.to_nat T4KA3_16BIT) (map u8 (b0 :: b1 :: rest)))
      with [u8 b0; u8 b1] in Hst.
    destruct mem' as [| m0 [| m1 mem']]; try discriminate Hst.
    injection Hst as -> ->.
    change (T4KA3_16BIT =? T4KA3_8BIT) with false. cbv iota.
    change (Z.to_nat (Z.shiftr T4KA3_16BIT 1)) with 1%nat.
    unfold load16, be_value. cbn [seq map nth Nat.mul Nat.add].
    change (T4KA3_16BIT =? T4KA3_8BIT) with false. cbv iota.
    rewrite be16_to_cpu_load by apply u8_range. reflexivity.
Qed.

(** X8: when the first transfer of a 1 or 2 byte read that the adapter
    answers with 2 is one of the five attempts and delivers at least
    that many bytes, the read returns 0 and the value of those bytes
    taken high byte first; what earlier, refused attempts left in the
    buffer does not show. *)
Theorem read_reg_returns_big_endian_value
    (bus : i2c_bus) (len reg : Z) (k : nat) :
  len = T4KA3_8BIT \/ len = T4KA3_16BIT ->
  (k < 5)%nat ->
  refused 2 i2c_transfer (length (xfers bus)) k ->
  i2c_transfer (length (xfers bus) + k)%nat = 2 ->
  (Z.to_nat len <= length (i2c_rx (length (xfers bus) + k)%nat))%nat ->
  exists bus',
    t4ka3_read_reg i2c_transfer i2c_rx bus len reg =
      (0, [be_value len (i2c_rx (length (xfers bus) + k)%nat)], bus').
Proof.
  intros Hlen Hk Hr Hok Hrx.
  destruct (read_reg_value bus len reg k Hlen Hk Hr Hok Hrx) as (new & H & _).
  eexists. exact H.
Qed.

(** X9: the read buffer is also the buffer the register address is sent
    from.  When the first transfer of a read is refused after it has
    stored two bytes, the second attempt no longer names the register
    asked for: an 8-bit read sends the first stored byte in place of
    the address high byte, a longer read sends the two stored bytes. *)
Theorem read_retry_sends_received_bytes
    (bus : i2c_bus) (len reg b0 b1 : Z) (rest : list Z) :
  1 <= len <= 30 ->
  i2c_transfer (length (xfers bus)) <> 2 ->
  i2c_rx (length (xfers bus)) = b0 :: b1 :: rest ->
  exists ret vals bus',
    t4ka3_read_reg i2c_transfer i2c_rx bus len reg = (ret, vals, bus') /\
    xfers bus' !! length (xfers bus) = Some (be16 reg) /\
    xfers bus' !! S (length (xfers bus)) =
      Some (if len =? 1 then [u8 b0; Z.land reg 0xff] else [u8 b0; u8 b1]).
Proof.
  intros Hlen Hfail Hrx.
  unfold t4ka3_read_reg, T4KA3_BYTE_MAX.
  replace (30 <? len) with false by (symmetry; apply Z.ltb_ge; lia).
  rewrite read_reg_retry_S. cbv zeta. unfold stored.
  rewrite (proj2 (Z.eqb_neq _ _) Hfail), Hrx, u16_mem_be.
  change (take 2 (be16 reg ++ repeat 0 30)) with (be16 reg).
  set (mem1 := take (Z.to_nat len) (map u8 (b0 :: b1 :: rest)) ++
               drop (length (take (Z.to_nat len) (map u8 (b0 :: b1 :: rest))))
                    (be16 reg ++ repeat 0 30)).
  assert (Hmem1 : take 2 mem1 =
                  if len =? 1 then [u8 b0; Z.land reg 0xff] else [u8 b0; u8 b1]).
  { unfold mem1. destruct (Z.eqb_spec len 1) as [-> | Hne].
    - reflexivity.
    - replace (Z.to_nat len) with (S (S (Z.to_nat (len - 2)))) by lia.
      reflexivity. }
  assert (Hsz : length mem1 = 32%nat).
  { unfold mem1. rewrite length_app, length_drop, length_take.
    cbn [length map]. rewrite length_app, repeat_length. cbn [be16 length].
    rewrite length_map. lia. }
  destruct (read_reg_retry_counts i2c_transfer i2c_rx len 3 ltac:(lia)
              {| xfers := xfers bus ++ [be16 reg]; sleeps := sleeps bus |}
              mem1 Hsz)
    as (k & mem' & new & Hk & Hr & Hrun & _).
  rewrite Hrun. cbn [xfers sleeps]. rewrite Hmem1.
  assert (Hlook : forall tail : list (list Z),
            ((xfers bus ++ [be16 reg]) ++ tail) !! length (xfers bus) =
              Some (be16 reg) /\
            forall m, ((xfers bus ++ [be16 reg]) ++ m :: tail)
                        !! S (length (xfers bus)) = Some m).
  { intros tail. split.
    - rewrite <- app_assoc. cbn [app]. now apply list_lookup_middle.
    - intros m. apply list_lookup_middle. rewrite length_app. simpl. lia. }
  destruct (match (if i2c_transfer
                        (length (xfers bus ++ [be16 reg]) + k)%nat =? 2
                   then None
                   else Some (read_failure
                                (i2c_transfer
                                   (length (xfers bus ++ [be16 reg]) + k)%nat)))
            with Some _ => true | None => false end) eqn:Eout.
  all: destruct (i2c_transfer (length (xfers bus ++ [be16 reg]) + k)%nat =? 2);
    try discriminate Eout.
  all: try destruct (len =? T4KA3_8BIT).
  all: do 3 eexists; (split; [reflexivity |]); cbn [xfers];
    split; [apply Hlook | apply Hlook].
Qed.

End ReadValue.

Lemma read_reg_returns_big_endian_value_witness :
  exists bus',
    t4ka3_read_reg (read_then_write 1) (deliver 1 [0x12; 0x34]) idle_bus
      T4KA3_16BIT 0x0202 = (0, [0x1234], bus').
Proof.
  apply (read_reg_returns_big_endian_value (read_then_write 1)
           (deliver 1 [0x12; 0x34]) idle_bus T4KA3_16BIT 0x0202 1).
  - right. reflexivity.
  - lia.
  - intros j Hj. assert (j = 0%nat) as -> by lia. discriminate.
  - reflexivity.
  - cbv. lia.
Defined.

Lemma read_retry_sends_received_bytes_witness :
  exists ret vals bus',
    t4ka3_read_reg (fun _ => - EIO) (deliver 0 [0xAB; 0xCD]) idle_bus
      T4KA3_8BIT 0x0101 = (ret, vals, bus') /\
    xfers bus' !! 0%nat = Some [0x01; 0x01] /\
    xfers bus' !! 1%nat = Some [0xAB; 0x01].
Proof.
  apply (read_retry_sends_received_bytes (fun _ => - EIO)
           (deliver 0 [0xAB; 0xCD]) idle_bus T4KA3_8BIT 0x0101 0xAB 0xCD []).
  - unfold T4KA3_8BIT. lia.
  - discriminate.
  - reflexivity.
Defined.

(** ** Sensor detection *)

Section Detect.

Variable i2c_transfer : nat -> Z.
Variable i2c_rx : nat -> list Z.

Lemma id_of_bytes (a b : Z) :
  0 <= a < 256 -> 0 <= b < 256 ->
  u16 (Z.lor (Z.shiftl (u8 a) 8) (u8 b)) = a * 256 + b.
Proof.
  intros Ha Hb. rewrite !u8_small by assumption.
  rewrite Z.lor_comm, lor_shift_add by exact Hb.
  rewrite u16_small; [lia |]. change (2 ^ 16) with 65536. lia.
Qed.

(** X10: when both identification reads get through, t4ka3_detect makes
    no further transfer, stores the two bytes read from registers 0x0000 and
    0x0001 as a 16-bit id, high byte first, and returns 0 exactly when
    they are 0x14 and 0x90; any other pair gives -ENODEV. *)
Theorem detect_accepts_only_the_product_id
    (id_uninit : Z) (bus : i2c_bus) (k1 k2 : nat) (h l : Z)
    (rest1 rest2 : list Z) :
  (k1 < 5)%nat ->
  refused 2 i2c_transfer (length (xfers bus)) k1 ->
  i2c_transfer (length (xfers bus) + k1)%nat = 2 ->
  i2c_rx (length (xfers bus) + k1)%nat = h :: rest1 ->
  (k2 < 5)%nat ->
  refused 2 i2c_transfer (length (xfers bus) + S k1)%nat k2 ->
  i2c_transfer (length (xfers bus) + S k1 + k2)%nat = 2 ->
  i2c_rx (length (xfers bus) + S k1 + k2)%nat = l :: rest2 ->
  exists new1 new2,
    t4ka3_detect i2c_transfer i2c_rx true id_uninit bus =
      (if (u8 h =? 0x14) && (u8 l =? 0x90) then 0 else - ENODEV,
       u8 h * 256 + u8 l,
       {| xfers := (xfers bus ++ be16 0x0000 :: new1) ++ be16 0x0001 :: new2;
          sleeps := sleeps bus |}) /\
    length new1 = k1 /\ length new2 = k2.
Proof.
  intros Hk1 Hr1 Hok1 Hrx1 Hk2 Hr2 Hok2 Hrx2.
  unfold t4ka3_detect. cbn [negb].
  destruct (read_reg_value i2c_transfer i2c_rx bus T4KA3_8BIT
              T4KA3_REG_PRODUCT_ID k1) as (new1 & Hrun1 & Hn1 & _); auto.
  { rewrite Hrx1. cbv. lia. }
  rewrite Hrun1. cbn [Z.eqb negb].
  assert (Hlen1 : length (xfers bus ++ be16 T4KA3_REG_PRODUCT_ID :: new1) =
                  (length (xfers bus) + S k1)%nat).
  { rewrite length_app. cbn [length]. lia. }
  destruct (read_reg_value i2c_transfer i2c_rx
              {| xfers := xfers bus ++ be16 T4KA3_REG_PRODUCT_ID :: new1;
                 sleeps := sleeps bus |}
              T4KA3_8BIT (T4KA3_REG_PRODUCT_ID + 1) k2)
    as (new2 & Hrun2 & Hn2 & _); cbn [xfers]; rewrite ?Hlen1; auto.
  { rewrite Hrx2. cbv. lia. }
  rewrite Hrun2. cbn [Z.eqb negb xfers sleeps]. rewrite Hlen1, Hrx1, Hrx2.
  unfold be_value. change (T4KA3_8BIT =? T4KA3_8BIT) with true.
  cbn [nth hd]. cbv iota.
  rewrite id_of_bytes by apply u8_range.
  exists new1, new2. split; [| split; assumption].
  pose proof (u8_range h) as Hh. pose proof (u8_range l) as Hl.
  unfold T4KA3_PRODUCT_ID.
  destruct (Z.eqb_spec (u8 h * 256 + u8 l) 0x1490) as [E | E];
    destruct (Z.eqb_spec (u8 h) 0x14) as [E1 | E1];
    destruct (Z.eqb_spec (u8 l) 0x90) as [E2 | E2];
    cbn [negb andb]; try reflexivity; exfalso; lia.
Qed.

End Detect.

Lemma detect_accepts_only_the_product_id_witness :
  exists new1 new2,
    t4ka3_detect (fun _ => 2)
      (fun n => if Nat.eqb n 0 then [0x14] else [0x90]) true 0 idle_bus =
      (0, 0x1490,
       {| xfers := ([] ++ be16 0x0000 :: new1) ++ be16 0x0001 :: new2;
          sleeps := [] |}) /\
    length new1 = 0%nat /\ length new2 = 0%nat.
Proof.
  apply (detect_accepts_only_the_product_id (fun _ => 2)
           (fun n => if Nat.eqb n 0 then [0x14] else [0x90]) 0 idle_bus
           0 0 0x14 0x90 [] []).
  - lia.
  - intros j Hj. lia.
  - reflexivity.
  - reflexivity.
  - lia.
  - intros j Hj. lia.
  - reflexivity.
  - reflexivity.
Defined.

(** ** Read-modify-write flips *)

Lemma testbit_u8 (w i : Z) :
  0 <= i -> Z.testbit (u8 w) i = Z.testbit w i && (i <? 8).
Proof. intros Hi. unfold u8. now rewrite Z.land_spec, testbit_0xff. Qed.

Lemma testbit_u16 (w i : Z) :
  0 <= i -> Z.testbit (u16 w) i = Z.testbit w i && (i <? 16).
Proof.
  intros Hi. unfold u16. rewrite Z.land_spec. f_equal.
  change 0xffff with (Z.ones 16).
  destruct (Z.ltb_spec i 16).
  - apply Z.ones_spec_low. lia.
  - apply Z.ones_spec_high. lia.
Qed.

(** The byte a flip writes back: bit [p] set or cleared, the others as
    read. *)
Lemma rmw_bits (w p value i : Z) :
  0 <= p < 8 -> 0 <= i ->
  Z.testbit (if negb (value =? 0) then u16 (Z.lor (u8 w) (2 ^ p))
             else u16 (Z.land (u8 w) (Z.lnot (2 ^ p)))) i =
  if i =? p then negb (value =? 0) else Z.testbit (u8 w) i.
Proof.
  intros Hp Hi.
  destruct (negb (value =? 0)); rewrite testbit_u16 by exact Hi.
  - rewrite Z.lor_spec, Z.pow2_bits_eqb, testbit_u8 by lia.
    rewrite (Z.eqb_sym p i).
    destruct (Z.eqb_spec i p) as [-> | Hne].
    + rewrite orb_true_r. simpl. apply Z.ltb_lt. lia.
    + rewrite orb_false_r.
      destruct (Z.ltb_spec i 8).
      * replace (i <? 16) with true by (symmetry; apply Z.ltb_lt; lia).
        now rewrite !andb_true_r.
      * now rewrite andb_false_r.
  - rewrite Z.land_spec, Z.lnot_spec, Z.pow2_bits_eqb, testbit_u8 by lia.
    rewrite (Z.eqb_sym p i).
    destruct (Z.eqb_spec i p) as [-> | Hne].
    + simpl. now rewrite andb_false_r.
    + simpl. rewrite andb_true_r.
      destruct (Z.ltb_spec i 8).
      * replace (i <? 16) with true by (symmetry; apply Z.ltb_lt; lia).
        now rewrite !andb_true_r.
      * now rewrite andb_false_r.
Qed.

Lemma rmw_byte (w p value : Z) :
  0 <= p < 8 ->
  u8 (if negb (value =? 0) then u16 (Z.lor (u8 w) (2 ^ p))
      else u16 (Z.land (u8 w) (Z.lnot (2 ^ p)))) =
  if negb (value =? 0) then u16 (Z.lor (u8 w) (2 ^ p))
  else u16 (Z.land (u8 w) (Z.lnot (2 ^ p))).
Proof.
  intros Hp. apply Z.bits_inj'. intros i Hi.
  rewrite testbit_u8, rmw_bits by assumption.
  destruct (Z.eqb_spec i p) as [-> | Hne].
  - replace (p <? 8) with true by (symmetry; apply Z.ltb_lt; lia).
    apply andb_true_r.
  - rewrite testbit_u8 by exact Hi. now rewrite <- andb_assoc, andb_diag.
Qed.

Lemma read_failure_nonzero (err : Z) : read_failure err <> 0.
Proof.
  unfold read_failure. destruct (Z.leb_spec 0 err); [discriminate | lia].
Qed.

Section Flip.

Variable i2c_transfer : nat -> Z.
Variable i2c_rx : nat -> list Z.

Lemma read_reg_8bit_cases (bus : i2c_bus) (reg : Z) :
  exists new,
    (exists w, t4ka3_read_reg i2c_transfer i2c_rx bus T4KA3_8BIT reg =
       (0, [u8 w],
        {| xfers := xfers bus ++ be16 reg :: new; sleeps := sleeps bus |})) \/
    (exists e, e <> 0 /\
       t4ka3_read_reg i2c_transfer i2c_rx bus T4KA3_8BIT reg =
       (e, [],
        {| xfers := xfers bus ++ be16 reg :: new; sleeps := sleeps bus |})).
Proof.
  unfold t4ka3_read_reg.
  change (T4KA3_BYTE_MAX <? T4KA3_8BIT) with false. cbv iota.
  destruct (read_reg_retry_counts i2c_transfer i2c_rx T4KA3_8BIT 4
              ltac:(cbv; split; congruence) bus
              (u16_mem (cpu_to_be16 reg) ++ repeat 0 30))
    as (k & mem' & new & _ & _ & Hrun & _); [reflexivity |].
  rewrite Hrun, u16_mem_be.
  change (take 2 (be16 reg ++ repeat 0 30)) with (be16 reg).
  exists new.
  destruct (i2c_transfer (length (xfers bus) + k)%nat =? 2).
  - left. eexists. reflexivity.
  - right. eexists. split; [apply read_failure_nonzero | reflexivity].
Qed.

Lemma write_reg_8bit_cases (bus : i2c_bus) (reg val : Z) :
  exists ret bus',
    t4ka3_write_reg i2c_transfer bus T4KA3_8BIT reg val = (ret, bus') /\
    (ret = 0 \/ ret = - EIO) /\
    last (xfers bus') = Some (be16 reg ++ [u8 val]).
Proof.
  unfold t4ka3_write_reg.
  change (negb (T4KA3_8BIT =? T4KA3_8BIT) &&
          negb (T4KA3_8BIT =? T4KA3_16BIT)) with false. cbv iota.
  destruct (write_reg_retry_counts i2c_transfer (u16 (T4KA3_8BIT + 2))
              (u16_mem (cpu_to_be16 reg) ++
               (if T4KA3_8BIT =? T4KA3_8BIT then [u8 val; 0]
                else u16_mem (cpu_to_be16 val))) 4 0 bus)
    as (k & _ & _ & Hrun & _).
  rewrite (write_reg_wire T4KA3_8BIT reg val (or_introl eq_refl)) in Hrun.
  rewrite Hrun. do 2 eexists. split; [reflexivity |]. split.
  - destruct (i2c_transfer (length (xfers bus) + k)%nat =? 1); auto.
  - cbn [xfers]. cbn [repeat]. rewrite repeat_cons, app_assoc.
    apply last_snoc.
Qed.

Lemma flip_outcome_rmw (p : Z) (sensor : Sensor.t4ka3_device) (value : Z)
    (bus : i2c_bus) :
  0 <= p < 8 ->
  flip_outcome sensor value bus p
    (if negb (Sensor.streaming sensor =? 0) then Done (- EBUSY, sensor, bus)
     else
       let '(ret, vals, bus1) :=
         t4ka3_read_reg i2c_transfer i2c_rx bus T4KA3_8BIT
           T4KA3_REG_IMG_ORIENTATION in
       if negb (ret =? 0) then Done (ret, sensor, bus1)
       else
         let val := hd 0 vals in
         let val := if negb (value =? 0) then u16 (Z.lor val (2 ^ p))
                    else u16 (Z.land val (Z.lnot (2 ^ p))) in
         let '(ret, bus2) :=
           t4ka3_write_reg i2c_transfer bus1 T4KA3_8BIT
             T4KA3_REG_IMG_ORIENTATION val in
         if negb (ret =? 0) then Done (ret, sensor, bus2)
         else
           let sensor := Sensor.set_flip sensor val in
           exec_bind
             (Sensor.t4ka3_set_bayer_order sensor (Sensor.format sensor))
             (fun fmt => Done (0, Sensor.set_format sensor fmt, bus2))).
Proof.
  intros Hp. unfold flip_outcome.
  destruct (Z.eqb_spec (Sensor.streaming sensor) 0) as [Es | Es]; cbn [negb].
  2: { exists (- EBUSY), sensor, bus. split; [reflexivity |].
       split; [reflexivity |]. split; [auto | discriminate]. }
  destruct (read_reg_8bit_cases bus T4KA3_REG_IMG_ORIENTATION)
    as (new & [(w & ->) | (e & He & ->)]).
  2: { rewrite (proj2 (Z.eqb_neq _ _) He). cbn [negb].
       do 3 eexists. split; [reflexivity |].
       split; [reflexivity |]. split; [contradiction | contradiction]. }
  cbn [Z.eqb negb hd]. cbv zeta.
  set (val := if negb (value =? 0) then u16 (Z.lor (u8 w) (2 ^ p))
              else u16 (Z.land (u8 w) (Z.lnot (2 ^ p)))).
  destruct (write_reg_8bit_cases
              {| xfers := xfers bus ++ be16 T4KA3_REG_IMG_ORIENTATION :: new;
                 sleeps := sleeps bus |} T4KA3_REG_IMG_ORIENTATION val)
    as (ret & bus2 & -> & [-> | ->] & Hlast).
  2: { cbn [negb]. do 3 eexists. split; [reflexivity |].
       split; [reflexivity |]. split; [contradiction | discriminate]. }
  cbn [Z.eqb negb]. rewrite set_bayer_order_table. cbn [exec_bind].
  do 3 eexists. split; [reflexivity |].
  split; [contradiction |]. split; [contradiction |]. intros _.
  split; [exact Es |]. cbn [Sensor.set_format Sensor.set_flip Sensor.flip].
  split.
  - rewrite Hlast. unfold val. now rewrite rmw_byte.
  - split.
    + unfold val. rewrite <- rmw_byte by exact Hp. apply u8_range.
    + unfold val. rewrite rmw_bits by lia. now rewrite Z.eqb_refl.
Qed.

(** X11: whatever the adapter does, the read-modify-write flips change
    the driver state only when they return 0; on a streaming sensor
    they return -EBUSY without touching the bus; and when they return 0
    the last message on the bus is the write of sensor->flip to
    register 0x0101, with bit 0 (horizontal) or bit 1 (vertical) set
    exactly when a non-zero value was asked for. *)
Theorem flips_commit_only_what_was_written
    (sensor : Sensor.t4ka3_device) (value : Z) (bus : i2c_bus) :
  flip_outcome sensor value bus 0
    (RegIO.t4ka3_t_hflip i2c_transfer i2c_rx sensor value bus) /\
  flip_outcome sensor value bus 1
    (RegIO.t4ka3_t_vflip i2c_transfer i2c_rx sensor value bus).
Proof.
  split.
  - apply (flip_outcome_rmw 0 sensor value bus). lia.
  - apply (flip_outcome_rmw 1 sensor value bus). lia.
Qed.

Lemma write_reg_accepted (bus : i2c_bus) (data_length reg val : Z) (k : nat) :
  data_length = T4KA3_8BIT \/ data_length = T4KA3_16BIT ->
  (k < 5)%nat ->
  refused 1 i2c_transfer (length (xfers bus)) k ->
  i2c_transfer (length (xfers bus) + k)%nat = 1 ->
  t4ka3_write_reg i2c_transfer bus data_length reg val =
    (0, {| xfers := xfers bus ++
                    repeat (reg_message data_length reg val) (S k);
           sleeps := sleeps bus |}).
Proof.
  intros Hlen Hk Hr Hok. unfold t4ka3_write_reg.
  replace (negb (data_length =? T4KA3_8BIT) &&
           negb (data_length =? T4KA3_16BIT)) with false
    by (destruct Hlen as [-> | ->]; reflexivity).
  destruct (write_reg_retry_counts i2c_transfer (u16 (data_length + 2))
              (u16_mem (cpu_to_be16 reg) ++
               (if data_length =? T4KA3_8BIT then [u8 val; 0]
                else u16_mem (cpu_to_be16 val))) 4 0 bus)
    as (k' & Hk' & Hr' & Hrun & Hlast).
  assert (k' = k) as ->.
  { apply (first_answer_unique i2c_transfer 1 (length (xfers bus))); auto.
    intros H. specialize (Hlast H). lia. }
  rewrite (write_reg_wire data_length reg val Hlen) in Hrun.
  rewrite Hrun, (proj2 (Z.eqb_eq _ _) Hok). reflexivity.
Qed.

Lemma flip_one_bit_rmw (p : Z) (sensor : Sensor.t4ka3_device) (value : Z)
    (bus : i2c_bus) (k1 k2 : nat) (b : Z) (rest : list Z) :
  0 <= p < 8 ->
  Sensor.streaming sensor = 0 ->
  (k1 < 5)%nat ->
  refused 2 i2c_transfer (length (xfers bus)) k1 ->
  i2c_transfer (length (xfers bus) + k1)%nat = 2 ->
  i2c_rx (length (xfers bus) + k1)%nat = b :: rest ->
  (k2 < 5)%nat ->
  refused 1 i2c_transfer (length (xfers bus) + S k1)%nat k2 ->
  i2c_transfer (length (xfers bus) + S k1 + k2)%nat = 1 ->
  flip_changes_one_bit b p value
    (if negb (Sensor.streaming sensor =? 0) then Done (- EBUSY, sensor, bus)
     else
       let '(ret, vals, bus1) :=
         t4ka3_read_reg i2c_transfer i2c_rx bus T4KA3_8BIT
           T4KA3_REG_IMG_ORIENTATION in
       if negb (ret =? 0) then Done (ret, sensor, bus1)
       else
         let val := hd 0 vals in
         let val := if negb (value =? 0) then u16 (Z.lor val (2 ^ p))
                    else u16 (Z.land val (Z.lnot (2 ^ p))) in
         let '(ret, bus2) :=
           t4ka3_write_reg i2c_transfer bus1 T4KA3_8BIT
             T4KA3_REG_IMG_ORIENTATION val in
         if negb (ret =? 0) then Done (ret, sensor, bus2)
         else
           let sensor := Sensor.set_flip sensor val in
           exec_bind
             (Sensor.t4ka3_set_bayer_order sensor (Sensor.format sensor))
             (fun fmt => Done (0, Sensor.set_format sensor fmt, bus2))).
Proof.
  intros Hp Hs Hk1 Hr1 Hok1 Hrx Hk2 Hr2 Hok2. unfold flip_changes_one_bit.
  rewrite Hs. cbn [Z.eqb negb].
  destruct (read_reg_value i2c_transfer i2c_rx bus T4KA3_8BIT
              T4KA3_REG_IMG_ORIENTATION k1) as (new & -> & Hn & _); auto.
  { rewrite Hrx. cbv. lia. }
  rewrite Hrx. unfold be_value.
  change (T4KA3_8BIT =? T4KA3_8BIT) with true.
  cbn [Z.eqb negb hd nth]. cbv zeta iota.
  set (val := if negb (value =? 0) then u16 (Z.lor (u8 b) (2 ^ p))
              else u16 (Z.land (u8 b) (Z.lnot (2 ^ p)))).
  rewrite (write_reg_accepted _ T4KA3_8BIT T4KA3_REG_IMG_ORIENTATION val k2);
    cbn [xfers]; rewrite ?length_app; cbn [length]; rewrite ?Hn; auto.
  cbn [Z.eqb negb]. rewrite set_bayer_order_table. cbn [exec_bind].
  do 2 eexists. split; [reflexivity |]. intros i Hi.
  cbn [Sensor.set_format Sensor.set_flip Sensor.flip].
  unfold val. now apply rmw_bits.
Qed.

(** X12: on an idle sensor, when the read of the image orientation
    register and the write that follows both get through within their
    five attempts, a flip returns 0 and changes only its own bit:
    sensor->flip, the byte written back, has bit 0 (horizontal) or bit
    1 (vertical) as requested and every other bit as the register
    delivered it. *)
Theorem flips_change_only_their_bit
    (sensor : Sensor.t4ka3_device) (value : Z) (bus : i2c_bus)
    (k1 k2 : nat) (b : Z) (rest : list Z) :
  Sensor.streaming sensor = 0 ->
  (k1 < 5)%nat ->
  refused 2 i2c_transfer (length (xfers bus)) k1 ->
  i2c_transfer (length (xfers bus) + k1)%nat = 2 ->
  i2c_rx (length (xfers bus) + k1)%nat = b :: rest ->
  (k2 < 5)%nat ->
  refused 1 i2c_transfer (length (xfers bus) + S k1)%nat k2 ->
  i2c_transfer (length (xfers bus) + S k1 + k2)%nat = 1 ->
  flip_changes_one_bit b 0 value
    (RegIO.t4ka3_t_hflip i2c_transfer i2c_rx sensor value bus) /\
  flip_changes_one_bit b 1 value
    (RegIO.t4ka3_t_vflip i2c_transfer i2c_rx sensor value bus).
Proof.
  intros Hs Hk1 Hr1 Hok1 Hrx Hk2 Hr2 Hok2. split.
  - apply (flip_one_bit_rmw 0 sensor value bus k1 k2 b rest); auto. lia.
  - apply (flip_one_bit_rmw 1 sensor value bus k1 k2 b rest); auto. lia.
Qed.

End Flip.

Lemma flips_change_only_their_bit_witness :
  flip_changes_one_bit 0x02 0 1
    (RegIO.t4ka3_t_hflip (read_then_write 0) (deliver 0 [0x02])
       SensorSpec.idle_sensor 1 idle_bus) /\
  flip_changes_one_bit 0x02 1 1
    (RegIO.t4ka3_t_vflip (read_then_write 0) (deliver 0 [0x02])
       SensorSpec.idle_sensor 1 idle_bus).
Proof.
  apply (flips_change_only_their_bit (read_then_write 0) (deliver 0 [0x02])
           SensorSpec.idle_sensor 1 idle_bus 0 0 0x02 []).
  - reflexivity.
  - lia.
  - intros j Hj. lia.
  - reflexivity.
  - reflexivity.
  - lia.
  - intros j Hj. lia.
  - reflexivity.
Defined.

(** * Streaming, controls and the exposure ioctl: every path *)

Import Sensor SensorSpec SensorOps SensorOpsSpec.

(** One step of a run: a logged call, or the test of its result. *)
Ltac kstep :=
  first
    [ rewrite call_run; cbn [exec_bind]
    | match goal with
      | |- context [if negb (?a =? 0) then _ else _] =>
          let E := fresh "E" in
          destruct (Z.eqb_spec a 0) as [E | E]; cbn [negb]
      end ].

(** Name the result of a finished run; what is left is what the
    statement says about it. *)
Ltac run_result :=
  lazymatch goal with
  | |- context [@eq _ (Done ((?r, ?s), _))] =>
      exists r, s; eexists;
      split; [rewrite <- ?app_assoc; cbn [app]; reflexivity |]
  end.

(** ** Stream off *)

(** X13: stopping a streaming sensor always makes the same four calls:
    lock, write of the suspend sequence, pm_runtime_put, unlock.  The
    value returned is the one pm_runtime_put gave, also when the suspend
    write failed; the streaming flag is cleared only when both the write
    and the put returned 0. *)
Theorem stream_off_returns_what_put_returns
    (answer : nat -> kcall -> Z) (ret_uninit : Z) (sensor : t4ka3_device)
    (log : list kcall) :
  streaming sensor <> 0 ->
  let suspended :=
    answer (length (log ++ [mutex_lock])) (cci_multi_reg_write t4ka3_suspend) in
  let put :=
    answer (length (log ++ [mutex_lock; cci_multi_reg_write t4ka3_suspend]))
           pm_runtime_put in
  t4ka3_s_stream answer ret_uninit sensor 0 log =
    Done ((put,
           if (suspended =? 0) && (put =? 0) then set_streaming sensor 0
           else sensor),
          log ++ [ mutex_lock; cci_multi_reg_write t4ka3_suspend;
                   pm_runtime_put; mutex_unlock ]).
Proof.
  intros Hs suspended put. subst suspended put.
  unfold t4ka3_s_stream, error_powerdown, error_unlock, kbind, kret.
  rewrite call_run; cbn [exec_bind].
  rewrite (proj2 (Z.eqb_neq _ _) Hs). cbn [Z.eqb negb].
  rewrite call_run; cbn [exec_bind].
  rewrite <- !app_assoc. cbn [app].
  destruct (Z.eqb_spec (answer (length (log ++ [mutex_lock]))
                               (cci_multi_reg_write t4ka3_suspend)) 0)
    as [E1 | E1]; cbn [negb andb].
  - rewrite call_run; cbn [exec_bind]. rewrite <- !app_assoc. cbn [app].
    destruct (Z.eqb_spec
                (answer
                   (length (log ++ [mutex_lock;
                                    cci_multi_reg_write t4ka3_suspend]))
                   pm_runtime_put) 0) as [E2 | E2]; cbn [negb].
    + rewrite call_run; cbn [exec_bind]. rewrite <- !app_assoc. reflexivity.
    + rewrite call_run; cbn [exec_bind]. rewrite <- !app_assoc. reflexivity.
  - rewrite call_run; cbn [exec_bind]. rewrite <- !app_assoc. cbn [app].
    rewrite call_run; cbn [exec_bind]. rewrite <- !app_assoc. reflexivity.
Qed.

Lemma stream_off_returns_what_put_returns_witness :
  t4ka3_s_stream suspend_fails 0 streaming_sensor 0 [] =
    Done ((0, streaming_sensor),
          [ mutex_lock; cci_multi_reg_write t4ka3_suspend;
            pm_runtime_put; mutex_unlock ]).
Proof.
  apply (stream_off_returns_what_put_returns suspend_fails 0
           streaming_sensor []).
  discriminate.
Defined.

(** ** The input lock *)

(** X14: on every path, for every request and whatever the kernel
    answers, t4ka3_s_stream returns with the input lock taken first,
    released last and touched by no call in between; and the device
    state is either untouched or, with 0 returned for a request that
    differed from the current state, has only its streaming flag set
    to 1 (start) or 0 (stop). *)
Theorem stream_locks_first_unlocks_last
    (answer : nat -> kcall -> Z) (ret_uninit : Z) (sensor : t4ka3_device)
    (enable : Z) (log : list kcall) :
  exists ret sensor' new,
    t4ka3_s_stream answer ret_uninit sensor enable log =
      Done ((ret, sensor'), log ++ new) /\
    head new = Some mutex_lock /\
    last new = Some mutex_unlock /\
    mutex_ops new = [mutex_lock; mutex_unlock] /\
    (sensor' = sensor \/
     (ret = 0 /\ streaming sensor <> enable /\
      sensor' = set_streaming sensor (stream_target enable))).
Proof.
  unfold t4ka3_s_stream, error_powerdown, error_unlock, kbind, kret,
    stream_target.
  rewrite call_run; cbn [exec_bind].
  destruct (Z.eqb_spec (streaming sensor) enable) as [Es | Es].
  { kstep. rewrite <- !app_assoc. cbn [app].
    do 3 eexists. split; [reflexivity |]. repeat split; auto. }
  destruct (Z.eqb_spec enable 0) as [E0 | E0]; cbn [negb].
  - repeat kstep.
    all: run_result.
    all: split; [reflexivity |]; split; [reflexivity |];
      split; [reflexivity |].
    all: first [ left; reflexivity | right; repeat split; assumption ].
  - repeat kstep.
    all: run_result.
    all: split; [reflexivity |]; split; [reflexivity |];
      split; [reflexivity |].
    all: first [ left; reflexivity | right; repeat split; assumption ].
Qed.

(** ** Controls set while the sensor is powered *)

(** X15: when the device is in use and the exposure range update is
    accepted, t4ka3_s_ctrl takes one power reference and drops it with
    its last call on every path, makes at most one register access in
    between, and changes the device state only when it returns 0.  An
    unknown control gives -EINVAL and a flip on a streaming sensor
    -EBUSY, both without any register access. *)
Theorem s_ctrl_powered_drops_its_reference
    (answer : nat -> kcall -> Z) (sensor : t4ka3_device) (ctrl : v4l2_ctrl)
    (log : list kcall) :
  in_use answer ->
  ranges_accepted answer ->
  exists ret sensor' new,
    t4ka3_s_ctrl answer sensor ctrl log = Done ((ret, sensor'), log ++ new) /\
    power_ops new = [pm_runtime_get_if_in_use; pm_runtime_put] /\
    last new = Some pm_runtime_put /\
    (length (reg_accesses new) <= 1)%nat /\
    (ret <> 0 -> sensor' = sensor) /\
    (forall other, id ctrl = V4L2_CID_OTHER other ->
                   ret = - EINVAL /\ reg_accesses new = []) /\
    (streaming sensor <> 0 ->
     id ctrl = V4L2_CID_HFLIP \/ id ctrl = V4L2_CID_VFLIP ->
     ret = - EBUSY /\ reg_accesses new = []).
Proof.
  intros Huse Hrange.
  unfold t4ka3_s_ctrl, t4ka3_update_exposure_range, t4ka3_test_pattern,
    t4ka3_t_hflip, t4ka3_t_vflip, kbind, kret, klift.
  destruct ctrl as [cid cval]. cbn [id val].
  destruct cid; cbn [exec_bind Z.eqb negb];
    rewrite ?call_run, ?Hrange; cbn [exec_bind Z.eqb negb];
    rewrite ?call_run; cbn [exec_bind];
    match goal with
    | |- context [?a =? 0] =>
        lazymatch a with
        | answer _ pm_runtime_get_if_in_use =>
            rewrite (proj2 (Z.eqb_neq a 0) (Huse _))
        end
    end.
  all: try (destruct (Z.eqb_spec (streaming sensor) 0) as [Es | Es];
            cbn [negb exec_bind]).
  all: repeat kstep.
  all: rewrite ?set_bayer_order_table; cbn [exec_bind]; repeat kstep.
  all: run_result.
  all: split; [reflexivity |]; split; [reflexivity |];
    split; [vm_compute; lia |].
  all: split; [try (intros _; reflexivity); try contradiction |].
  all: split; [intros other; try discriminate;
               intros _; split; reflexivity |].
  all: intros Hst [Hid | Hid]; try discriminate Hid; try contradiction;
    split; reflexivity.
Qed.

Lemma s_ctrl_powered_drops_its_reference_witness :
  exists ret sensor' new,
    t4ka3_s_ctrl powered streaming_sensor {| id := V4L2_CID_HFLIP; val := 1 |}
      [] = Done ((ret, sensor'), [] ++ new) /\
    power_ops new = [pm_runtime_get_if_in_use; pm_runtime_put] /\
    last new = Some pm_runtime_put /\
    (length (reg_accesses new) <= 1)%nat /\
    (ret <> 0 -> sensor' = streaming_sensor) /\
    (forall other,
       id {| id := V4L2_CID_HFLIP; val := 1 |} = V4L2_CID_OTHER other ->
       ret = - EINVAL /\ reg_accesses new = []) /\
    (streaming streaming_sensor <> 0 ->
     id {| id := V4L2_CID_HFLIP; val := 1 |} = V4L2_CID_HFLIP \/
     id {| id := V4L2_CID_HFLIP; val := 1 |} = V4L2_CID_VFLIP ->
     ret = - EBUSY /\ reg_accesses new = []).
Proof.
  apply (s_ctrl_powered_drops_its_reference powered streaming_sensor
           {| id := V4L2_CID_HFLIP; val := 1 |} []).
  - intros n. discriminate.
  - intros n c lo hi step def. reflexivity.
Defined.

(** ** The exposure ioctl *)

Lemma u16_range (x : Z) : 0 <= u16 x < 2 ^ 16.
Proof.
  unfold u16. change 0xffff with (Z.ones 16). rewrite Z.land_ones by lia.
  apply Z.mod_pos_bound. lia.
Qed.

Lemma set_exposure_run
    (answer : nat -> kcall -> Z) (dev : t4ka3_device)
    (coarse_itg gain digitalgain : Z) (log : list kcall) :
  0 <= coarse_itg < 2 ^ 16 ->
  0 <= gain < 2 ^ 16 ->
  0 <= digitalgain < 2 ^ 16 ->
  let c := clamp 1 (0xFFFF - 6) coarse_itg in
  let g := clamp 0x0080 0x07FF gain in
  let writes := exposure_writes (frame_length_lines c) c g digitalgain in
  exists ret dev' ws,
    __t4ka3_set_exposure answer dev coarse_itg gain digitalgain log =
      Done ((ret, dev'), log ++ ws) /\
    ws `prefix_of` writes /\
    (ret = 0 -> ws = writes /\ dev' = set_exposure_fields dev g c digitalgain) /\
    (ret <> 0 -> dev' = dev).
Proof.
  intros Hc Hg Hd c g writes.
  destruct (clamp_t_u16_spec coarse_itg 1 (0xFFFF - 6)) as [Ec Rc]; [lia | lia | lia |].
  destruct (clamp_t_u16_spec gain 0x0080 0x07FF) as [Eg Rg]; [lia | lia | lia |].
  fold c in Ec, Rc. fold g in Eg, Rg.
  unfold __t4ka3_set_exposure.
  unfold T4KA3_COARSE_INTEGRATION_TIME_MIN, T4KA3_MAX_EXPOSURE_SUPPORTED,
    T4KA3_MIN_GLOBAL_GAIN_SUPPORTED, T4KA3_MAX_GLOBAL_GAIN_SUPPORTED,
    T4KA3_COARSE_INTEGRATION_TIME_MARGIN, T4KA3_LINES_PER_FRAME.
  rewrite Ec, Eg, (u16_small digitalgain) by lia.
  assert (Efl : (if 2492 - 6 <? c then u16 (c + 6) else u16 2492)
                = frame_length_lines c).
  { unfold frame_length_lines. destruct (2492 - 6 <? c); apply u16_small; lia. }
  rewrite Efl. subst writes. unfold exposure_writes, kbind, kret.
  repeat kstep.
  all: run_result.
  all: split; [eexists; reflexivity |].
  all: split; [try contradiction; intros _; split; reflexivity
              | try contradiction; intros _; reflexivity ].
Qed.

(** X16: the exposure ioctl takes the input lock, runs the exposure
    writes and releases the lock on every path, also when a write fails.
    The three values are cut to 16 bits before they are clamped, so an
    integration time of 0x10005 programs 5 lines; the writes made are
    an initial part of the seven exposure writes for the cut and clamped
    values, all seven when 0 is returned, and the cached values change
    only then. *)
Theorem exposure_ioctl_wraps_and_unlocks
    (answer : nat -> kcall -> Z) (dev : t4ka3_device)
    (arg : atomisp_exposure) (log : list kcall) :
  let c := clamp 1 (0xFFFF - 6) (u16 (integration_time_0 arg)) in
  let g := clamp 0x0080 0x07FF (u16 (gain_0 arg)) in
  let d := u16 (gain_1 arg) in
  let writes := exposure_writes (frame_length_lines c) c g d in
  exists ret dev' ws,
    t4ka3_ioctl answer dev ATOMISP_IOC_S_EXPOSURE arg log =
      Done ((ret, dev'), log ++ mutex_lock :: ws ++ [mutex_unlock]) /\
    ws `prefix_of` writes /\
    (ret = 0 -> ws = writes /\ dev' = set_exposure_fields dev g c d) /\
    (ret <> 0 -> dev' = dev).
Proof.
  intros c g d writes.
  unfold t4ka3_ioctl, t4ka3_s_exposure, t4ka3_set_exposure, kbind, kret.
  rewrite call_run; cbn [exec_bind].
  destruct (set_exposure_run answer dev (u16 (integration_time_0 arg))
              (u16 (gain_0 arg)) (u16 (gain_1 arg)) (log ++ [mutex_lock])
              (u16_range _) (u16_range _) (u16_range _))
    as (ret & dev' & ws & Hrun & Hpre & Hok & Hfail).
  rewrite Hrun; cbn [exec_bind]. rewrite call_run; cbn [exec_bind].
  exists ret, dev', ws. split.
  - rewrite <- !app_assoc. reflexivity.
  - split; [exact Hpre |]. split; [exact Hok | exact Hfail].
Qed.

(** * Mode selection and frame size enumeration *)

Import Resolution ResolutionSpec FrameSizes FormatSpec.

(** ** Frame size enumeration *)

Lemma s32_small (x : Z) : 0 <= x < 2 ^ 31 -> s32 x = x.
Proof. intros H. unfold s32. rewrite Z.mod_small; lia. Qed.

Lemma s32_high (x : Z) : 2 ^ 31 <= x < 2 ^ 32 -> s32 x = x - 2 ^ 32.
Proof.
  intros H. unfold s32.
  replace (x + 2 ^ 31) with (x - 2 ^ 31 + 1 * 2 ^ 32) by lia.
  rewrite Z.mod_add by lia. rewrite Z.mod_small; lia.
Qed.

(** X17: frame size enumeration with the index compared against
    ARRAY_SIZE answers every 32-bit index: the sizes of the entry when
    there is one, -EINVAL with the request untouched otherwise.  The
    legacy revision compares the index as an int against N_RES: it
    agrees for indices below 2^31 and reads t4ka3_res out of bounds for
    every index from 2^31 on. *)
Theorem enum_frame_size_index_check
    (t4ka3_res : list t4ka3_resolution) (fse : v4l2_subdev_frame_size_enum) :
  0 <= fse_index fse < 2 ^ 32 ->
  Z.of_nat (length t4ka3_res) < 2 ^ 31 ->
  t4ka3_enum_frame_size_array_size t4ka3_res fse =
    match t4ka3_res !! Z.to_nat (fse_index fse) with
    | Some r => Done (0, fse_fill fse r)
    | None => Done (- EINVAL, fse)
    end /\
  t4ka3_enum_frame_size t4ka3_res fse =
    if fse_index fse <? 2 ^ 31
    then t4ka3_enum_frame_size_array_size t4ka3_res fse
    else Trap OutOfBounds.
Proof.
  intros Hi Hn.
  unfold t4ka3_enum_frame_size, t4ka3_enum_frame_size_array_size,
    size_t_of_int, res_at.
  destruct (Z.ltb_spec (fse_index fse) (2 ^ 31)) as [Hlo | Hhi].
  - rewrite s32_small by lia. rewrite (Z.mod_small (fse_index fse)) by lia.
    split; [| reflexivity].
    destruct (Z.leb_spec (Z.of_nat (length t4ka3_res)) (fse_index fse)).
    + rewrite lookup_ge_None_2 by lia. reflexivity.
    + replace (fse_index fse <? 0) with false by (symmetry; apply Z.ltb_ge; lia).
      destruct (lookup_lt_is_Some_2 t4ka3_res (Z.to_nat (fse_index fse)))
        as [r Hr]; [lia |].
      rewrite Hr. reflexivity.
  - rewrite s32_high by lia.
    replace ((fse_index fse - 2 ^ 32) mod 2 ^ 64)
      with (fse_index fse - 2 ^ 32 + 2 ^ 64).
    2: { replace (fse_index fse - 2 ^ 32)
           with (fse_index fse - 2 ^ 32 + 2 ^ 64 + (-1) * 2 ^ 64) by lia.
         rewrite Z.mod_add by lia. rewrite Z.mod_small; lia. }
    split.
    + replace (Z.of_nat (length t4ka3_res) <=? fse_index fse - 2 ^ 32 + 2 ^ 64)
        with true by (symmetry; apply Z.leb_le; lia).
      rewrite lookup_ge_None_2 by lia. reflexivity.
    + replace (Z.of_nat (length t4ka3_res) <=? fse_index fse - 2 ^ 32)
        with false by (symmetry; apply Z.leb_gt; lia).
      replace (fse_index fse - 2 ^ 32 <? 0) with true
        by (symmetry; apply Z.ltb_lt; lia).
      reflexivity.
Qed.

Lemma enum_frame_size_index_check_witness :
  t4ka3_enum_frame_size_array_size t4ka3_res_preview
    {| fse_index := 0xFFFFFFFF; min_width := 0; max_width := 0;
       min_height := 0; max_height := 0 |} =
    Done (- EINVAL,
          {| fse_index := 0xFFFFFFFF; min_width := 0; max_width := 0;
             min_height := 0; max_height := 0 |}) /\
  t4ka3_enum_frame_size t4ka3_res_preview
    {| fse_index := 0xFFFFFFFF; min_width := 0; max_width := 0;
       min_height := 0; max_height := 0 |} = Trap OutOfBounds.
Proof.
  apply (enum_frame_size_index_check t4ka3_res_preview
           {| fse_index := 0xFFFFFFFF; min_width := 0; max_width := 0;
              min_height := 0; max_height := 0 |}).
  - simpl. lia.
  - simpl. lia.
Defined.

(** ** Degenerate requests *)

(** X18: a request of width 0 that passes the size limit makes distance
    divide by zero on the first catalog entry: the division by the
    width comes before any test of the request. *)
Theorem try_fmt_zero_width_divides_by_zero
    (t4ka3_res : list t4ka3_resolution) (fmt : v4l2_mbus_framefmt) :
  t4ka3_res <> [] ->
  width fmt = 0 ->
  height fmt <= T4KA3_RES_HEIGHT_MAX ->
  __t4ka3_try_mbus_fmt t4ka3_res fmt = Trap DivideByZero.
Proof.
  intros Hne Hw Hh. unfold __t4ka3_try_mbus_fmt. rewrite Hw.
  change (T4KA3_RES_WIDTH_MAX <? 0) with false.
  replace (T4KA3_RES_HEIGHT_MAX <? height fmt) with false
    by (symmetry; apply Z.ltb_ge; lia).
  cbn [orb]. destruct t4ka3_res as [| e rest]; [contradiction |].
  unfold nearest_resolution_index. cbn [nearest_loop].
  change (u32 (s32 0)) with 0. unfold distance. cbn [Z.eqb exec_bind].
  reflexivity.
Qed.

Lemma try_fmt_zero_width_divides_by_zero_witness :
  __t4ka3_try_mbus_fmt t4ka3_res_preview
    {| width := 0; height := 480; code := MEDIA_BUS_FMT_SGRBG10_1X10 |} =
  Trap DivideByZero.
Proof.
  apply (try_fmt_zero_width_divides_by_zero t4ka3_res_preview
           {| width := 0; height := 480;
              code := MEDIA_BUS_FMT_SGRBG10_1X10 |}).
  - discriminate.
  - reflexivity.
  - simpl. unfold T4KA3_RES_HEIGHT_MAX. lia.
Defined.

Lemma nearest_loop_all_rejected (rest : list t4ka3_resolution) :
  forall i idx min_dist w h,
    Forall (fun e => distance e (u32 w) (u32 h) = Done (-1)) rest ->
    nearest_loop rest i idx min_dist w h = Done idx.
Proof.
  induction rest as [| e rest IH]; intros i idx min_dist w h Hall;
    cbn [nearest_loop]; [reflexivity |].
  inversion Hall as [| ? ? He Hrest]; subst.
  rewrite He. cbn [exec_bind Z.eqb]. now apply IH.
Qed.

(** X19: a request of height 0 and a non-zero width within the limit
    is rejected by every catalog entry, and the fallback hands out the
    last entry of the catalog. *)
Theorem try_fmt_zero_height_gets_last_entry
    (t4ka3_res : list t4ka3_resolution) (fmt : v4l2_mbus_framefmt)
    (r : t4ka3_resolution) :
  last t4ka3_res = Some r ->
  0 < width fmt <= T4KA3_RES_WIDTH_MAX ->
  height fmt = 0 ->
  __t4ka3_try_mbus_fmt t4ka3_res fmt = Done (0, fmt_of_res r).
Proof.
  intros Hlast Hw Hh. unfold __t4ka3_try_mbus_fmt. rewrite Hh.
  unfold T4KA3_RES_WIDTH_MAX in *.
  replace (3280 <? width fmt) with false by (symmetry; apply Z.ltb_ge; lia).
  change (T4KA3_RES_HEIGHT_MAX <? 0) with false. cbn [orb].
  unfold nearest_resolution_index.
  rewrite nearest_loop_all_rejected.
  2: { apply Forall_forall. intros e _.
       rewrite s32_small by lia. change (u32 (s32 0)) with 0.
       unfold distance, u32. rewrite (Z.mod_small (width fmt)) by lia.
       replace (width fmt =? 0) with false by (symmetry; apply Z.eqb_neq; lia).
       reflexivity. }
  cbn [exec_bind]. change (-1 =? -1) with true. cbv iota.
  assert (Hlen : (0 < length t4ka3_res)%nat).
  { destruct t4ka3_res; [discriminate Hlast | simpl; lia]. }
  replace (Z.of_nat (length t4ka3_res) - 1 <? 0) with false
    by (symmetry; apply Z.ltb_ge; lia).
  replace (Z.to_nat (Z.of_nat (length t4ka3_res) - 1))
    with (pred (length t4ka3_res)) by lia.
  rewrite <- last_lookup, Hlast. reflexivity.
Qed.

Lemma try_fmt_zero_height_gets_last_entry_witness :
  __t4ka3_try_mbus_fmt t4ka3_res_preview
    {| width := 640; height := 0; code := MEDIA_BUS_FMT_SGRBG10_1X10 |} =
  Done (0, {| width := 3280; height := 2464;
              code := MEDIA_BUS_FMT_SGRBG10_1X10 |}).
Proof.
  apply (try_fmt_zero_height_gets_last_entry t4ka3_res_preview
           {| width := 640; height := 0;
              code := MEDIA_BUS_FMT_SGRBG10_1X10 |}
           largest_res).
  - reflexivity.
  - simpl. unfold T4KA3_RES_WIDTH_MAX. lia.
  - reflexivity.
Defined.

(** ** The entry nearest_resolution_index picks *)

Lemma candidate_rejected (w h : Z) (e : t4ka3_resolution) (d : Z) :
  distance e (u32 w) (u32 h) = Done (-1) -> ~ candidate w h e d.
Proof. intros He [Hd Hne]. rewrite He in Hd. congruence. Qed.

Lemma candidate_distance (w h : Z) (e : t4ka3_resolution) (d d' : Z) :
  distance e (u32 w) (u32 h) = Done d -> candidate w h e d' -> d' = d.
Proof. intros He [Hd _]. rewrite He in Hd. congruence. Qed.

Lemma nearest_loop_min (rest : list t4ka3_resolution) :
  forall i idx min_dist w h r,
    nearest_loop rest i idx min_dist w h = Done r ->
    (r = idx /\ none_nearer w h rest min_dist) \/
    (exists before e after d,
        rest = before ++ e :: after /\
        r = i + Z.of_nat (length before) /\
        candidate w h e d /\ d < min_dist /\
        all_farther w h before d /\ none_nearer w h after d).
Proof.
  induction rest as [| e0 rest IH]; intros i idx min_dist w h r;
    cbn [nearest_loop].
  - intros [= <-]. left. split; [reflexivity |]. intros e d' [].
  - destruct (distance e0 (u32 w) (u32 h)) as [d0 | f] eqn:D0;
      cbn [exec_bind]; [| discriminate].
    assert (Hskip : forall idx' md',
               (forall d', candidate w h e0 d' -> md' <= d') ->
               nearest_loop rest (i + 1) idx' md' w h = Done r ->
               (r = idx' /\ none_nearer w h (e0 :: rest) md') \/
               (exists before e after d,
                   e0 :: rest = before ++ e :: after /\
                   r = i + Z.of_nat (length before) /\
                   candidate w h e d /\ d < md' /\
                   all_farther w h before d /\ none_nearer w h after d)).
    { intros idx' md' Hfar L.
      destruct (IH _ _ _ _ _ _ L)
        as [[-> Hnone] | (before & e & after & d & -> & -> & Hc & Hlt & Hb & Ha)].
      - left. split; [reflexivity |].
        intros e d' [<- | Hin] Hc; [now apply Hfar | now apply (Hnone e)].
      - right. exists (e0 :: before), e, after, d.
        split; [reflexivity |]. split; [cbn [length]; lia |].
        split; [exact Hc |]. split; [exact Hlt |]. split; [| exact Ha].
        intros e' d' [<- | Hin] Hc'.
        + specialize (Hfar d' Hc'). lia.
        + now apply (Hb e'). }
    destruct (Z.eqb_spec d0 (-1)) as [E | E].
    { subst d0. apply Hskip. intros d' Hc.
      exfalso. exact (candidate_rejected w h e0 d' D0 Hc). }
    destruct (Z.ltb_spec d0 min_dist) as [Hlt | Hge].
    + intros L.
      destruct (IH _ _ _ _ _ _ L)
        as [[-> Hnone] | (before & e & after & d & -> & -> & Hc & Hlt' & Hb & Ha)].
      * right. exists [], e0, rest, d0.
        split; [reflexivity |]. split; [cbn [length]; lia |].
        split; [split; assumption |]. split; [exact Hlt |].
        split; [intros e d' [] | exact Hnone].
      * right. exists (e0 :: before), e, after, d.
        split; [reflexivity |]. split; [cbn [length]; lia |].
        split; [exact Hc |]. split; [lia |]. split; [| exact Ha].
        intros e' d' [<- | Hin] Hc'.
        -- rewrite (candidate_distance w h e0 d0 d' D0 Hc'). exact Hlt'.
        -- now apply (Hb e').
    + apply Hskip. intros d' Hc.
      rewrite (candidate_distance w h e0 d0 d' D0 Hc). exact Hge.
Qed.

(** X20: the index nearest_resolution_index returns is that of the
    first catalog entry of least distance among the entries distance
    accepts: every accepted entry before it is strictly farther and no
    accepted entry after it is nearer.  It returns -1 only when no
    entry is accepted with a distance below INT_MAX. *)
Theorem nearest_index_is_first_minimum
    (t4ka3_res : list t4ka3_resolution) (w h r : Z) :
  nearest_resolution_index t4ka3_res w h = Done r ->
  (r = -1 /\ none_nearer w h t4ka3_res INT_MAX) \/
  (exists before e after d,
      t4ka3_res = before ++ e :: after /\
      r = Z.of_nat (length before) /\
      candidate w h e d /\
      all_farther w h before d /\ none_nearer w h after d).
Proof.
  intros Hrun. unfold nearest_resolution_index in Hrun.
  destruct (nearest_loop_min _ _ _ _ _ _ _ Hrun)
    as [[-> Hnone] | (before & e & after & d & Hsplit & -> & Hc & _ & Hb & Ha)].
  - left. split; [reflexivity | exact Hnone].
  - right. exists before, e, after, d.
    split; [exact Hsplit |]. split; [lia |].
    split; [exact Hc |]. split; [exact Hb | exact Ha].
Qed.

Lemma nearest_index_is_first_minimum_witness :
  (2 = -1 /\ none_nearer 1280 720 t4ka3_res_preview INT_MAX) \/
  (exists before e after d,
      t4ka3_res_preview = before ++ e :: after /\
      2 = Z.of_nat (length before) /\
      candidate 1280 720 e d /\
      all_farther 1280 720 before d /\ none_nearer 1280 720 after d).
Proof.
  apply (nearest_index_is_first_minimum t4ka3_res_preview 1280 720 2).
  reflexivity.
Defined.

(** ** Trying a format twice *)

Lemma try_fmt_result_in_catalog
    (t4ka3_res : list t4ka3_resolution) (fmt : v4l2_mbus_framefmt)
    (ret : Z) (fmt' : v4l2_mbus_framefmt) :
  __t4ka3_try_mbus_fmt t4ka3_res fmt = Done (ret, fmt') ->
  ret = 0 /\
  (fmt' = {| width := T4KA3_RES_WIDTH_MAX; height := T4KA3_RES_HEIGHT_MAX;
             code := MEDIA_BUS_FMT_SGRBG10_1X10 |} \/
   exists r, In r t4ka3_res /\ fmt' = fmt_of_res r).
Proof.
  unfold __t4ka3_try_mbus_fmt.
  destruct ((T4KA3_RES_WIDTH_MAX <? width fmt) ||
            (T4KA3_RES_HEIGHT_MAX <? height fmt)).
  - intros [= <- <-]. split; [reflexivity | now left].
  - destruct (nearest_resolution_index t4ka3_res (s32 (width fmt))
                (s32 (height fmt))) as [idx | f]; cbn [exec_bind];
      [| discriminate].
    destruct (_ <? 0); [discriminate |].
    destruct (t4ka3_res !! Z.to_nat _) as [r |] eqn:Hr; [| discriminate].
    intros [= <- <-]. split; [reflexivity |]. right. exists r.
    split; [| reflexivity].
    apply list_elem_of_In. now apply list_elem_of_lookup_2 in Hr.
Qed.

(** X21: on the catalog the driver ships, trying a format is
    idempotent: the format __t4ka3_try_mbus_fmt settles on is returned
    unchanged when it is tried again. *)
Theorem try_fmt_is_idempotent
    (fmt : v4l2_mbus_framefmt) (ret : Z) (fmt' : v4l2_mbus_framefmt) :
  __t4ka3_try_mbus_fmt t4ka3_res_preview fmt = Done (ret, fmt') ->
  __t4ka3_try_mbus_fmt t4ka3_res_preview fmt' = Done (0, fmt').
Proof.
  intros Hrun.
  destruct (try_fmt_result_in_catalog _ _ _ _ Hrun) as [_ [-> | (r & Hin & ->)]].
  - reflexivity.
  - simpl in Hin.
    destruct Hin as [<- | [<- | [<- | [<- | []]]]]; reflexivity.
Qed.

Lemma try_fmt_is_idempotent_witness :
  __t4ka3_try_mbus_fmt t4ka3_res_preview
    {| width := 1936; height := 1096; code := MEDIA_BUS_FMT_SGRBG10_1X10 |} =
  Done (0, {| width := 1936; height := 1096;
              code := MEDIA_BUS_FMT_SGRBG10_1X10 |}).
Proof.
  apply (try_fmt_is_idempotent
           {| width := 1280; height := 720;
              code := MEDIA_BUS_FMT_SGRBG10_1X10 |} 0
           {| width := 1936; height := 1096;
              code := MEDIA_BUS_FMT_SGRBG10_1X10 |}).
  reflexivity.
Defined.

(** * Flips under group hold *)

Import RegArray Spec RegIO RegIOSpec LegacyFlip LegacyFlipSpec.

Section Legacy.

Variable i2c_transfer : nat -> Z.
Variable i2c_rx : nat -> list Z.

(** The one-entry programs that write the group hold register. *)
Lemma group_hold_run (stack : t4ka3_write_buffer) (bus : i2c_bus) (v : Z) :
  length (data stack) = 30%nat ->
  t4ka3_write_reg_array i2c_transfer stack bus
    [ {| type := T4KA3_8BIT; sreg := 0x0104; val := v |};
      {| type := T4KA3_TOK_TERM; sreg := 0; val := 0 |} ] =
  Done (if i2c_transfer (length (xfers bus)) =? 1 then 0 else - EIO,
        {| xfers := xfers bus ++ [[0x01; 0x04; u8 v]]; sleeps := sleeps bus |}).
Proof.
  intros Hl. unfold t4ka3_write_reg_array.
  destruct (write_reg_loop_single_burst i2c_transfer bus
              {| index := 0; buffer := stack |} 0x0104
              [ {| type := T4KA3_8BIT; sreg := 0x0104; val := v |} ]
              {| type := T4KA3_TOK_TERM; sreg := 0; val := 0 |} [])
    as (ctrl' & Hrun); try reflexivity; try assumption.
  - discriminate.
  - constructor; [left; reflexivity | constructor].
  - simpl. auto.
  - simpl. lia.
  - cbn [app] in Hrun. rewrite Hrun. reflexivity.
Qed.

Lemma read_reg_8bit_msgs (bus : i2c_bus) (reg : Z) :
  exists new,
    Forall (fun m => length m = 2%nat) new /\
    ((exists w, t4ka3_read_reg i2c_transfer i2c_rx bus T4KA3_8BIT reg =
        (0, [u8 w],
         {| xfers := xfers bus ++ new; sleeps := sleeps bus |})) \/
     (exists e, e <> 0 /\
        t4ka3_read_reg i2c_transfer i2c_rx bus T4KA3_8BIT reg =
        (e, [],
         {| xfers := xfers bus ++ new; sleeps := sleeps bus |}))).
Proof.
  unfold t4ka3_read_reg.
  change (T4KA3_BYTE_MAX <? T4KA3_8BIT) with false. cbv iota.
  destruct (read_reg_retry_counts i2c_transfer i2c_rx T4KA3_8BIT 4
              ltac:(cbv; split; congruence) bus
              (u16_mem (cpu_to_be16 reg) ++ repeat 0 30))
    as (k & mem' & new & _ & _ & Hrun & _ & Hall & _); [reflexivity |].
  rewrite Hrun, u16_mem_be.
  change (take 2 (be16 reg ++ repeat 0 30)) with (be16 reg).
  exists (be16 reg :: new). split; [constructor; [reflexivity | exact Hall] |].
  destruct (i2c_transfer (length (xfers bus) + k)%nat =? 2).
  - left. eexists. reflexivity.
  - right. eexists. split; [apply read_failure_nonzero | reflexivity].
Qed.

Lemma write_reg_8bit_msgs (bus : i2c_bus) (reg val : Z) :
  exists k,
    t4ka3_write_reg i2c_transfer bus T4KA3_8BIT reg val =
      (if i2c_transfer (length (xfers bus) + k)%nat =? 1 then 0 else - EIO,
       {| xfers := xfers bus ++ repeat (be16 reg ++ [u8 val]) (S k);
          sleeps := sleeps bus |}).
Proof.
  unfold t4ka3_write_reg.
  change (negb (T4KA3_8BIT =? T4KA3_8BIT) &&
          negb (T4KA3_8BIT =? T4KA3_16BIT)) with false. cbv iota.
  destruct (write_reg_retry_counts i2c_transfer (u16 (T4KA3_8BIT + 2))
              (u16_mem (cpu_to_be16 reg) ++
               (if T4KA3_8BIT =? T4KA3_8BIT then [u8 val; 0]
                else u16_mem (cpu_to_be16 val))) 4 0 bus)
    as (k & _ & _ & Hrun & _).
  rewrite (write_reg_wire T4KA3_8BIT reg val (or_introl eq_refl)) in Hrun.
  exists k. exact Hrun.
Qed.

Lemma release_not_read (new : list (list Z)) :
  Forall (fun m => length m = 2%nat) new -> ~ In release_message new.
Proof.
  intros Hall Hin. rewrite Forall_forall in Hall.
  apply list_elem_of_In in Hin. specialize (Hall _ Hin). discriminate Hall.
Qed.

Lemma release_not_orientation (v : Z) (n : nat) :
  ~ In release_message (repeat (be16 0x0101 ++ [v]) n).
Proof. intros Hin. apply repeat_spec in Hin. discriminate Hin. Qed.

Lemma legacy_flip_rmw (p : Z) (stack1 stack2 : t4ka3_write_buffer)
    (dev : Sensor.t4ka3_device) (value : Z) (bus : i2c_bus) :
  0 <= p < 8 ->
  length (data stack1) = 30%nat ->
  length (data stack2) = 30%nat ->
  legacy_flip_outcome dev value bus i2c_transfer p
    (exec_bind
       (t4ka3_write_reg_array i2c_transfer stack1 bus t4ka3_param_hold)
       (fun '(_, bus0) =>
        let '(ret, vals, bus1) :=
          t4ka3_read_reg i2c_transfer i2c_rx bus0 T4KA3_8BIT
            T4KA3_REG_IMG_ORIENTATION in
        if negb (ret =? 0) then Done (ret, dev, bus1)
        else
          let val := hd 0 vals in
          let val := if negb (value =? 0) then u16 (Z.lor val (2 ^ p))
                     else u16 (Z.land val (Z.lnot (2 ^ p))) in
          let '(ret, bus2) :=
            t4ka3_write_reg i2c_transfer bus1 T4KA3_8BIT
              T4KA3_REG_IMG_ORIENTATION val in
          if negb (ret =? 0) then Done (ret, dev, bus2)
          else
            exec_bind
              (t4ka3_write_reg_array i2c_transfer stack2 bus2
                 t4ka3_param_update)
              (fun '(ret, bus3) =>
                 Done (ret, Sensor.set_flip dev val, bus3)))).
Proof.
  intros Hp Hl1 Hl2. unfold legacy_flip_outcome, t4ka3_param_hold.
  rewrite (group_hold_run stack1 bus 0x1 Hl1). cbn [exec_bind].
  set (bus0 := {| xfers := xfers bus ++ [[0x01; 0x04; u8 0x1]];
                  sleeps := sleeps bus |}).
  destruct (read_reg_8bit_msgs bus0 T4KA3_REG_IMG_ORIENTATION)
    as (rd & Hrd & [(w & ->) | (e & He & ->)]).
  2: { rewrite (proj2 (Z.eqb_neq _ _) He). cbn [negb].
       exists e, dev, rd. split.
       - unfold bus0. cbn [xfers sleeps]. now rewrite <- app_assoc.
       - right. split; [exact He |]. split; [reflexivity |].
         now apply release_not_read. }
  cbn [Z.eqb negb hd]. cbv zeta.
  set (val := if negb (value =? 0) then u16 (Z.lor (u8 w) (2 ^ p))
              else u16 (Z.land (u8 w) (Z.lnot (2 ^ p)))).
  set (bus1 := {| xfers := xfers bus0 ++ rd; sleeps := sleeps bus0 |}).
  destruct (write_reg_8bit_msgs bus1 T4KA3_REG_IMG_ORIENTATION val)
    as (k & ->).
  assert (Hnot : ~ In release_message
                   (rd ++ repeat (be16 T4KA3_REG_IMG_ORIENTATION ++ [u8 val])
                            (S k))).
  { intros Hin. apply in_app_or in Hin as [Hin | Hin].
    - now apply (release_not_read rd).
    - now apply (release_not_orientation (u8 val) (S k)). }
  destruct (Z.eqb_spec (i2c_transfer (length (xfers bus1) + k)%nat) 1)
    as [E | E]; cbn [Z.eqb negb].
  2: { do 3 eexists. split.
       - unfold bus1, bus0. cbn [xfers sleeps].
         rewrite <- !app_assoc. cbn [app]. reflexivity.
       - right. split; [discriminate |]. split; [reflexivity | exact Hnot]. }
  unfold t4ka3_param_update. rewrite (group_hold_run stack2 _ 0x0 Hl2).
  cbn [exec_bind xfers sleeps].
  exists (if i2c_transfer
               (length (xfers bus1 ++
                        repeat (be16 T4KA3_REG_IMG_ORIENTATION ++ [u8 val])
                               (S k))) =? 1 then 0 else - EIO),
    (Sensor.set_flip dev val),
    ((rd ++ repeat (be16 T4KA3_REG_IMG_ORIENTATION ++ [u8 val]) (S k)) ++
     [release_message]).
  split.
  - unfold bus1, bus0. cbn [xfers sleeps].
    rewrite <- !app_assoc. cbn [app]. reflexivity.
  - left. split; [apply last_snoc |]. split.
    + unfold bus1, bus0. cbn [xfers sleeps].
      rewrite !length_app. cbn [length].
      replace (length (xfers bus) + 1 + length rd +
               length (repeat (be16 T4KA3_REG_IMG_ORIENTATION ++ [u8 val])
                              (S k)))%nat
        with (length (xfers bus) +
              (length rd +
               length (repeat (be16 T4KA3_REG_IMG_ORIENTATION ++ [u8 val])
                              (S k)) + 1))%nat by lia.
      reflexivity.
    + split; [reflexivity |].
      cbn [Sensor.set_flip Sensor.flip]. unfold val.
      rewrite rmw_bits by lia. now rewrite Z.eqb_refl.
Qed.

(** X22: a legacy flip sends the group hold first and ignores whether
    it was accepted.  When the read or the write of the orientation
    register then fails, the error is returned with the driver state
    untouched and the hold is never released; otherwise the release is
    the last message, its result is the value returned, and
    sensor->flip is changed, with the flip bit as requested, even when
    the release was refused. *)
Theorem legacy_flips_leave_hold_on_error
    (stack1 stack2 : t4ka3_write_buffer) (dev : Sensor.t4ka3_device)
    (value : Z) (bus : i2c_bus) :
  length (data stack1) = 30%nat ->
  length (data stack2) = 30%nat ->
  legacy_flip_outcome dev value bus i2c_transfer 0
    (LegacyFlip.t4ka3_t_hflip i2c_transfer i2c_rx stack1 stack2 dev value bus)
  /\
  legacy_flip_outcome dev value bus i2c_transfer 1
    (LegacyFlip.t4ka3_t_vflip i2c_transfer i2c_rx stack1 stack2 dev value bus).
Proof.
  intros Hl1 Hl2. split.
  - apply (legacy_flip_rmw 0 stack1 stack2 dev value bus); auto. lia.
  - apply (legacy_flip_rmw 1 stack1 stack2 dev value bus); auto. lia.
Qed.

End Legacy.

Lemma legacy_flips_leave_hold_on_error_witness :
  legacy_flip_outcome SensorSpec.idle_sensor 1 idle_bus
    hold_and_release_refused 0
    (LegacyFlip.t4ka3_t_hflip hold_and_release_refused (deliver 1 [0x02])
       zero_stack zero_stack SensorSpec.idle_sensor 1 idle_bus) /\
  legacy_flip_outcome SensorSpec.idle_sensor 1 idle_bus
    hold_and_release_refused 1
    (LegacyFlip.t4ka3_t_vflip hold_and_release_refused (deliver 1 [0x02])
       zero_stack zero_stack SensorSpec.idle_sensor 1 idle_bus).
Proof.
  apply (legacy_flips_leave_hold_on_error hold_and_release_refused
           (deliver 1 [0x02]) zero_stack zero_stack SensorSpec.idle_sensor 1
           idle_bus); reflexivity.
Defined.
